(** * FlowCraft: the workflow generator and the execution simulator

    A shallow embedding of [lib/workflowGenerator] (generateWorkflow and its
    templates) and of [lib/workflowExecutor.ts] (executeWorkflow and
    simulateStepExecution), with the properties of their specification,
    followed by the pure parts of their callers and by further properties of
    the generator, of the executor and of both together.

    Modelling conventions.
    - A JavaScript string is a [string] that holds the bytes of its UTF-8
      form; the literals of the source are kept byte for byte.  [length]
      counts UTF-16 code units ([Str.utf16_length]); [trim] and the class
      [\s] know the white space and the line terminators of ECMAScript, in
      one, two or three bytes; [includes] with an ASCII needle is the same
      on bytes and on code units.  [toLowerCase] lower-cases ASCII itself
      and asks the environment for the Unicode mapping of every other
      character ([lowerNonAscii]), so what is proved for every environment
      holds of the real mapping.
    - [Date.now()], [new Date().toISOString()] and [Math.random()] are read
      from an environment [Env]: the n-th call returns the n-th value of an
      oracle.  The counters live in the [World].
    - Arrays of execution logs live in a heap ([gmap] from locations to
      lists); an execution object holds the location of its [logs] array, so
      that a spread copy [{...execution}] shares the array while a
      [JSON.parse(JSON.stringify(execution))] copy owns a new one.  The log
      objects are reached through their array only, and the execution
      objects are never changed once another holder has them, so both are
      kept as values.
    - The progress callback belongs to the caller; it is taken to be a
      passive observer that keeps what it is handed ([received]).
    - A computation is a function from the [World] to an [Outcome]: it either
      returns a value or throws.
    - The [World] also keeps the history of the calls of
      simulateStepExecution ([simulations]); only the statements read it.
    - A number of a config is an integer; it is printed with its digits up
      to 2^53 and by the environment beyond ([numberToString]). *)

From Stdlib Require Import Ascii QArith.
From stdpp Require Import base option list strings gmap pretty.

(** ** Strings *)

Module Str.

Definition code (c : ascii) : nat := nat_of_ascii c.

Definition is_upper (c : ascii) : bool :=
  (65 <=? code c)%nat && (code c <=? 90)%nat.

Definition is_lower (c : ascii) : bool :=
  (97 <=? code c)%nat && (code c <=? 122)%nat.

Definition lower_char (c : ascii) : ascii :=
  if is_upper c then ascii_of_nat (code c + 32) else c.

Definition upper_char (c : ascii) : ascii :=
  if is_lower c then ascii_of_nat (code c - 32) else c.

(** A byte of a character of several bytes that is not its first byte. *)
Definition is_continuation (c : ascii) : bool :=
  (128 <=? code c)%nat && (code c <? 192)%nat.

(** [s.length], the number of UTF-16 code units: one for a character of up
    to three bytes, two for a character of four bytes. *)
Fixpoint utf16_length (s : string) : nat :=
  match s with
  | EmptyString => 0
  | String c s' =>
      (if is_continuation c then 0
       else if (240 <=? code c)%nat then 2 else 1)%nat
      + utf16_length s'
  end.

(** Lower-casing of the letters A to Z alone: what the flag [i] of a regular
    expression without the flag [u] makes of an ASCII pattern (a character
    beyond ASCII is never taken for an ASCII one). *)
Fixpoint lower_ascii (s : string) : string :=
  match s with
  | EmptyString => EmptyString
  | String c s' => String (lower_char c) (lower_ascii s')
  end.

(** [whole.toLowerCase()], from byte [i] of [whole] on, where [s] is what
    is left of [whole].  An ASCII character is lower-cased on the spot.  For
    a character beyond ASCII the mapping of Unicode is asked from [other],
    which is given the text and the place of the character, since the
    mapping may depend on what is around (the Greek final sigma) and may
    be longer or shorter than the character. *)
Fixpoint lower_from (other : string -> nat -> string) (whole : string)
    (i : nat) (s : string) : string :=
  match s with
  | EmptyString => EmptyString
  | String c s' =>
      (if (code c <? 128)%nat then String (lower_char c) EmptyString
       else if is_continuation c then EmptyString
       else other whole i)
      +:+ lower_from other whole (S i) s'
  end.

(** [s.toLowerCase()] *)
Definition toLowerCase (other : string -> nat -> string) (s : string)
  : string :=
  lower_from other s 0 s.

(** [s.toUpperCase()] for an ASCII [s]: the generator applies it to the first
    letter of a word of its vocabulary only. *)
Fixpoint toUpperCase (s : string) : string :=
  match s with
  | EmptyString => EmptyString
  | String c s' => String (upper_char c) (toUpperCase s')
  end.

(** White space and line terminators, which [trim] strips and the class [\s]
    matches.  In one byte: TAB, LF, VT, FF, CR, SP. *)
Definition white1 (a : ascii) : bool :=
  ((9 <=? code a)%nat && (code a <=? 13)%nat) || (code a =? 32)%nat.

(** In two bytes: U+00A0. *)
Definition white2 (a b : ascii) : bool :=
  (code a =? 194)%nat && (code b =? 160)%nat.

(** In three bytes: U+1680, U+2000 to U+200A, U+2028, U+2029, U+202F,
    U+205F, U+3000, U+FEFF. *)
Definition white3 (a b c : ascii) : bool :=
  ((code a =? 225)%nat && (code b =? 154)%nat && (code c =? 128)%nat)
  || ((code a =? 226)%nat && (code b =? 128)%nat
      && (((128 <=? code c)%nat && (code c <=? 138)%nat)
          || (code c =? 168)%nat || (code c =? 169)%nat || (code c =? 175)%nat))
  || ((code a =? 226)%nat && (code b =? 129)%nat && (code c =? 159)%nat)
  || ((code a =? 227)%nat && (code b =? 128)%nat && (code c =? 128)%nat)
  || ((code a =? 239)%nat && (code b =? 187)%nat && (code c =? 191)%nat).

(** The white space at the start of [s], and the rest. *)
Fixpoint white_span (s : string) : string * string :=
  match s with
  | EmptyString => (EmptyString, EmptyString)
  | String a r1 =>
      if white1 a then let '(ws, r) := white_span r1 in (String a ws, r)
      else
        match r1 with
        | EmptyString => (EmptyString, s)
        | String b r2 =>
            if white2 a b
            then let '(ws, r) := white_span r2 in (String a (String b ws), r)
            else
              match r2 with
              | EmptyString => (EmptyString, s)
              | String c r3 =>
                  if white3 a b c
                  then let '(ws, r) := white_span r3 in
                       (String a (String b (String c ws)), r)
                  else (EmptyString, s)
              end
        end
  end.

(** [s.trimStart()] *)
Definition trimStart (s : string) : string := snd (white_span s).

(** The same from the other end, on the bytes of the text in reverse. *)
Fixpoint strip_reversed (s : string) : string :=
  match s with
  | EmptyString => EmptyString
  | String a r1 =>
      if white1 a then strip_reversed r1
      else
        match r1 with
        | EmptyString => s
        | String b r2 =>
            if white2 b a then strip_reversed r2
            else
              match r2 with
              | EmptyString => s
              | String c r3 => if white3 c b a then strip_reversed r3 else s
              end
        end
  end.

(** [s.trimEnd()] *)
Definition trimEnd (s : string) : string :=
  String.rev (strip_reversed (String.rev s)).

(** [s.trim()] *)
Definition trim (s : string) : string := trimEnd (trimStart s).

(** A line terminator, which [.] does not match, starts [s]: LF, CR, U+2028
    or U+2029. *)
Definition line_terminator_at (s : string) : bool :=
  match s with
  | EmptyString => false
  | String a r =>
      (code a =? 10)%nat || (code a =? 13)%nat
      || match r with
         | String b (String c _) =>
             (code a =? 226)%nat && (code b =? 128)%nat
             && ((code c =? 168)%nat || (code c =? 169)%nat)
         | _ => false
         end
  end.

(** The class [\d]. *)
Definition is_digit (c : ascii) : bool :=
  (48 <=? code c)%nat && (code c <=? 57)%nat.

(** [s.startsWith(p)] *)
Fixpoint startsWith (p s : string) : bool :=
  match p, s with
  | EmptyString, _ => true
  | String _ _, EmptyString => false
  | String a p', String b s' => if Ascii.eqb a b then startsWith p' s' else false
  end.

(** [s.includes(sub)] *)
Fixpoint includes (s sub : string) : bool :=
  startsWith sub s ||
  match s with
  | EmptyString => false
  | String _ s' => includes s' sub
  end.

(** [s.charAt(0)] for an ASCII [s] *)
Definition charAt0 (s : string) : string :=
  match s with
  | EmptyString => EmptyString
  | String c _ => String c EmptyString
  end.

(** [s.slice(1)] for an ASCII [s] *)
Definition slice1 (s : string) : string :=
  match s with
  | EmptyString => EmptyString
  | String _ s' => s'
  end.

(** [s.substr(from, len)] for an ASCII [s] *)
Definition substr (from len : nat) (s : string) : string :=
  String.substring from len s.

(** The longest prefix of [s] whose characters satisfy [p], and the rest. *)
Fixpoint span (p : ascii -> bool) (s : string) : string * string :=
  match s with
  | EmptyString => (EmptyString, EmptyString)
  | String c s' =>
      if p c then let '(a, b) := span p s' in (String c a, b)
      else (EmptyString, s)
  end.

(** The first word of [ws] that is a prefix of [s]. *)
Fixpoint first_prefix (ws : list string) (s : string) : option string :=
  match ws with
  | [] => None
  | w :: ws' => if startsWith w s then Some w else first_prefix ws' s
  end.

End Str.

(** ** Regular expressions of the generator

    Both are matched with [String.prototype.match] without the flags [g] and
    [u]: the result is the leftmost match found by backtracking, or [null].
    Without [u] the pattern runs over UTF-16 code units; on the bytes of
    the same text the matches are the same, since every piece of the two
    patterns but [.] is ASCII or white space, and a match of [(.+?)] can
    neither end nor be followed by the rest of the pattern inside a
    character. *)

Module Regex.
Import Str.

(** [/(\d+)\s*(am|pm|hour|minute|day|week)/] anchored at the start of [s];
    the result is the matched text.  The greedy [\d+] and [\s*] take the
    whole run: giving a character back leaves a digit or a white space in
    front of the alternation, which then fails. *)
Definition time_at (s : string) : option string :=
  let '(ds, r1) := span is_digit s in
  match ds with
  | EmptyString => None
  | _ =>
      let '(ws, r2) := white_span r1 in
      match first_prefix ["am"; "pm"; "hour"; "minute"; "day"; "week"] r2 with
      | Some w => Some (ds +:+ ws +:+ w)
      | None => None
      end
  end.

(** [input.match(/(\d+)\s*(am|pm|hour|minute|day|week)/)], giving
    [match[0]]. *)
Fixpoint match_time (s : string) : option string :=
  match time_at s with
  | Some m => Some m
  | None =>
      match s with
      | EmptyString => None
      | String _ s' => match_time s'
      end
  end.

(** [\s+w], case-insensitive, anchored at the start of [s]. *)
Definition spaces_then (w : string) (s : string) : bool :=
  let '(ws, r) := white_span s in
  match ws with
  | EmptyString => false
  | _ => startsWith w (lower_ascii r)
  end.

(** [(\s+at|\s+every|$)] anchored at the start of [s]. *)
Definition message_end (s : string) : bool :=
  spaces_then "at" s || spaces_then "every" s ||
  match s with EmptyString => true | _ => false end.

(** The lazy group [(.+?)] followed by [(\s+at|\s+every|$)]: [taken] is what
    the group holds so far; one more byte is taken, then the end is tried,
    and so on.  A line terminator stops the group. *)
Fixpoint message_lazy (taken s : string) : option string :=
  match s with
  | EmptyString => None
  | String c s' =>
      if line_terminator_at s then None
      else
        let taken' := taken +:+ String c EmptyString in
        if message_end s' then Some taken' else message_lazy taken' s'
  end.

(** [/to (.+?)(\s+at|\s+every|$)/i] anchored at the start of [s], giving
    group 1. *)
Definition message_at (s : string) : option string :=
  if startsWith "to " (lower_ascii (String.substring 0 3 s))
  then message_lazy EmptyString (String.substring 3 (String.length s - 3) s)
  else None.

(** [input.match(/to (.+?)(\s+at|\s+every|$)/i)], giving [match[1]]. *)
Fixpoint match_message (s : string) : option string :=
  match message_at s with
  | Some m => Some m
  | None =>
      match s with
      | EmptyString => None
      | String _ s' => match_message s'
      end
  end.

End Regex.

(** ** Data model ([types/workflow]) *)

(** A value of a step's [config: Record<string, any>]: the kinds of value the
    generator writes (strings, numbers, booleans, arrays of strings). *)
Inductive JsValue :=
  | JStr (s : string)
  | JNum (n : Z)
  | JBool (b : bool)
  | JStrings (l : list string).

(** [type: 'action' | 'condition' | 'delay' | 'notification'] *)
Inductive StepType := action | condition | delay | notification.

Global Instance StepType_eq_dec : EqDecision StepType.
Proof. solve_decision. Defined.

Record WorkflowStep := {
  s_id : string;
  s_type : StepType;
  s_title : string;
  s_description : string;
  s_reasoning : string;
  s_config : gmap string JsValue;
  s_dependencies : option (list string)
}.

Inductive TriggerType := event | schedule | manual.

Record TriggerConfig := {
  tc_event : option string;
  tc_schedule : option string;
  tc_cron : option string
}.

Record WorkflowTrigger := {
  t_type : TriggerType;
  t_description : string;
  t_config : option TriggerConfig
}.

Inductive Domain := reminders | automation | app_setup | general.

Record Metadata := {
  createdAt : string;
  userInput : string;
  agentReasoning : string
}.

Record Workflow := {
  w_id : string;
  w_name : string;
  w_description : string;
  w_domain : Domain;
  w_trigger : WorkflowTrigger;
  w_steps : list WorkflowStep;
  w_metadata : Metadata
}.

(** [status: 'pending' | 'running' | 'completed' | 'failed'] of a log. *)
Inductive LogStatus := pending | running | completed | failed.

Global Instance LogStatus_eq_dec : EqDecision LogStatus.
Proof. solve_decision. Defined.

Record ExecutionLog := {
  stepId : string;
  stepTitle : string;
  log_status : LogStatus;
  log_startTime : option string;
  log_endTime : option string;
  log_output : option string;
  log_error : option string
}.

(** [status: 'idle' | 'running' | 'completed' | 'failed'] of an execution. *)
Inductive ExecStatus := ex_idle | ex_running | ex_completed | ex_failed.

Global Instance ExecStatus_eq_dec : EqDecision ExecStatus.
Proof. solve_decision. Defined.

(** A location of the heap of log arrays. *)
Abbreviation loc := nat.

(** An execution object.  Its [logs] field is a reference to an array. *)
Record WorkflowExecution := {
  workflowId : string;
  executionId : string;
  status : ExecStatus;
  logs : loc;
  startTime : option string;
  endTime : option string
}.

Record GeneratorResult := {
  workflow : Workflow;
  clarificationNeeded : option bool;
  clarificationQuestion : option string
}.

(** The result of [simulateStepExecution]. *)
Record SimResult := {
  success : bool;
  output : option string;
  error : option string
}.

(** A call of [simulateStepExecution]: the step type and title it was given
    and what it returned. *)
Record SimCall := {
  call_type : StepType;
  call_title : string;
  call_result : SimResult
}.

(** ** Environment, world and computations *)

Record Env := {
  (** the value of the n-th reading of the clock, in milliseconds *)
  clock : nat -> N;
  (** [Date.prototype.toISOString] *)
  toISOString : N -> string;
  (** the value of the n-th call of [Math.random()], in [0, 1) *)
  random : nat -> Q;
  (** [Number.prototype.toString(36)] *)
  toString36 : Q -> string;
  (** the lower-case mapping of Unicode for the character beyond ASCII that
      starts at the given byte of the given text *)
  lowerNonAscii : string -> nat -> string;
  (** [Number.prototype.toString()] for an integer beyond 2^53, where the
      digits are those of the nearest double, in exponent form from 10^21 *)
  numberToString : Z -> string
}.

Record World := {
  clock_reads : nat;
  random_draws : nat;
  heap : gmap loc (list ExecutionLog);
  (** the objects handed to the progress callback, oldest first *)
  received : list WorkflowExecution;
  (** history of the calls of [simulateStepExecution], oldest first; it is
      written for the statements only, no computation reads it *)
  simulations : list SimCall
}.

Inductive Outcome (A : Type) :=
  | Returns (a : A) (w : World)
  | Throws (msg : string) (w : World).
Arguments Returns {A} a w.
Arguments Throws {A} msg w.

Definition M (A : Type) : Type := World -> Outcome A.

Definition ret {A} (a : A) : M A := fun w => Returns a w.

Definition bind {A B} (m : M A) (k : A -> M B) : M B :=
  fun w =>
    match m w with
    | Returns a w' => k a w'
    | Throws msg w' => Throws msg w'
    end.

Definition throw {A} (msg : string) : M A := fun w => Throws msg w.

Declare Scope comp_scope.
Delimit Scope comp_scope with comp.
Notation "'do' x <- m ; k" := (bind m (fun x => k))
  (at level 10, x pattern, m at level 100, k at level 200) : comp_scope.
Notation "m ;; k" := (bind m (fun _ => k))
  (at level 100, k at level 200, right associativity) : comp_scope.
Open Scope comp_scope.

Definition set_clock_reads (n : nat) (w : World) : World :=
  {| clock_reads := n; random_draws := random_draws w;
     heap := heap w; received := received w; simulations := simulations w |}.

Definition set_random_draws (n : nat) (w : World) : World :=
  {| clock_reads := clock_reads w; random_draws := n;
     heap := heap w; received := received w; simulations := simulations w |}.

Definition set_heap (h : gmap loc (list ExecutionLog)) (w : World) : World :=
  {| clock_reads := clock_reads w; random_draws := random_draws w;
     heap := h; received := received w; simulations := simulations w |}.

Definition set_received (r : list WorkflowExecution) (w : World) : World :=
  {| clock_reads := clock_reads w; random_draws := random_draws w;
     heap := heap w; received := r; simulations := simulations w |}.

Definition set_simulations (c : list SimCall) (w : World) : World :=
  {| clock_reads := clock_reads w; random_draws := random_draws w;
     heap := heap w; received := received w; simulations := c |}.

(** [Date.now()] *)
Definition Date_now (env : Env) : M N :=
  fun w =>
    Returns (clock env (clock_reads w)) (set_clock_reads (S (clock_reads w)) w).

(** [new Date().toISOString()] *)
Definition Date_iso (env : Env) : M string :=
  do t <- Date_now env; ret (toISOString env t).

(** [Math.random()] *)
Definition Math_random (env : Env) : M Q :=
  fun w =>
    Returns (random env (random_draws w)) (set_random_draws (S (random_draws w)) w).

Definition world0 : World :=
  {| clock_reads := 0; random_draws := 0; heap := ∅; received := [];
     simulations := [] |}.

(** ** The generator ([lib/workflowGenerator]) *)

Module Generator.
Import Str.

Definition dquote : string := String "034"%char EmptyString.

Definition generateId (env : Env) : M string :=
  do now <- Date_now env;
  do r <- Math_random env;
  ret ("wf-" +:+ pretty now +:+ "-" +:+ substr 2 9 (toString36 env r)).

Definition extractReminderMessage (input : string) : string :=
  match Regex.match_message input with
  | Some m => trim m
  | None => "Complete your task"
  end.

Definition detectFramework (input : string) : string :=
  if includes input "react" then "React"
  else if includes input "vue" then "Vue"
  else if includes input "angular" then "Angular"
  else if includes input "next" then "Next.js"
  else if includes input "svelte" then "Svelte"
  else "React".

Definition detectPackages (input : string) : list string :=
  let packages := [] in
  let packages :=
    if includes input "typescript" || includes input "ts"
    then packages ++ ["typescript"] else packages in
  let packages :=
    if includes input "eslint" then packages ++ ["eslint"] else packages in
  let packages :=
    if includes input "prettier" then packages ++ ["prettier"] else packages in
  let packages :=
    if includes input "tailwind" then packages ++ ["tailwindcss"] else packages in
  let packages :=
    if includes input "jest" then packages ++ ["jest"] else packages in
  let packages :=
    if includes input "vitest" then packages ++ ["vitest"] else packages in
  if (0 <? length packages)%nat then packages else ["standard-dependencies"].

Definition detectChannel (input : string) : string :=
  if includes input "email" then "email"
  else if includes input "sms" || includes input "text" then "sms"
  else if includes input "slack" then "slack"
  else if includes input "push" then "push"
  else "email".

Definition actionWords : list string :=
  ["create"; "send"; "check"; "update"; "delete"; "notify"; "process";
   "validate"; "transform"; "save"; "load"; "execute"].

Definition extractActions (input : string) : list string :=
  let found := filter (fun word => includes input word = true) actionWords in
  if (0 <? length found)%nat then found else ["process"].

Definition capitalizeFirst (str : string) : string :=
  toUpperCase (charAt0 str) +:+ slice1 str.

Definition createEmptyWorkflow (env : Env) (userInput : string) : M Workflow :=
  do id <- generateId env;
  do now <- Date_iso env;
  ret {| w_id := id;
         w_name := "New Workflow";
         w_description := "";
         w_domain := general;
         w_trigger := {| t_type := manual; t_description := "Run manually";
                         t_config := None |};
         w_steps := [];
         w_metadata := {| createdAt := now; userInput := userInput;
                          agentReasoning := "Waiting for more details from user" |} |}.

Definition generateReminderWorkflow (env : Env) (userInput input : string)
  : M Workflow :=
  let steps := [] in
  let timeMatch := Regex.match_time input in
  let frequency := if includes input "every" then "recurring" else "once" in
  let steps := steps ++ [
    {| s_id := "step-1";
       s_type := condition;
       s_title := "Check Schedule Time";
       s_description := "Monitor for the scheduled time: " +:+
         match timeMatch with Some m => m | None => "specified time" end;
       s_reasoning := "This step continuously checks if the current time matches the desired reminder schedule";
       s_config := {[ "frequency" := JStr frequency;
                      "time" := JStr (match timeMatch with
                                      | Some m => m | None => "9:00 AM" end);
                      "timezone" := JStr "local" ]};
       s_dependencies := None |} ] in
  let steps := steps ++ [
    {| s_id := "step-2";
       s_type := notification;
       s_title := "Send Reminder";
       s_description := "Deliver the notification to the user";
       s_reasoning := "When the scheduled time arrives, this step sends the actual reminder notification";
       s_config := {[ "message" := JStr (extractReminderMessage input);
                      "channels" := JStrings ["push"; "email"] ]};
       s_dependencies := Some ["step-1"] |} ] in
  let steps := steps ++ [
    {| s_id := "step-3";
       s_type := action;
       s_title := "Log Event";
       s_description := "Record that the reminder was sent";
       s_reasoning := "Keeping a log helps track reminder history and debug issues";
       s_config := {[ "action" := JStr "log";
                      "details" := JStr "Reminder sent successfully" ]};
       s_dependencies := Some ["step-2"] |} ] in
  let scheduleTime := match timeMatch with Some m => m | None => "9:00 AM" end in
  do id <- generateId env;
  do now <- Date_iso env;
  ret {| w_id := id;
         w_name := "Reminder Workflow";
         w_description :=
           (if String.eqb frequency "recurring" then "Recurring" else "One-time")
           +:+ " reminder notification";
         w_domain := reminders;
         w_trigger :=
           {| t_type := schedule;
              t_description :=
                (if String.eqb frequency "recurring" then "Every day" else "Once")
                +:+ " at " +:+ scheduleTime;
              t_config := Some
                {| tc_event := None;
                   tc_schedule := Some scheduleTime;
                   tc_cron := if String.eqb frequency "recurring"
                              then Some ("0 " +:+ scheduleTime) else None |} |};
         w_steps := steps;
         w_metadata :=
           {| createdAt := now; userInput := userInput;
              agentReasoning :=
                "I detected this is a reminder workflow with " +:+ frequency +:+
                " execution. The workflow monitors for the scheduled time, sends a notification, and logs the event for tracking." |} |}.

Definition generateAppSetupWorkflow (env : Env) (userInput input : string)
  : M Workflow :=
  let steps := [] in
  let framework := detectFramework input in
  let steps := steps ++ [
    {| s_id := "step-1";
       s_type := action;
       s_title := "Initialize Project";
       s_description := "Create new " +:+ framework +:+ " project with configuration";
       s_reasoning := "Starting with project initialization ensures we have the correct directory structure and dependencies";
       s_config := {[ "command" := JStr ("create-" +:+ framework +:+ "-app");
                      "framework" := JStr framework ]};
       s_dependencies := None |} ] in
  let steps := steps ++ [
    {| s_id := "step-2";
       s_type := action;
       s_title := "Install Dependencies";
       s_description := "Install required packages and tools";
       s_reasoning := "Dependencies must be installed before we can configure or run the project";
       s_config := {[ "packages" := JStrings (detectPackages input) ]};
       s_dependencies := Some ["step-1"] |} ] in
  let steps :=
    if includes input "test" || includes input "jest" || includes input "vitest"
    then steps ++ [
      {| s_id := "step-3";
         s_type := action;
         s_title := "Configure Testing";
         s_description := "Set up testing framework and sample tests";
         s_reasoning := "Testing infrastructure is essential for maintainable code";
         s_config := {[ "testFramework" :=
                          JStr (if includes input "vitest" then "vitest" else "jest") ]};
         s_dependencies := Some ["step-2"] |} ]
    else steps in
  let steps := steps ++ [
    {| s_id := "step-4";
       s_type := action;
       s_title := "Start Development Server";
       s_description := "Launch the application in development mode";
       s_reasoning := "Starting the dev server allows immediate verification that setup was successful";
       s_config := {[ "command" := JStr "npm run dev"; "port" := JNum 3000 ]};
       s_dependencies := Some ["step-2"] |} ] in
  do id <- generateId env;
  do now <- Date_iso env;
  ret {| w_id := id;
         w_name := framework +:+ " Project Setup";
         w_description := "Initialize and configure a new " +:+ framework +:+ " project";
         w_domain := app_setup;
         w_trigger := {| t_type := manual; t_description := "Run now";
                         t_config := None |};
         w_steps := steps;
         w_metadata :=
           {| createdAt := now; userInput := userInput;
              agentReasoning :=
                "This is a project setup workflow for " +:+ framework +:+
                ". I've broken it down into logical steps: initialize, install dependencies, configure testing (if requested), and start the dev server. Each step depends on the previous one completing successfully." |} |}.

Definition generateNotificationWorkflow (env : Env) (userInput input : string)
  : M Workflow :=
  let steps := [] in
  let steps := steps ++ [
    {| s_id := "step-1";
       s_type := condition;
       s_title := "Validate Recipient Info";
       s_description := "Check that required recipient information is available";
       s_reasoning := "We must validate inputs before attempting to send to prevent errors";
       s_config := {[ "required" := JStrings ["recipient"; "message"] ]};
       s_dependencies := None |} ] in
  let steps := steps ++ [
    {| s_id := "step-2";
       s_type := action;
       s_title := "Prepare Message";
       s_description := "Format and prepare the notification content";
       s_reasoning := "Message preparation ensures consistent formatting and includes all necessary information";
       s_config := {[ "template" := JStr "standard";
                      "includeTimestamp" := JBool true ]};
       s_dependencies := Some ["step-1"] |} ] in
  let steps := steps ++ [
    {| s_id := "step-3";
       s_type := notification;
       s_title := "Send Notification";
       s_description := "Send via " +:+ detectChannel input;
       s_reasoning := "This is the main action that delivers the notification to the recipient";
       s_config := {[ "channel" := JStr (detectChannel input);
                      "priority" :=
                        JStr (if includes input "urgent" || includes input "important"
                              then "high" else "normal") ]};
       s_dependencies := Some ["step-2"] |} ] in
  let steps := steps ++ [
    {| s_id := "step-4";
       s_type := action;
       s_title := "Confirm Delivery";
       s_description := "Verify the notification was delivered successfully";
       s_reasoning := "Delivery confirmation helps track success rate and catch any issues";
       s_config := {[ "retryOnFailure" := JBool true; "maxRetries" := JNum 3 ]};
       s_dependencies := Some ["step-3"] |} ] in
  let eventType :=
    if includes input "when" || includes input "signup" || includes input "user"
    then event else manual in
  let eventDesc :=
    match eventType with event => "Event: New user signup" | _ => "Run now" end in
  do id <- generateId env;
  do now <- Date_iso env;
  ret {| w_id := id;
         w_name := "Notification Workflow";
         w_description := "Send and track notification delivery";
         w_domain := automation;
         w_trigger :=
           {| t_type := eventType; t_description := eventDesc;
              t_config :=
                match eventType with
                | event => Some {| tc_event := Some "user.signup";
                                   tc_schedule := None; tc_cron := None |}
                | _ => None
                end |};
         w_steps := steps;
         w_metadata :=
           {| createdAt := now; userInput := userInput;
              agentReasoning := "This workflow handles notification delivery with proper validation, formatting, sending, and delivery confirmation. Each step ensures reliability and provides feedback." |} |}.

(** The step pushed by [actions.forEach((action, index) => ...)]. *)
Definition actionStep (index : nat) (action_ : string) : WorkflowStep :=
  {| s_id := "step-" +:+ pretty (index + 1)%nat;
     s_type := action;
     s_title := capitalizeFirst action_;
     s_description := "Execute: " +:+ action_;
     s_reasoning := "This step performs the action " +:+ dquote +:+ action_ +:+
                    dquote +:+ " as specified in your workflow description";
     s_config := {[ "action" := JStr action_ ]};
     s_dependencies := if (0 <? index)%nat
                       then Some ["step-" +:+ pretty index] else None |}.

Definition generateGeneralWorkflow (env : Env) (userInput input : string)
  : M Workflow :=
  let steps := [] in
  let actions := extractActions input in
  let steps := steps ++ imap actionStep actions in
  let steps :=
    if (length steps =? 0)%nat
    then steps ++ [
      {| s_id := "step-1";
         s_type := action;
         s_title := "Execute Workflow";
         s_description := userInput;
         s_reasoning := "This is a general-purpose workflow step based on your description";
         s_config := ∅;
         s_dependencies := None |} ]
    else steps in
  do id <- generateId env;
  do now <- Date_iso env;
  ret {| w_id := id;
         w_name := "Custom Workflow";
         w_description := userInput;
         w_domain := general;
         w_trigger := {| t_type := manual; t_description := "Run now";
                         t_config := None |};
         w_steps := steps;
         w_metadata :=
           {| createdAt := now; userInput := userInput;
              agentReasoning :=
                "I've created a " +:+ pretty (length steps) +:+
                "-step workflow based on your description. Each step executes sequentially. You can modify or add steps as needed." |} |}.

Definition clarifyingQuestion : string :=
  "Could you provide more details about what you want to accomplish? For example: "
  +:+ dquote +:+ "Send me a reminder every morning at 9am" +:+ dquote +:+ " or "
  +:+ dquote +:+ "Set up a new React project with testing" +:+ dquote.

Definition generateWorkflow (env : Env) (userInput : string) : M GeneratorResult :=
  let input := trim (toLowerCase (lowerNonAscii env) userInput) in
  if (utf16_length input <? 10)%nat || negb (includes input " ") then
    do wf <- createEmptyWorkflow env userInput;
    ret {| workflow := wf;
           clarificationNeeded := Some true;
           clarificationQuestion := Some clarifyingQuestion |}
  else if includes input "remind" || includes input "notification"
          || includes input "alert" then
    do wf <- generateReminderWorkflow env userInput input;
    ret {| workflow := wf; clarificationNeeded := None;
           clarificationQuestion := None |}
  else if includes input "setup" || includes input "create project"
          || includes input "initialize" then
    do wf <- generateAppSetupWorkflow env userInput input;
    ret {| workflow := wf; clarificationNeeded := None;
           clarificationQuestion := None |}
  else if includes input "email" || includes input "send"
          || includes input "notify" then
    do wf <- generateNotificationWorkflow env userInput input;
    ret {| workflow := wf; clarificationNeeded := None;
           clarificationQuestion := None |}
  else
    do wf <- generateGeneralWorkflow env userInput input;
    ret {| workflow := wf; clarificationNeeded := None;
           clarificationQuestion := None |}.

(** [generateWorkflow] as a JavaScript caller reaches it, with any value:
    the types of TypeScript are gone at run time, and
    [userInput.toLowerCase()] throws a TypeError on a number, a boolean or
    an array, which have no such method. *)
Definition generateWorkflow_any (env : Env) (userInput : JsValue)
  : M GeneratorResult :=
  match userInput with
  | JStr s => generateWorkflow env s
  | JNum _ | JBool _ | JStrings _ => throw "TypeError"
  end.

(** *** Vocabulary of the statements *)

(** The text is too vague: the guard of [generateWorkflow]. *)
Definition too_vague (input : string) : Prop :=
  (utf16_length input < 10)%nat \/ includes input " " = false.

(** No keyword of the reminder, setup and notification families occurs. *)
Definition no_keyword (input : string) : Prop :=
  includes input "remind" = false /\ includes input "notification" = false /\
  includes input "alert" = false /\ includes input "setup" = false /\
  includes input "create project" = false /\
  includes input "initialize" = false /\ includes input "email" = false /\
  includes input "send" = false /\ includes input "notify" = false.

(** The verbs of the vocabulary that occur in the text, in the order of the
    vocabulary. *)
Definition verbs_of (input : string) : list string :=
  filter (fun word => includes input word = true) actionWords.

End Generator.

(** ** The executor ([lib/workflowExecutor.ts]) *)

Module Executor.

Definition nl : string := String "010"%char EmptyString.

(** *** The heap of log arrays *)

(** A new array holding [l]. *)
Definition alloc (l : list ExecutionLog) : M loc :=
  fun w =>
    let a := fresh (dom (heap w)) in
    Returns a (set_heap (<[a := l]> (heap w)) w).

(** The elements of the array at [a]. *)
Definition read (a : loc) : M (list ExecutionLog) :=
  fun w =>
    match heap w !! a with
    | Some l => Returns l w
    | None => throw "TypeError: Cannot read properties of undefined" w
    end.

(** [array.push(x)] *)
Definition push (a : loc) (x : ExecutionLog) : M unit :=
  fun w =>
    match heap w !! a with
    | Some l => Returns tt (set_heap (<[a := l ++ [x]]> (heap w)) w)
    | None => throw "TypeError: Cannot read properties of undefined" w
    end.

(** [array.findIndex(p)]: the first index whose element satisfies [p],
    or [-1]. *)
Fixpoint findIndex {A} (p : A -> bool) (l : list A) : Z :=
  match l with
  | [] => (-1)%Z
  | x :: l' =>
      if p x then 0%Z
      else let i := findIndex p l' in
           if (i <? 0)%Z then (-1)%Z else (i + 1)%Z
  end.

(** [array[i]], [undefined] out of range. *)
Definition nth_Z {A} (l : list A) (i : Z) : option A :=
  if (i <? 0)%Z then None else l !! Z.to_nat i.

(** [array[i].field = v], written as the update [f] of the element: a
    [TypeError] when [array[i]] is [undefined]. *)
Definition assign (a : loc) (i : Z) (f : ExecutionLog -> ExecutionLog) : M unit :=
  fun w =>
    match heap w !! a with
    | Some l =>
        match nth_Z l i with
        | Some x => Returns tt (set_heap (<[a := <[Z.to_nat i := f x]> l]> (heap w)) w)
        | None => throw "TypeError: Cannot set properties of undefined" w
        end
    | None => throw "TypeError: Cannot read properties of undefined" w
    end.

Definition set_status (v : LogStatus) (x : ExecutionLog) : ExecutionLog :=
  {| stepId := stepId x; stepTitle := stepTitle x; log_status := v;
     log_startTime := log_startTime x; log_endTime := log_endTime x;
     log_output := log_output x; log_error := log_error x |}.

Definition set_startTime (v : option string) (x : ExecutionLog) : ExecutionLog :=
  {| stepId := stepId x; stepTitle := stepTitle x; log_status := log_status x;
     log_startTime := v; log_endTime := log_endTime x;
     log_output := log_output x; log_error := log_error x |}.

Definition set_endTime (v : option string) (x : ExecutionLog) : ExecutionLog :=
  {| stepId := stepId x; stepTitle := stepTitle x; log_status := log_status x;
     log_startTime := log_startTime x; log_endTime := v;
     log_output := log_output x; log_error := log_error x |}.

Definition set_output (v : option string) (x : ExecutionLog) : ExecutionLog :=
  {| stepId := stepId x; stepTitle := stepTitle x; log_status := log_status x;
     log_startTime := log_startTime x; log_endTime := log_endTime x;
     log_output := v; log_error := log_error x |}.

Definition set_error (v : option string) (x : ExecutionLog) : ExecutionLog :=
  {| stepId := stepId x; stepTitle := stepTitle x; log_status := log_status x;
     log_startTime := log_startTime x; log_endTime := log_endTime x;
     log_output := log_output x; log_error := v |}.

Definition with_status (v : ExecStatus) (e : WorkflowExecution) : WorkflowExecution :=
  {| workflowId := workflowId e; executionId := executionId e; status := v;
     logs := logs e; startTime := startTime e; endTime := endTime e |}.

Definition with_logs (a : loc) (e : WorkflowExecution) : WorkflowExecution :=
  {| workflowId := workflowId e; executionId := executionId e;
     status := status e; logs := a; startTime := startTime e;
     endTime := endTime e |}.

Definition with_endTime (v : option string) (e : WorkflowExecution)
  : WorkflowExecution :=
  {| workflowId := workflowId e; executionId := executionId e;
     status := status e; logs := logs e; startTime := startTime e;
     endTime := v |}.

(** *** The progress callback

    The caller's callback is a passive observer: it keeps the object it is
    handed and does nothing else.  [onProgress = false] stands for an absent
    callback. *)

Definition call_onProgress (snapshot : WorkflowExecution) : M unit :=
  fun w => Returns tt (set_received (received w ++ [snapshot]) w).

(** [{ ...execution }]: a new object with the same fields, hence the same
    [logs] array. *)
Definition spread (execution : WorkflowExecution) : M WorkflowExecution :=
  ret execution.

(** [JSON.parse(JSON.stringify(execution))]: a new object whose [logs] is a
    new array of copies of the logs. *)
Definition json_copy (execution : WorkflowExecution) : M WorkflowExecution :=
  do l <- read (logs execution);
  do a <- alloc l;
  ret (with_logs a execution).

(** What a holder of the object [e] sees in world [w]: the fields of [e] and
    the current content of its [logs] array. *)
Definition view (w : World) (e : WorkflowExecution)
  : option (ExecStatus * option string * list ExecutionLog) :=
  match heap w !! logs e with
  | Some l => Some (status e, endTime e, l)
  | None => None
  end.

(** *** simulateStepExecution *)

(** Truthiness of [config.key]. *)
Definition truthy (v : option JsValue) : bool :=
  match v with
  | None => false
  | Some (JStr s) => negb (String.eqb s "")
  | Some (JNum n) => negb (n =? 0)%Z
  | Some (JBool b) => b
  | Some (JStrings _) => true
  end.

Fixpoint join (sep : string) (l : list string) : string :=
  match l with
  | [] => ""
  | [x] => x
  | x :: l' => x +:+ sep +:+ join sep l'
  end.

(** The text of [${config.key}]. *)
Definition interpolate (env : Env) (v : option JsValue) : string :=
  match v with
  | None => "undefined"
  | Some (JStr s) => s
  | Some (JNum n) =>
      if (Z.abs n <=? 2 ^ 53)%Z then pretty n else numberToString env n
  | Some (JBool b) => if b then "true" else "false"
  | Some (JStrings l) => join "," l
  end.

(** The [default] branch of the [switch] is out of reach for a [StepType]. *)
Definition simulateStepExecution (env : Env) (type : StepType) (title : string)
    (config : gmap string JsValue) : M SimResult :=
  do r <- Math_random env;
  let success := negb (Qle_bool r (5 # 100)) in
  if negb success then
    ret {| success := false; output := None;
           error := Some "Simulated execution error" |}
  else
    let output :=
      match type with
      | action =>
          let output := "✓ Action executed successfully: " +:+ title in
          if truthy (config !! "command")
          then output +:+ nl +:+ "Command: " +:+ interpolate env (config !! "command")
          else output
      | condition =>
          "✓ Condition evaluated: " +:+ title +:+ nl +:+ "Result: true"
      | notification =>
          let output := "✓ Notification sent: " +:+ title in
          let output :=
            if truthy (config !! "channel")
            then output +:+ nl +:+ "Channel: " +:+ interpolate env (config !! "channel")
            else output in
          if truthy (config !! "message")
          then output +:+ nl +:+ "Message: " +:+ interpolate env (config !! "message")
          else output
      | delay => "✓ Delay completed: " +:+ title
      end in
    let output :=
      if truthy (config !! "frequency")
      then output +:+ nl +:+ "Frequency: " +:+ interpolate env (config !! "frequency")
      else output in
    let output :=
      if truthy (config !! "time")
      then output +:+ nl +:+ "Scheduled time: " +:+ interpolate env (config !! "time")
      else output in
    ret {| success := true; output := Some output; error := None |}.

(** The call that has just returned [result] enters the history. *)
Definition record_call (type : StepType) (title : string) (result : SimResult)
  : M unit :=
  fun w =>
    Returns tt
      (set_simulations
         (simulations w ++
          [{| call_type := type; call_title := title; call_result := result |}])
         w).

(** [await delay(ms)]: nothing but time passes, and time is read from the
    clock of the environment. *)
Definition sleep (ms : Q) : M unit := ret tt.

(** *** executeWorkflow *)

(** How an iteration of the [for] loop ends: it goes on to the next step
    (at its end or by [continue]) or leaves the loop by [break]. *)
Inductive Ctl := Next | Break.

Fixpoint forEach {A} (f : A -> M unit) (l : list A) : M unit :=
  match l with
  | [] => ret tt
  | x :: l' => f x ;; forEach f l'
  end.

Definition same_id (i : string) (log : ExecutionLog) : bool :=
  String.eqb (stepId log) i.

(** [step.dependencies.every(depId => logs.find(...)?.status === 'completed')] *)
Definition depsComplete (deps : list string) (ls : list ExecutionLog) : bool :=
  forallb
    (fun depId =>
       match List.find (same_id depId) ls with
       | Some depLog => bool_decide (log_status depLog = completed)
       | None => false
       end)
    deps.

(** [if (onProgress) onProgress(JSON.parse(JSON.stringify(execution)))] *)
Definition notify_copy (onProgress : bool) (execution : WorkflowExecution)
  : M unit :=
  if onProgress
  then do snapshot <- json_copy execution; call_onProgress snapshot
  else ret tt.

(** [if (onProgress) onProgress({ ...execution })] *)
Definition notify_spread (onProgress : bool) (execution : WorkflowExecution)
  : M unit :=
  if onProgress
  then do snapshot <- spread execution; call_onProgress snapshot
  else ret tt.

(** One iteration of [for (const step of workflow.steps)]. *)
Definition iteration (env : Env) (onProgress : bool) (step : WorkflowStep)
    (execution : WorkflowExecution) : M (Ctl * WorkflowExecution) :=
  do ls <- read (logs execution);
  let logIndex := findIndex (same_id (s_id step)) ls in
  do unmet <-
    match s_dependencies step with
    | Some deps =>
        do ls <- read (logs execution);
        if negb (depsComplete deps ls) then
          assign (logs execution) logIndex (set_status failed);;
          assign (logs execution) logIndex (set_error (Some "Dependencies not met"));;
          ret true
        else ret false
    | None => ret false
    end;
  if (unmet : bool) then ret (Next, execution)
  else
    assign (logs execution) logIndex (set_status running);;
    do t <- Date_iso env;
    assign (logs execution) logIndex (set_startTime (Some t));;
    notify_copy onProgress execution;;
    do r <- Math_random env;
    sleep (1000 + r * 1000);;
    do result <- simulateStepExecution env (s_type step) (s_title step)
                   (s_config step);
    record_call (s_type step) (s_title step) result;;
    assign (logs execution) logIndex
      (set_status (if success result then completed else failed));;
    do t <- Date_iso env;
    assign (logs execution) logIndex (set_endTime (Some t));;
    assign (logs execution) logIndex (set_output (output result));;
    assign (logs execution) logIndex (set_error (error result));;
    notify_copy onProgress execution;;
    if negb (success result) && negb (bool_decide (s_type step = condition))
    then ret (Break, with_status ex_failed execution)
    else ret (Next, execution).

(** The [for] loop over [steps]; the result tells whether it was left by
    [break]. *)
Fixpoint loop (env : Env) (onProgress : bool) (steps : list WorkflowStep)
    (execution : WorkflowExecution) : M (Ctl * WorkflowExecution) :=
  match steps with
  | [] => ret (Next, execution)
  | step :: rest =>
      do r <- iteration env onProgress step execution;
      match r with
      | (Break, execution') => ret (Break, execution')
      | (Next, execution') => loop env onProgress rest execution'
      end
  end.

(** The entry pushed for [step] when the logs are initialized. *)
Definition pending_log (step : WorkflowStep) : ExecutionLog :=
  {| stepId := s_id step; stepTitle := s_title step; log_status := pending;
     log_startTime := None; log_endTime := None; log_output := None;
     log_error := None |}.

(** The first statements of [executeWorkflow], up to the first call of the
    callback. *)
Definition start (env : Env) (workflow : Workflow) (onProgress : bool)
  : M WorkflowExecution :=
  do now <- Date_now env;
  do a <- alloc [];
  do t <- Date_iso env;
  let execution :=
    {| workflowId := w_id workflow;
       executionId := "exec-" +:+ pretty now;
       status := ex_running;
       logs := a;
       startTime := Some t;
       endTime := None |} in
  forEach (fun step => push (logs execution) (pending_log step))
    (w_steps workflow);;
  notify_spread onProgress execution;;
  ret execution.

(** The last statements of [executeWorkflow], after the loop. *)
Definition finish (env : Env) (onProgress : bool) (execution : WorkflowExecution)
  : M WorkflowExecution :=
  let execution :=
    if bool_decide (status execution = ex_running)
    then with_status ex_completed execution else execution in
  do t <- Date_iso env;
  let execution := with_endTime (Some t) execution in
  notify_spread onProgress execution;;
  ret execution.

Definition executeWorkflow (env : Env) (workflow : Workflow) (onProgress : bool)
  : M WorkflowExecution :=
  do execution <- start env workflow onProgress;
  do r <- loop env onProgress (w_steps workflow) execution;
  finish env onProgress (snd r).

(** The run up to the moment the loop has gone through the first [k] steps
    (or has been left before). *)
Definition after (env : Env) (workflow : Workflow) (onProgress : bool) (k : nat)
  : M (Ctl * WorkflowExecution) :=
  do execution <- start env workflow onProgress;
  loop env onProgress (take k (w_steps workflow)) execution.

(** *** Vocabulary of the statements *)

(** The dependency check of an iteration lets [step] through. *)
Definition deps_met (step : WorkflowStep) (ls : list ExecutionLog) : bool :=
  match s_dependencies step with
  | Some deps => depsComplete deps ls
  | None => true
  end.

(** The entry [x] after a failed dependency check. *)
Definition unmet_log (x : ExecutionLog) : ExecutionLog :=
  set_error (Some "Dependencies not met") (set_status failed x).

(** The entry [x] after a simulated execution that started at [t1], ended at
    [t2] and returned [res]. *)
Definition ran_log (t1 t2 : string) (res : SimResult) (x : ExecutionLog)
  : ExecutionLog :=
  set_error (error res)
    (set_output (output res)
       (set_endTime (Some t2)
          (set_status (if success res then completed else failed)
             (set_startTime (Some t1) (set_status running x))))).

(** A simulated execution that stops the run: it failed and the step is not
    a condition. *)
Definition fatal (c : SimCall) : Prop :=
  success (call_result c) = false /\ call_type c <> condition.

(** Every entry of [ls] from position [k] on is pending. *)
Definition pending_from (k : nat) (ls : list ExecutionLog) : Prop :=
  forall p l, (k <= p)%nat -> ls !! p = Some l -> log_status l = pending.

(** What holds when the loop has gone through [k] steps of [workflow] in a
    run started in world [w0]: [c] tells how the loop stands, [ex] is the
    execution object and [w] the world. *)
Definition loop_state (workflow : Workflow) (w0 : World) (k : nat) (c : Ctl)
    (ex : WorkflowExecution) (w : World) : Prop :=
  exists ls hist,
    heap w !! logs ex = Some ls /\
    stepId <$> ls = s_id <$> w_steps workflow /\
    simulations w = simulations w0 ++ hist /\
    match c with
    | Next => status ex = ex_running /\ pending_from k ls /\
              Forall (fun call => ~ fatal call) hist
    | Break => status ex = ex_failed /\ Exists fatal hist
    end.

(** The object [s] shows, in world [w], one entry per step of [workflow],
    in the order of the steps and with their ids. *)
Definition shaped (workflow : Workflow) (w : World) (s : WorkflowExecution)
  : Prop :=
  exists ls,
    heap w !! logs s = Some ls /\ stepId <$> ls = s_id <$> w_steps workflow.

(** The objects handed to the callback since world [w0], as [w] has them:
    all of them are [shaped], and all but the one handed out by [start] own
    an array that is not the live array [a]. *)
Definition handed_out (workflow : Workflow) (onProgress : bool) (a : loc)
    (w0 w : World) (snaps : list WorkflowExecution) : Prop :=
  received w = received w0 ++ snaps /\
  Forall (shaped workflow w) snaps /\
  ((if onProgress then 1 else 0) <= length snaps)%nat /\
  Forall (fun s => logs s <> a) (drop (if onProgress then 1 else 0)%nat snaps).

(** Arrays other than [a] that exist in [w] are the same in [w']. *)
Definition frame (a : loc) (w w' : World) : Prop :=
  forall l L, l <> a -> heap w !! l = Some L -> heap w' !! l = Some L.

End Executor.

(** ** Concrete environments, workflows and runs *)

Module Examples.
Import Executor.

(** The text whose bytes are [l]. *)
Definition bytes (l : list nat) : string :=
  fold_right (fun n s => String (ascii_of_nat n) s) EmptyString l.

(** The character that starts at byte [i] of [s]. *)
Definition char_at (s : string) (i : nat) : string :=
  match String.substring i (String.length s - i) s with
  | EmptyString => EmptyString
  | String c r => String c (fst (Str.span Str.is_continuation r))
  end.

(** The lower-case mapping of the characters beyond ASCII that the examples
    use: U+00C9 (E with acute) becomes U+00E9, U+0130 (I with dot above)
    becomes "i" and U+0307, two characters, and U+212A (the Kelvin sign)
    becomes "k"; the characters without a lower case are kept. *)
Definition sample_lower (s : string) (i : nat) : string :=
  let c := char_at s i in
  if String.eqb c (bytes [195; 137]) then bytes [195; 169]
  else if String.eqb c (bytes [196; 176]) then bytes [105; 204; 135]
  else if String.eqb c (bytes [226; 132; 170]) then "k"
  else c.

(** Every simulated execution succeeds. *)
Definition env_ok : Env :=
  {| clock := fun n => (1700000000000 + N.of_nat n)%N;
     toISOString := fun t => "T" +:+ pretty t;
     random := fun _ => 1 # 2;
     toString36 := fun _ => "0.4fzyo82mvyr";
     lowerNonAscii := sample_lower;
     numberToString := fun n => pretty n |}.

(** The first simulated execution fails (the draw of index 1; the draw of
    index 0 is the delay of the first step), the others succeed. *)
Definition env_first_fails : Env :=
  {| clock := fun n => (1700000000000 + N.of_nat n)%N;
     toISOString := fun t => "T" +:+ pretty t;
     random := fun n => if (n =? 1)%nat then 1 # 100 else 1 # 2;
     toString36 := fun _ => "0.4fzyo82mvyr";
     lowerNonAscii := sample_lower;
     numberToString := fun n => pretty n |}.

Definition blank_workflow : Workflow :=
  {| w_id := ""; w_name := ""; w_description := ""; w_domain := general;
     w_trigger := {| t_type := manual; t_description := ""; t_config := None |};
     w_steps := [];
     w_metadata := {| createdAt := ""; userInput := ""; agentReasoning := "" |} |}.

Definition generated (userInput : string) : Workflow :=
  match Generator.generateWorkflow env_ok userInput world0 with
  | Returns r _ => workflow r
  | Throws _ _ => blank_workflow
  end.

(** A workflow of the notification template: a condition, an action, a
    notification and an action, each depending on the one before. *)
Definition notify_workflow : Workflow :=
  generated "Send an email to the team when a user signs up".

(** A workflow of the app-setup template: four actions. *)
Definition setup_workflow : Workflow :=
  generated "Setup a new React project with testing".

(** A workflow of the general template, with the single action step
    [Check]. *)
Definition check_workflow : Workflow := generated "please check the logs".

(** The statuses of the live log entries when the loop has gone through [k]
    steps, and how the loop stands. *)
Definition statuses_after (env : Env) (wf : Workflow) (onProgress : bool)
    (k : nat) (w : World) : option (Ctl * list LogStatus) :=
  match after env wf onProgress k w with
  | Returns (c, ex) w' =>
      match heap w' !! logs ex with
      | Some ls => Some (c, log_status <$> ls)
      | None => None
      end
  | Throws _ _ => None
  end.

(** The status of the returned record and the statuses of its log
    entries. *)
Definition final_statuses (env : Env) (wf : Workflow) (onProgress : bool)
    (w : World) : option (ExecStatus * list LogStatus) :=
  match executeWorkflow env wf onProgress w with
  | Returns ex w' =>
      match heap w' !! logs ex with
      | Some ls => Some (status ex, log_status <$> ls)
      | None => None
      end
  | Throws _ _ => None
  end.

(** The value and the world of an outcome. *)
Definition value_of {A} (o : Outcome A) (d : A) : A :=
  match o with Returns a _ => a | Throws _ _ => d end.

Definition world_of {A} (o : Outcome A) : World :=
  match o with Returns _ w => w | Throws _ w => w end.

Definition blank_result : GeneratorResult :=
  {| workflow := blank_workflow; clarificationNeeded := None;
     clarificationQuestion := None |}.

(** Whether the answer to [userInput] under [env_ok] asks for
    clarification. *)
Definition clarified (userInput : string) : option bool :=
  clarificationNeeded
    (value_of (Generator.generateWorkflow env_ok userInput world0) blank_result).

Definition blank_execution : WorkflowExecution :=
  {| workflowId := ""; executionId := ""; status := ex_idle; logs := 0%nat;
     startTime := None; endTime := None |}.

(** The statuses that the holder of the object [e] sees in world [w]. *)
Definition seen_statuses (w : World) (e : WorkflowExecution)
  : option (list LogStatus) :=
  match view w e with
  | Some (_, _, ls) => Some (log_status <$> ls)
  | None => None
  end.

End Examples.

(** ** The callers of the generator and of the executor

    The pure parts of [app/page.tsx] (history), of
    [components/WorkflowVisualizer.tsx] (step editing, counters), of
    [components/ExecutionLog.tsx] and [components/ExecutionSummary.tsx]
    (counters) and of [cli/workflow-agent.ts] (dependency names). *)

Module Callers.

(** [saveToHistory]: the list that becomes the history,
    [[newWorkflow, ...workflowHistory.filter(w => w.id !== newWorkflow.id)]
     .slice(0, 3)]. *)
Definition saveToHistory (newWorkflow : Workflow) (workflowHistory : list Workflow)
  : list Workflow :=
  take 3
    (newWorkflow ::
     filter (fun w => w_id w <> w_id newWorkflow) workflowHistory).

(** [field: 'title' | 'description'] *)
Inductive Field := title_field | description_field.

(** [{ ...step, [field]: value }] *)
Definition with_field (field : Field) (value : string) (step : WorkflowStep)
  : WorkflowStep :=
  match field with
  | title_field =>
      {| s_id := s_id step; s_type := s_type step; s_title := value;
         s_description := s_description step; s_reasoning := s_reasoning step;
         s_config := s_config step; s_dependencies := s_dependencies step |}
  | description_field =>
      {| s_id := s_id step; s_type := s_type step; s_title := s_title step;
         s_description := value; s_reasoning := s_reasoning step;
         s_config := s_config step; s_dependencies := s_dependencies step |}
  end.

(** [handleStepEdit]: the list that becomes [editedSteps]. *)
Definition handleStepEdit (stepId : string) (field : Field) (value : string)
    (editedSteps : list WorkflowStep) : list WorkflowStep :=
  (fun step =>
     if String.eqb (s_id step) stepId then with_field field value step
     else step) <$> editedSteps.

(** [handleSaveChanges]: the workflow handed to [onUpdate],
    [{ ...workflow, steps: editedSteps }]. *)
Definition handleSaveChanges (workflow : Workflow)
    (editedSteps : list WorkflowStep) : Workflow :=
  {| w_id := w_id workflow; w_name := w_name workflow;
     w_description := w_description workflow; w_domain := w_domain workflow;
     w_trigger := w_trigger workflow; w_steps := editedSteps;
     w_metadata := w_metadata workflow |}.

(** [explainWorkflow]: the names shown after "Depends on:",
    [step.dependencies.map(depId => { const dep = workflow.steps.find(s =>
     s.id === depId); return dep ? dep.title : depId; })]. *)
Definition depNames (workflow : Workflow) (dependencies : list string)
  : list string :=
  (fun depId =>
     match List.find (fun s => String.eqb (s_id s) depId) (w_steps workflow) with
     | Some dep => s_title dep
     | None => depId
     end) <$> dependencies.

(** The same in the visualizer, [depStep?.title || depId]: an empty title
    gives way to the id. *)
Definition depLabels (workflow : Workflow) (dependencies : list string)
  : list string :=
  (fun depId =>
     match List.find (fun s => String.eqb (s_id s) depId) (w_steps workflow) with
     | Some depStep =>
         if String.eqb (s_title depStep) "" then depId else s_title depStep
     | None => depId
     end) <$> dependencies.

(** [execution.logs.filter(log => log.status === st).length] *)
Definition countStatus (st : LogStatus) (ls : list ExecutionLog) : nat :=
  length (filter (fun log => log_status log = st) ls).

(** [workflow.steps.filter(s => s.type === t).length] *)
Definition countType (t : StepType) (steps : list WorkflowStep) : nat :=
  length (filter (fun s => s_type s = t) steps).

End Callers.

(** ** Vocabulary of the further statements *)

Module Shapes.
Import Str Generator Executor.

(** The guard of [generateWorkflow] and its three keyword tests. *)
Definition vague (input : string) : bool :=
  (utf16_length input <? 10)%nat || negb (includes input " ").

Definition reminder_family (input : string) : bool :=
  includes input "remind" || includes input "notification"
  || includes input "alert".

Definition setup_family (input : string) : bool :=
  includes input "setup" || includes input "create project"
  || includes input "initialize".

Definition notification_family (input : string) : bool :=
  includes input "email" || includes input "send" || includes input "notify".

(** The test that adds the step [Configure Testing]. *)
Definition testing (input : string) : bool :=
  includes input "test" || includes input "jest" || includes input "vitest".

(** The test that makes the trigger of a notification workflow an event. *)
Definition eventful (input : string) : bool :=
  includes input "when" || includes input "signup" || includes input "user".

(** What the executor reads of a step besides its title and config. *)
Definition skeleton (s : WorkflowStep) : string * StepType * option (list string) :=
  (s_id s, s_type s, s_dependencies s).

Definition reminder_skeleton : list (string * StepType * option (list string)) :=
  [("step-1", condition, None);
   ("step-2", notification, Some ["step-1"]);
   ("step-3", action, Some ["step-2"])].

Definition setup_skeleton (with_tests : bool)
  : list (string * StepType * option (list string)) :=
  [("step-1", action, None); ("step-2", action, Some ["step-1"])]
  ++ (if with_tests then [("step-3", action, Some ["step-2"])] else [])
  ++ [("step-4", action, Some ["step-2"])].

Definition notification_skeleton
  : list (string * StepType * option (list string)) :=
  [("step-1", condition, None);
   ("step-2", action, Some ["step-1"]);
   ("step-3", notification, Some ["step-2"]);
   ("step-4", action, Some ["step-3"])].

Definition general_skeleton (n : nat)
  : list (string * StepType * option (list string)) :=
  (fun i =>
     ("step-" +:+ pretty (i + 1)%nat, action,
      if (0 <? i)%nat then Some ["step-" +:+ pretty i] else None))
  <$> seq 0 n.

(** The ids are pairwise distinct and every dependency is the id of an
    earlier step. *)
Definition well_formed (steps : list WorkflowStep) : Prop :=
  NoDup (s_id <$> steps) /\
  forall k step deps d,
    steps !! k = Some step -> s_dependencies step = Some deps -> d ∈ deps ->
    d ∈ (s_id <$> take k steps).

(** The same, checked from the first step on; [seen] holds the ids met so
    far. *)
Fixpoint backward (seen : list string)
    (sk : list (string * StepType * option (list string))) : bool :=
  match sk with
  | [] => true
  | (i, _, d) :: rest =>
      negb (bool_decide (i ∈ seen))
      && match d with
         | Some deps => forallb (fun x => bool_decide (x ∈ seen)) deps
         | None => true
         end
      && backward (seen ++ [i]) rest
  end.

(** Every simulated execution succeeds in [env]. *)
Definition all_succeed (env : Env) : Prop :=
  forall n, Qle_bool (random env n) (5 # 100) = false.

(** What [simulateStepExecution] returns: a text and no error, or the fixed
    error and no text. *)
Definition result_ok (res : SimResult) : Prop :=
  (success res = true -> is_Some (output res) /\ error res = None) /\
  (success res = false ->
   output res = None /\ error res = Some "Simulated execution error").

(** A log entry as the loop leaves it between two steps. *)
Definition entry_ok (l : ExecutionLog) : Prop :=
  match log_status l with
  | pending =>
      log_startTime l = None /\ log_endTime l = None /\
      log_output l = None /\ log_error l = None
  | running => False
  | completed =>
      is_Some (log_startTime l) /\ is_Some (log_endTime l) /\
      is_Some (log_output l) /\ log_error l = None
  | failed =>
      log_error l = Some "Dependencies not met" \/
      (log_error l = Some "Simulated execution error" /\
       log_output l = None /\
       is_Some (log_startTime l) /\ is_Some (log_endTime l))
  end.



(** The writes of the loop: the entry [x] becomes [y]. *)
Definition written (x y : ExecutionLog) : Prop :=
  y = unmet_log x \/
  exists t1 t2 res, result_ok res /\ y = ran_log t1 t2 res x.

End Shapes.

(** ** More concrete workflows *)

Module MoreExamples.

(** A step with nothing but an id, a type and dependencies. *)
Definition bare_step (i : string) (t : StepType) (d : option (list string))
  : WorkflowStep :=
  {| s_id := i; s_type := t; s_title := "Step " +:+ i; s_description := "";
     s_reasoning := "by hand"; s_config := ∅; s_dependencies := d |}.

Definition bare_workflow (steps : list WorkflowStep) : Workflow :=
  {| w_id := "wf-by-hand"; w_name := "By hand"; w_description := "";
     w_domain := general;
     w_trigger := {| t_type := manual; t_description := "Run now";
                     t_config := None |};
     w_steps := steps;
     w_metadata := {| createdAt := ""; userInput := ""; agentReasoning := "" |} |}.

(** Two steps with the same id. *)
Definition twice_workflow : Workflow :=
  bare_workflow [bare_step "a" action None; bare_step "a" action None].

(** Dependencies that no earlier step carries: an unknown id, the step
    itself, a later step. *)
Definition dangling_workflow : Workflow :=
  bare_workflow
    [bare_step "a" action (Some ["ghost"]);
     bare_step "b" action (Some ["b"]);
     bare_step "c" action (Some ["d"]);
     bare_step "d" action (Some [])].

(** Characters beyond ASCII: the no-break space U+00A0 and the byte order
    mark U+FEFF, which are white space; the Kelvin sign U+212A, whose lower
    case is "k"; the capital I with a dot above U+0130, whose lower case is
    two characters. *)
Definition nbsp : string := Examples.bytes [194; 160].
Definition bom : string := Examples.bytes [239; 187; 191].
Definition kelvin : string := Examples.bytes [226; 132; 170].
Definition dotted_I : string := Examples.bytes [196; 176].
Definition tab : string := Examples.bytes [9].

(** A workflow with nothing but an id, for the history. *)
Definition named_workflow (i : string) : Workflow :=
  {| w_id := i; w_name := "Workflow " +:+ i; w_description := "";
     w_domain := general;
     w_trigger := {| t_type := manual; t_description := "Run now";
                     t_config := None |};
     w_steps := [];
     w_metadata := {| createdAt := ""; userInput := ""; agentReasoning := "" |} |}.

End MoreExamples.

(** ** Chains of steps *)

Module Chains.
Import Shapes.

(** Every step but the first depends on a step before it. *)
Definition rooted (steps : list WorkflowStep) : Prop :=
  forall k step,
    steps !! S k = Some step ->
    exists deps d,
      s_dependencies step = Some deps /\ d ∈ deps /\
      d ∈ (s_id <$> take (S k) steps).

(** The same, checked step by step; [seen] holds the ids met so far. *)
Fixpoint hangs (seen : list string)
    (sk : list (string * StepType * option (list string))) : bool :=
  match sk with
  | [] => true
  | (i, _, d) :: rest =>
      match d with
      | Some deps => existsb (fun x => bool_decide (x ∈ seen)) deps
      | None => false
      end
      && hangs (seen ++ [i]) rest
  end.

End Chains.

(** * Properties of the executor *)

Module ExecutorFacts.
Import Executor.

(** ** Running a computation *)

Lemma bind_returns {A B} (m : M A) (k : A -> M B) w a w' :
  m w = Returns a w' -> bind m k w = k a w'.
Proof. intros E. unfold bind. by rewrite E. Qed.

Lemma bind_throws {A B} (m : M A) (k : A -> M B) w msg w' :
  m w = Throws msg w' -> bind m k w = Throws msg w'.
Proof. intros E. unfold bind. by rewrite E. Qed.

Lemma bind_ret_l {A B} (a : A) (k : A -> M B) w : bind (ret a) k w = k a w.
Proof. reflexivity. Qed.

(** ** findIndex *)

Lemma findIndex_range {A} (p : A -> bool) (l : list A) :
  (-1 <= findIndex p l < Z.of_nat (length l))%Z.
Proof.
  induction l as [|x l IH]; simpl; [lia|].
  destruct (p x); [lia|].
  destruct (Z.ltb_spec (findIndex p l) 0); lia.
Qed.

Lemma findIndex_found {A} (p : A -> bool) (l : list A) (n : nat) (x : A) :
  l !! n = Some x -> p x = true ->
  exists m y, findIndex p l = Z.of_nat m /\ (m <= n)%nat /\ l !! m = Some y /\
              p y = true.
Proof.
  revert n. induction l as [|z l IH]; intros n Hn Hp; [done|].
  simpl. destruct (p z) eqn:Ez.
  - exists 0%nat, z. split_and!; [done | lia | done | done].
  - destruct n as [|n]; simpl in Hn; [congruence|].
    destruct (IH n Hn Hp) as (m & y & Em & Hle & Hy & Hpy).
    rewrite Em. destruct (Z.ltb_spec (Z.of_nat m) 0); [lia|].
    exists (S m), y. split_and!; [lia | lia | done | done].
Qed.

Lemma nth_Z_of_nat {A} (l : list A) (n : nat) : nth_Z l (Z.of_nat n) = l !! n.
Proof.
  unfold nth_Z. destruct (Z.ltb_spec (Z.of_nat n) 0); [lia|].
  by rewrite Nat2Z.id.
Qed.

(** ** The primitives on a world whose array is known *)

Lemma read_eq a L w : heap w !! a = Some L -> read a w = Returns L w.
Proof. intros H. unfold read. by rewrite H. Qed.

Lemma assign_eq a L n x f w :
  heap w !! a = Some L -> L !! n = Some x ->
  assign a (Z.of_nat n) f w
  = Returns tt (set_heap (<[a := <[n := f x]> L]> (heap w)) w).
Proof.
  intros H Hx. unfold assign. rewrite H, nth_Z_of_nat, Hx.
  by rewrite Nat2Z.id.
Qed.

Lemma push_eq a L x w :
  heap w !! a = Some L ->
  push a x w = Returns tt (set_heap (<[a := L ++ [x]]> (heap w)) w).
Proof. intros H. unfold push. by rewrite H. Qed.

Lemma fresh_not_allocated (h : gmap loc (list ExecutionLog)) a L :
  h !! a = Some L -> a <> fresh (dom h).
Proof.
  intros H E. apply (is_fresh (dom h)). rewrite <- E.
  apply elem_of_dom. by exists L.
Qed.

Lemma fresh_ne (h : gmap loc (list ExecutionLog)) a L :
  h !! a = Some L -> fresh (dom h) <> a.
Proof. intros H E. by apply (fresh_not_allocated h a L). Qed.

Lemma json_copy_eq e L w :
  heap w !! logs e = Some L ->
  json_copy e w
  = Returns (with_logs (fresh (dom (heap w))) e)
      (set_heap (<[fresh (dom (heap w)) := L]> (heap w)) w).
Proof.
  intros H. unfold json_copy. rewrite (bind_returns _ _ _ _ _ (read_eq _ _ _ H)).
  reflexivity.
Qed.

Lemma insert_lookup_same {A} (L : list A) n x y :
  L !! n = Some x -> <[n := y]> L !! n = Some y.
Proof. intros H. apply list_lookup_insert_eq. by eapply lookup_lt_Some. Qed.

Lemma frame_refl a w : frame a w w.
Proof. by intros l L _ H. Qed.

Lemma frame_trans a w1 w2 w3 : frame a w1 w2 -> frame a w2 w3 -> frame a w1 w3.
Proof. intros H1 H2 l L Hne H. eauto. Qed.

Lemma frame_insert a L w w' :
  heap w' = <[a := L]> (heap w) -> frame a w w'.
Proof. intros E l L0 Hne H. rewrite E. by rewrite lookup_insert_ne. Qed.

Ltac world_simpl :=
  cbn [heap clock_reads random_draws received simulations set_heap
       set_received set_simulations set_clock_reads set_random_draws].

(** The copying notification leaves the live array and the counters alone. *)
Lemma notify_copy_spec onProgress e L w :
  heap w !! logs e = Some L ->
  exists w',
    notify_copy onProgress e w = Returns tt w' /\
    heap w' !! logs e = Some L /\
    frame (logs e) w w' /\
    clock_reads w' = clock_reads w /\
    random_draws w' = random_draws w /\
    simulations w' = simulations w /\
    received w' =
      received w ++
      (if onProgress then [with_logs (fresh (dom (heap w))) e] else []) /\
    (onProgress = true -> heap w' !! fresh (dom (heap w)) = Some L).
Proof.
  intros H. destruct onProgress; simpl.
  - eexists. split.
    { unfold notify_copy. rewrite (bind_returns _ _ _ _ _ (json_copy_eq _ _ _ H)).
      reflexivity. }
    world_simpl. split_and!; try done.
    + rewrite lookup_insert_ne; [done|]. intros E. symmetry in E.
      by eapply fresh_not_allocated.
    + intros l L0 Hne Hl. world_simpl. rewrite lookup_insert_ne; [done|].
      intros E. symmetry in E. by eapply fresh_not_allocated.
    + intros _. apply lookup_insert_eq.
  - exists w. split_and!; try done.
    + apply frame_refl.
    + by rewrite app_nil_r.
Qed.

Lemma simulate_returns env type title config w :
  exists res,
    simulateStepExecution env type title config w
    = Returns res (set_random_draws (S (random_draws w)) w) /\
    success res = negb (Qle_bool (random env (random_draws w)) (5 # 100)) /\
    (success res = false ->
     error res = Some "Simulated execution error" /\ output res = None) /\
    (success res = true -> error res = None).
Proof.
  unfold simulateStepExecution, bind, Math_random.
  destruct (Qle_bool (random env (random_draws w)) (5 # 100)); simpl.
  - eexists. split; [reflexivity|]. simpl. split_and!; done.
  - eexists. split; [reflexivity|]. simpl. split_and!; done.
Qed.

(** An iteration whose dependency check fails. *)
Lemma iteration_unmet env onProgress step ex w L n x :
  heap w !! logs ex = Some L ->
  findIndex (same_id (s_id step)) L = Z.of_nat n ->
  L !! n = Some x ->
  deps_met step L = false ->
  iteration env onProgress step ex w
  = Returns (Next, ex)
      (set_heap (<[logs ex := <[n := unmet_log x]> L]> (heap w)) w).
Proof.
  intros H Hi Hx Hg. unfold iteration.
  rewrite (bind_returns _ _ _ _ _ (read_eq _ _ _ H)). rewrite Hi.
  unfold deps_met in Hg. destruct (s_dependencies step) as [deps|]; [|done].
  unfold bind at 1. unfold bind at 1. rewrite (read_eq _ _ _ H).
  rewrite Hg. cbn [negb].
  unfold bind at 1. rewrite (assign_eq _ _ _ _ _ _ H Hx).
  unfold bind at 1. erewrite assign_eq;
    [| world_simpl; apply lookup_insert_eq | by eapply insert_lookup_same].
  simpl. f_equal. unfold set_heap. world_simpl.
  by rewrite insert_insert_eq, list_insert_insert_eq.
Qed.

Lemma ids_insert (ls : list ExecutionLog) n x y :
  ls !! n = Some x -> stepId y = stepId x ->
  stepId <$> <[n := y]> ls = stepId <$> ls.
Proof.
  intros Hx Hy. rewrite list_fmap_insert. apply list_insert_id.
  by rewrite list_lookup_fmap, Hx, Hy.
Qed.

Lemma Date_iso_eq env w :
  Date_iso env w
  = Returns (toISOString env (clock env (clock_reads w)))
      (set_clock_reads (S (clock_reads w)) w).
Proof. reflexivity. Qed.

Lemma Math_random_eq env w :
  Math_random env w
  = Returns (random env (random_draws w)) (set_random_draws (S (random_draws w)) w).
Proof. reflexivity. Qed.

(** An iteration whose dependency check succeeds: the step is simulated. *)
Lemma iteration_runs env onProgress step ex w L n x :
  heap w !! logs ex = Some L ->
  findIndex (same_id (s_id step)) L = Z.of_nat n ->
  L !! n = Some x ->
  deps_met step L = true ->
  exists res t1 t2 w',
    iteration env onProgress step ex w
    = Returns
        (if negb (success res) && negb (bool_decide (s_type step = condition))
         then (Break, with_status ex_failed ex) else (Next, ex)) w' /\
    heap w' !! logs ex = Some (<[n := ran_log t1 t2 res x]> L) /\
    frame (logs ex) w w' /\
    simulations w' =
      simulations w ++
      [{| call_type := s_type step; call_title := s_title step;
          call_result := res |}] /\
    success res = negb (Qle_bool (random env (S (random_draws w))) (5 # 100)) /\
    (success res = false -> error res = Some "Simulated execution error") /\
    random_draws w' = S (S (random_draws w)) /\
    clock_reads w' = S (S (clock_reads w)) /\
    exists snaps,
      received w' = received w ++ snaps /\
      (onProgress = false -> snaps = []) /\
      Forall
        (fun s => logs s <> logs ex /\
                  exists ls, heap w' !! logs s = Some ls /\
                             stepId <$> ls = stepId <$> L)
        snaps.
Proof.
  intros H Hi Hx Hg. unfold iteration.
  rewrite (bind_returns _ _ _ _ _ (read_eq _ _ _ H)). rewrite Hi.
  match goal with |- context [bind ?blk _ w] =>
    assert (Hblk : blk w = Returns false w) end.
  { unfold deps_met in Hg. destruct (s_dependencies step) as [deps|]; [|done].
    unfold bind. by rewrite (read_eq _ _ _ H), Hg. }
  rewrite (bind_returns _ _ _ _ _ Hblk). cbv beta iota. clear Hblk.
  (* status = 'running' *)
  rewrite (bind_returns _ _ _ _ _ (assign_eq _ _ _ _ (set_status running) _ H Hx)).
  set (L1 := <[n := set_status running x]> L).
  set (w1 := set_heap (<[logs ex := L1]> (heap w)) w).
  assert (H1 : heap w1 !! logs ex = Some L1) by apply lookup_insert_eq.
  assert (Hx1 : L1 !! n = Some (set_status running x))
    by (by eapply insert_lookup_same).
  (* startTime *)
  rewrite (bind_returns _ _ _ _ _ (Date_iso_eq env w1)).
  set (t1 := toISOString env (clock env (clock_reads w1))).
  set (w2 := set_clock_reads (S (clock_reads w1)) w1).
  assert (H2 : heap w2 !! logs ex = Some L1) by exact H1.
  rewrite (bind_returns _ _ _ _ _
             (assign_eq _ _ _ _ (set_startTime (Some t1)) _ H2 Hx1)).
  set (L3 := <[n := set_startTime (Some t1) (set_status running x)]> L1).
  set (w3 := set_heap (<[logs ex := L3]> (heap w2)) w2).
  assert (H3 : heap w3 !! logs ex = Some L3) by apply lookup_insert_eq.
  assert (Hx3 : L3 !! n = Some (set_startTime (Some t1) (set_status running x)))
    by (by eapply insert_lookup_same).
  (* first snapshot *)
  destruct (notify_copy_spec onProgress ex L3 w3 H3)
    as (w4 & E4 & H4 & F4 & C4 & R4 & S4 & V4 & A4).
  rewrite (bind_returns _ _ _ _ _ E4).
  (* delay and simulation *)
  rewrite (bind_returns _ _ _ _ _ (Math_random_eq env w4)).
  unfold sleep at 1. rewrite bind_ret_l.
  set (w5 := set_random_draws (S (random_draws w4)) w4).
  destruct (simulate_returns env (s_type step) (s_title step) (s_config step) w5)
    as (res & E6 & Hres & Hfail & _).
  rewrite (bind_returns _ _ _ _ _ E6).
  set (w6 := set_random_draws (S (random_draws w5)) w5).
  unfold record_call at 1. unfold bind at 1.
  set (call := {| call_type := s_type step; call_title := s_title step;
                  call_result := res |}).
  set (w7 := set_simulations (simulations w6 ++ [call]) w6).
  assert (H7 : heap w7 !! logs ex = Some L3) by exact H4.
  (* status, endTime, output, error *)
  set (st := if success res then completed else failed).
  rewrite (bind_returns _ _ _ _ _ (assign_eq _ _ _ _ (set_status st) _ H7 Hx3)).
  set (x8 := set_status st (set_startTime (Some t1) (set_status running x))).
  set (L8 := <[n := x8]> L3).
  set (w8 := set_heap (<[logs ex := L8]> (heap w7)) w7).
  assert (H8 : heap w8 !! logs ex = Some L8) by apply lookup_insert_eq.
  assert (Hx8 : L8 !! n = Some x8) by (by eapply insert_lookup_same).
  rewrite (bind_returns _ _ _ _ _ (Date_iso_eq env w8)).
  set (t2 := toISOString env (clock env (clock_reads w8))).
  set (w9 := set_clock_reads (S (clock_reads w8)) w8).
  assert (H9 : heap w9 !! logs ex = Some L8) by exact H8.
  rewrite (bind_returns _ _ _ _ _
             (assign_eq _ _ _ _ (set_endTime (Some t2)) _ H9 Hx8)).
  set (x10 := set_endTime (Some t2) x8).
  set (L10 := <[n := x10]> L8).
  set (w10 := set_heap (<[logs ex := L10]> (heap w9)) w9).
  assert (H10 : heap w10 !! logs ex = Some L10) by apply lookup_insert_eq.
  assert (Hx10 : L10 !! n = Some x10) by (by eapply insert_lookup_same).
  rewrite (bind_returns _ _ _ _ _
             (assign_eq _ _ _ _ (set_output (output res)) _ H10 Hx10)).
  set (x11 := set_output (output res) x10).
  set (L11 := <[n := x11]> L10).
  set (w11 := set_heap (<[logs ex := L11]> (heap w10)) w10).
  assert (H11 : heap w11 !! logs ex = Some L11) by apply lookup_insert_eq.
  assert (Hx11 : L11 !! n = Some x11) by (by eapply insert_lookup_same).
  rewrite (bind_returns _ _ _ _ _
             (assign_eq _ _ _ _ (set_error (error res)) _ H11 Hx11)).
  set (L12 := <[n := set_error (error res) x11]> L11).
  set (w12 := set_heap (<[logs ex := L12]> (heap w11)) w11).
  assert (H12 : heap w12 !! logs ex = Some L12) by apply lookup_insert_eq.
  (* second snapshot *)
  destruct (notify_copy_spec onProgress ex L12 w12 H12)
    as (w13 & E13 & H13 & F13 & C13 & R13 & S13 & V13 & A13).
  rewrite (bind_returns _ _ _ _ _ E13).
  exists res, t1, t2, w13. split.
  { by destruct (negb (success res) && negb (bool_decide (s_type step = condition))). }
  assert (EL : L12 = <[n := ran_log t1 t2 res x]> L).
  { unfold L12, L11, L10, L8, L3, L1.
    by rewrite !list_insert_insert_eq. }
  assert (Fmid : frame (logs ex) w4 w12).
  { intros l L0 Hne Hl. unfold w12, w11, w10, w9, w8, w7, w6, w5. world_simpl.
    by rewrite !lookup_insert_ne. }
  assert (Hid3 : stepId <$> L3 = stepId <$> L).
  { unfold L3, L1. rewrite list_insert_insert_eq. by apply (ids_insert _ _ x). }
  split_and!.
  - by rewrite H13, EL.
  - eapply frame_trans; [|exact F13].
    eapply frame_trans with (w2 := w4); [|exact Fmid].
    eapply frame_trans; [|exact F4].
    intros l L0 Hne Hl. unfold w3, w2, w1. world_simpl.
    by rewrite !lookup_insert_ne.
  - rewrite S13. unfold w12, w11, w10, w9, w8, w7, w6, w5. world_simpl.
    by rewrite S4.
  - rewrite Hres. unfold w5. world_simpl. by rewrite R4.
  - intros Hf. by apply Hfail.
  - rewrite R13. unfold w12, w11, w10, w9, w8, w7, w6, w5. world_simpl.
    by rewrite R4.
  - rewrite C13. unfold w12, w11, w10, w9, w8, w7, w6, w5. world_simpl.
    by rewrite C4.
  - exists ((if onProgress then [with_logs (fresh (dom (heap w3))) ex] else [])
            ++ (if onProgress then [with_logs (fresh (dom (heap w12))) ex]
                else [])).
    split_and!.
    + rewrite V13. unfold w12, w11, w10, w9, w8, w7, w6, w5. world_simpl.
      rewrite V4. unfold w3, w2, w1. world_simpl.
      by rewrite <- app_assoc.
    + by intros ->.
    + destruct onProgress; [|by apply Forall_nil].
      apply Forall_cons. split; [|apply Forall_singleton].
      * cbn [logs with_logs]. split; [exact (fresh_ne _ _ _ H3)|].
        exists L3. split; [|done].
        apply F13; [exact (fresh_ne _ _ _ H3)|].
        apply Fmid; [exact (fresh_ne _ _ _ H3)|]. by apply A4.
      * cbn [logs with_logs]. split; [exact (fresh_ne _ _ _ H12)|].
        exists L12. split; [by apply A13|].
        rewrite EL. by apply (ids_insert _ _ x).
Qed.

(** ** The loop *)

Lemma loop_app env onProgress l1 l2 ex w :
  loop env onProgress (l1 ++ l2) ex w
  = match loop env onProgress l1 ex w with
    | Returns (Next, ex') w' => loop env onProgress l2 ex' w'
    | Returns (Break, ex') w' => Returns (Break, ex') w'
    | Throws msg w' => Throws msg w'
    end.
Proof.
  revert ex w. induction l1 as [|step l1 IH]; intros ex w; [done|].
  simpl. unfold bind.
  destruct (iteration env onProgress step ex w) as [[[|] ex'] w'|]; [|done..].
  apply IH.
Qed.

Lemma loop_single env onProgress step ex w :
  loop env onProgress [step] ex w = iteration env onProgress step ex w.
Proof.
  simpl. unfold bind.
  by destruct (iteration env onProgress step ex w) as [[[|] ex'] w'|].
Qed.

Lemma after_S env wf onProgress k step w :
  w_steps wf !! k = Some step ->
  after env wf onProgress (S k) w
  = match after env wf onProgress k w with
    | Returns (Next, ex) w' => iteration env onProgress step ex w'
    | Returns (Break, ex) w' => Returns (Break, ex) w'
    | Throws msg w' => Throws msg w'
    end.
Proof.
  intros Hk. unfold after. rewrite (take_S_r _ _ _ Hk). unfold bind.
  destruct (start env wf onProgress w) as [ex w'|]; [|done].
  rewrite loop_app.
  destruct (loop env onProgress (take k (w_steps wf)) ex w')
    as [[[|] ex'] w''|]; [|done..].
  apply loop_single.
Qed.

Lemma after_ge env wf onProgress k w :
  (length (w_steps wf) <= k)%nat ->
  after env wf onProgress k w = after env wf onProgress (length (w_steps wf)) w.
Proof.
  intros Hk. unfold after. by rewrite !take_ge by lia.
Qed.

Lemma after_Break env wf onProgress k j ex w w' :
  (k <= j)%nat ->
  after env wf onProgress k w = Returns (Break, ex) w' ->
  after env wf onProgress j w = Returns (Break, ex) w'.
Proof.
  intros Hkj. induction Hkj as [|j Hkj IH]; intros E; [done|].
  specialize (IH E).
  destruct (decide (j < length (w_steps wf))%nat) as [Hlt|Hge].
  - destruct (lookup_lt_is_Some_2 _ _ Hlt) as [step Hstep].
    by rewrite (after_S _ _ _ _ _ _ Hstep), IH.
  - rewrite after_ge by lia. by rewrite <- (after_ge _ _ _ j) by lia.
Qed.

Lemma executeWorkflow_after env wf onProgress w :
  executeWorkflow env wf onProgress w
  = match after env wf onProgress (length (w_steps wf)) w with
    | Returns r w' => finish env onProgress (snd r) w'
    | Throws msg w' => Throws msg w'
    end.
Proof.
  unfold executeWorkflow, after. rewrite take_ge by lia. unfold bind.
  destruct (start env wf onProgress w) as [ex w'|]; [|done].
  by destruct (loop env onProgress (w_steps wf) ex w').
Qed.

(** ** The start and the end of a run *)

Lemma set_heap_id w : set_heap (heap w) w = w.
Proof. by destruct w. Qed.

Lemma forEach_push a (f : WorkflowStep -> ExecutionLog) steps L w :
  heap w !! a = Some L ->
  forEach (fun step => push a (f step)) steps w
  = Returns tt (set_heap (<[a := L ++ (f <$> steps)]> (heap w)) w).
Proof.
  revert L w. induction steps as [|step steps IH]; intros L w H.
  - simpl. unfold ret. by rewrite app_nil_r, insert_id, set_heap_id.
  - simpl. rewrite (bind_returns _ _ _ _ _ (push_eq _ _ _ _ H)).
    erewrite IH by apply lookup_insert_eq.
    f_equal. unfold set_heap. world_simpl.
    by rewrite insert_insert_eq, <- app_assoc.
Qed.

Lemma start_spec env wf onProgress w :
  exists ex w',
    start env wf onProgress w = Returns ex w' /\
    heap w' !! logs ex = Some (pending_log <$> w_steps wf) /\
    heap w !! logs ex = None /\
    frame (logs ex) w w' /\
    status ex = ex_running /\
    workflowId ex = w_id wf /\
    simulations w' = simulations w /\
    random_draws w' = random_draws w /\
    received w' = received w ++ (if onProgress then [ex] else []).
Proof.
  unfold start.
  rewrite (bind_returns _ _ _ _ _
             (eq_refl : Date_now env w = Returns _ (set_clock_reads _ w))).
  set (w1 := set_clock_reads (S (clock_reads w)) w).
  unfold alloc at 1. unfold bind at 1.
  set (a := fresh (dom (heap w1))).
  set (w2 := set_heap (<[a := []]> (heap w1)) w1).
  rewrite (bind_returns _ _ _ _ _ (Date_iso_eq env w2)).
  set (w3 := set_clock_reads (S (clock_reads w2)) w2).
  assert (H3 : heap w3 !! a = Some []) by apply lookup_insert_eq.
  cbn [logs].
  rewrite (bind_returns _ _ _ _ _ (forEach_push a _ (w_steps wf) [] w3 H3)).
  rewrite app_nil_l.
  assert (Hfresh : heap w !! a = None).
  { apply not_elem_of_dom. apply is_fresh. }
  destruct onProgress.
  - eexists _, _. split; [reflexivity|]. world_simpl. split_and!; try done.
    + apply lookup_insert_eq.
    + intros l L0 Hne Hl. cbn [logs] in Hne. unfold w3, w2, w1. world_simpl.
      by rewrite !lookup_insert_ne by done.
  - eexists _, _. split; [reflexivity|]. world_simpl. split_and!; try done.
    + apply lookup_insert_eq.
    + intros l L0 Hne Hl. cbn [logs] in Hne. unfold w3, w2, w1. world_simpl.
      by rewrite !lookup_insert_ne by done.
    + by rewrite app_nil_r.
Qed.

Lemma finish_spec env onProgress ex w :
  exists ex' w',
    finish env onProgress ex w = Returns ex' w' /\
    logs ex' = logs ex /\
    status ex' = (if bool_decide (status ex = ex_running)
                  then ex_completed else status ex) /\
    heap w' = heap w /\
    simulations w' = simulations w /\
    random_draws w' = random_draws w /\
    received w' = received w ++ (if onProgress then [ex'] else []).
Proof.
  unfold finish. rewrite (bind_returns _ _ _ _ _ (Date_iso_eq env w)).
  destruct onProgress; simpl.
  - eexists _, _. split; [reflexivity|]. world_simpl.
    split_and!; try done; by destruct (bool_decide (status ex = ex_running)).
  - eexists _, _. split; [reflexivity|]. world_simpl.
    split_and!; try done; try by destruct (bool_decide (status ex = ex_running)).
    by rewrite app_nil_r.
Qed.

(** ** The state of the loop *)

Lemma same_id_true i log : same_id i log = true <-> stepId log = i.
Proof. unfold same_id. apply String.eqb_eq. Qed.

(** The entry of the [k]-th step is found, at position [k] or before. *)
Lemma entry_found (steps : list WorkflowStep) (ls : list ExecutionLog) k step :
  stepId <$> ls = s_id <$> steps ->
  steps !! k = Some step ->
  exists n x,
    findIndex (same_id (s_id step)) ls = Z.of_nat n /\ (n <= k)%nat /\
    ls !! n = Some x /\ stepId x = s_id step.
Proof.
  intros Hids Hk.
  assert (Hl : (stepId <$> ls) !! k = Some (s_id step)).
  { rewrite Hids, list_lookup_fmap, Hk. done. }
  rewrite list_lookup_fmap in Hl.
  destruct (ls !! k) as [l|] eqn:El; [|done]. simpl in Hl.
  injection Hl as Hl.
  destruct (findIndex_found (same_id (s_id step)) ls k l El) as (n & x & ? & ? & ? & Hp).
  { by apply same_id_true. }
  exists n, x. split_and!; try done. by apply same_id_true.
Qed.

Lemma pending_from_insert k n y ls :
  pending_from k ls -> (n <= k)%nat -> pending_from (S k) (<[n := y]> ls).
Proof.
  intros Hp Hn p l Hle Hl. rewrite list_lookup_insert_ne in Hl by lia.
  apply (Hp p l); [lia | done].
Qed.

Lemma pending_from_weaken k j ls :
  pending_from k ls -> (k <= j)%nat -> pending_from j ls.
Proof. intros Hp Hkj p l Hle Hl. apply (Hp p l); [lia | done]. Qed.

(** One iteration keeps the state of the loop. *)
Lemma iteration_loop_state env wf onProgress w0 k step ex w :
  w_steps wf !! k = Some step ->
  loop_state wf w0 k Next ex w ->
  exists c ex' w',
    iteration env onProgress step ex w = Returns (c, ex') w' /\
    loop_state wf w0 (S k) c ex' w' /\ logs ex' = logs ex.
Proof.
  intros Hk (ls & hist & Hls & Hids & Hsim & Hst & Hpend & Hhist).
  destruct (entry_found _ _ _ _ Hids Hk) as (n & x & Hi & Hn & Hx & Hxid).
  destruct (deps_met step ls) eqn:Hg.
  - destruct (iteration_runs env onProgress step ex w ls n x Hls Hi Hx Hg)
      as (res & t1 & t2 & w' & E & Hls' & _ & Hsim' & _ & _ & _ & _ & _).
    set (call := {| call_type := s_type step; call_title := s_title step;
                    call_result := res |}) in *.
    assert (Hids' : stepId <$> <[n := ran_log t1 t2 res x]> ls
                    = s_id <$> w_steps wf).
    { by rewrite (ids_insert _ _ x). }
    assert (Hsim'' : simulations w' = simulations w0 ++ (hist ++ [call])).
    { by rewrite Hsim', Hsim, <- app_assoc. }
    destruct (negb (success res) && negb (bool_decide (s_type step = condition)))
      eqn:Hstop.
    + exists Break, (with_status ex_failed ex), w'. split_and!; try done.
      exists (<[n := ran_log t1 t2 res x]> ls), (hist ++ [call]).
      split_and!; try done.
      apply Exists_app. right. apply Exists_cons. left.
      apply andb_true_iff in Hstop as [Hs Ht].
      apply negb_true_iff in Hs. apply negb_true_iff in Ht.
      apply bool_decide_eq_false in Ht. by split.
    + exists Next, ex, w'. split_and!; try done.
      exists (<[n := ran_log t1 t2 res x]> ls), (hist ++ [call]).
      split_and!; try done.
      * by apply pending_from_insert.
      * apply Forall_app. split; [done|]. apply Forall_singleton.
        intros [Hs Ht]. simpl in Hs, Ht.
        apply andb_false_iff in Hstop as [Hstop|Hstop].
        -- apply negb_false_iff in Hstop. congruence.
        -- apply negb_false_iff in Hstop. apply bool_decide_eq_true in Hstop.
           done.
  - rewrite (iteration_unmet env onProgress step ex w ls n x Hls Hi Hx Hg).
    exists Next, ex, (set_heap (<[logs ex := <[n := unmet_log x]> ls]> (heap w)) w).
    split_and!; try done.
    exists (<[n := unmet_log x]> ls), hist. split_and!; try done.
    + apply lookup_insert_eq.
    + by rewrite (ids_insert _ _ x).
    + by apply pending_from_insert.
Qed.

(** One iteration leaves the arrays of the snapshots alone, and the
    snapshots it hands out are copies. *)
Lemma iteration_effects env wf onProgress w0 k step ex w c ex' w' :
  w_steps wf !! k = Some step ->
  loop_state wf w0 k Next ex w ->
  iteration env onProgress step ex w = Returns (c, ex') w' ->
  frame (logs ex) w w' /\
  exists snaps,
    received w' = received w ++ snaps /\
    Forall (fun s => logs s <> logs ex /\ shaped wf w' s) snaps.
Proof.
  intros Hk (ls & hist & Hls & Hids & _) E.
  destruct (entry_found _ _ _ _ Hids Hk) as (n & x & Hi & Hn & Hx & Hxid).
  destruct (deps_met step ls) eqn:Hg.
  - destruct (iteration_runs env onProgress step ex w ls n x Hls Hi Hx Hg)
      as (res & t1 & t2 & w'' & E' & _ & F & _ & _ & _ & _ & _ & snaps & R & _ & HS).
    rewrite E' in E. assert (w'' = w') as -> by (by injection E).
    split; [done|]. exists snaps. split; [done|].
    eapply Forall_impl; [exact HS|]. intros s (Hne & ls' & Hs & Hids').
    split; [done|]. exists ls'. split; [done|]. by rewrite Hids'.
  - rewrite (iteration_unmet env onProgress step ex w ls n x Hls Hi Hx Hg) in E.
    injection E as <- <- <-. split.
    + by eapply frame_insert.
    + exists []. split; [by rewrite app_nil_r | by apply Forall_nil].
Qed.

Lemma shaped_frame wf a w w' s :
  frame a w w' -> logs s <> a -> shaped wf w s -> shaped wf w' s.
Proof. intros F Hne (ls & Hs & Hids). exists ls. split; [by apply F | done]. Qed.

(** The loop reaches every step boundary, in a state of the loop. *)
Lemma after_loop_state env wf onProgress w k :
  (k <= length (w_steps wf))%nat ->
  exists c ex w',
    after env wf onProgress k w = Returns (c, ex) w' /\
    loop_state wf w k c ex w'.
Proof.
  induction k as [|k IH]; intros Hk.
  - destruct (start_spec env wf onProgress w)
      as (ex & w' & E & Hls & _ & _ & Hst & _ & Hsim & _).
    exists Next, ex, w'. split.
    { unfold after. rewrite (bind_returns _ _ _ _ _ E). by rewrite take_0. }
    exists (pending_log <$> w_steps wf), []. split_and!; try done.
    + by rewrite <- list_fmap_compose.
    + by rewrite app_nil_r.
    + intros p l _ Hl. rewrite list_lookup_fmap in Hl.
      destruct (w_steps wf !! p); [|done]. by injection Hl as <-.
  - destruct IH as (c & ex & w' & E & HS); [lia|].
    destruct (lookup_lt_is_Some_2 (w_steps wf) k) as [step Hstep]; [lia|].
    rewrite (after_S _ _ _ _ _ _ Hstep), E.
    destruct c.
    + destruct (iteration_loop_state env wf onProgress w k step ex w' Hstep HS)
        as (c' & ex' & w'' & E' & HS' & _).
      by exists c', ex', w''.
    + exists Break, ex, w'. split; [done|].
      destruct HS as (ls & hist & ? & ? & ? & ? & ?).
      exists ls, hist. by split_and!.
Qed.

(** The snapshots handed out up to a step boundary. *)
Lemma after_handed_out env wf onProgress w k c ex wk :
  (k <= length (w_steps wf))%nat ->
  after env wf onProgress k w = Returns (c, ex) wk ->
  exists snaps, handed_out wf onProgress (logs ex) w wk snaps.
Proof.
  revert c ex wk. induction k as [|k IH]; intros c ex wk Hk E.
  - destruct (start_spec env wf onProgress w)
      as (ex0 & w0 & E0 & Hls & _ & _ & _ & _ & _ & _ & R).
    unfold after in E. rewrite (bind_returns _ _ _ _ _ E0), take_0 in E.
    injection E as <- <- <-.
    exists (if onProgress then [ex0] else []). split_and!; [done | | |].
    + destruct onProgress; [|by apply Forall_nil]. apply Forall_singleton.
      exists (pending_log <$> w_steps wf). split; [done|].
      by rewrite <- list_fmap_compose.
    + by destruct onProgress.
    + destruct onProgress; by apply Forall_nil.
  - destruct (lookup_lt_is_Some_2 (w_steps wf) k) as [step Hstep]; [lia|].
    destruct (after_loop_state env wf onProgress w k) as (c0 & ex0 & w0 & E0 & HS);
      [lia|].
    rewrite (after_S _ _ _ _ _ _ Hstep), E0 in E.
    destruct (IH c0 ex0 w0) as (snaps & R & Hsh & Hlen & Hcp); [lia | done |].
    destruct c0.
    + destruct (iteration_loop_state env wf onProgress w k step ex0 w0 Hstep HS)
        as (c' & ex' & w' & E' & HS' & Hlogs).
      rewrite E' in E. injection E as -> -> ->.
      destruct (iteration_effects env wf onProgress w k step ex0 w0 c ex wk
                  Hstep HS E') as (F & new & R' & Hnew).
      exists (snaps ++ new). rewrite Hlogs. split_and!.
      * by rewrite R', R, <- app_assoc.
      * apply Forall_app. split.
        -- apply Forall_forall. intros s Hs.
           destruct (decide (logs s = logs ex0)) as [Heq|Hne].
           ++ destruct HS' as (ls & _ & Hls & Hids & _).
              exists ls. split; [|done]. by rewrite Heq, <- Hlogs.
           ++ eapply shaped_frame; [exact F | done |].
              rewrite Forall_forall in Hsh. by apply Hsh.
        -- eapply Forall_impl; [exact Hnew|]. by intros s [_ Hs].
      * rewrite length_app. lia.
      * rewrite drop_app_le by done. apply Forall_app. split; [done|].
        eapply Forall_impl; [exact Hnew|]. by intros s [Hs _].
    + injection E as <- <- <-. by exists snaps.
Qed.

(** From one step boundary to a later one, the arrays other than the live
    one are not touched, and the live array stays the same object. *)
Lemma after_frame env wf onProgress w k j c ex wk c' ex' wj :
  (k <= j)%nat -> (j <= length (w_steps wf))%nat ->
  after env wf onProgress k w = Returns (c, ex) wk ->
  after env wf onProgress j w = Returns (c', ex') wj ->
  frame (logs ex) wk wj /\ logs ex' = logs ex.
Proof.
  intros Hkj. revert c' ex' wj.
  induction Hkj as [|j Hkj IH]; intros c' ex' wj Hj E E'.
  - rewrite E in E'. injection E' as <- <- <-. split; [apply frame_refl | done].
  - destruct (lookup_lt_is_Some_2 (w_steps wf) j) as [step Hstep]; [lia|].
    destruct (after_loop_state env wf onProgress w j) as (c0 & ex0 & w0 & E0 & HS);
      [lia|].
    destruct (IH c0 ex0 w0) as (F & Hlogs); [lia | done | done |].
    rewrite (after_S _ _ _ _ _ _ Hstep), E0 in E'.
    destruct c0.
    + destruct (iteration_loop_state env wf onProgress w j step ex0 w0 Hstep HS)
        as (c1 & ex1 & w1 & E1 & _ & Hlogs1).
      destruct (iteration_effects env wf onProgress w j step ex0 w0 c1 ex1 w1
                  Hstep HS E1) as (F1 & _).
      rewrite E1 in E'. injection E' as <- <- <-. split.
      * eapply frame_trans; [exact F|]. by rewrite <- Hlogs.
      * by rewrite Hlogs1.
    + injection E' as <- <- <-. by split.
Qed.

End ExecutorFacts.

(** * The executor: shape of the logs, dependency check, halting, status *)

Section ExecutorProperties.
Import Executor ExecutorFacts Examples.

Variable env : Env.
Variable wf : Workflow.
Variable onProgress : bool.
Variable w : World.

(** A state of the loop that the run reaches is a [loop_state]. *)
Lemma reached_loop_state k c ex wk :
  (k <= length (w_steps wf))%nat ->
  after env wf onProgress k w = Returns (c, ex) wk ->
  loop_state wf w k c ex wk.
Proof.
  intros Hk E.
  destruct (after_loop_state env wf onProgress w k Hk) as (c' & ex' & w' & E' & HS).
  rewrite E in E'. by injection E' as -> -> ->.
Qed.

Lemma depsComplete_false deps (ls : list ExecutionLog) :
  (exists d, d ∈ deps /\
     forall l, List.find (same_id d) ls = Some l -> log_status l <> completed) ->
  depsComplete deps ls = false.
Proof.
  intros (d & Hd & Hnot). unfold depsComplete.
  apply not_true_is_false. intros Hall.
  rewrite forallb_forall in Hall.
  specialize (Hall d). rewrite <- list_elem_of_In in Hall.
  specialize (Hall Hd).
  destruct (List.find (same_id d) ls) as [l|]; [|done].
  apply bool_decide_eq_true in Hall. by apply (Hnot l).
Qed.

(** C9.  A run never throws; the returned record has exactly one log entry
    per step of the workflow, in the order of the steps and with their ids;
    the live array has that shape whenever the loop stands between two
    steps, and so has, at the end of the run, every object that was handed
    to the callback; all this whatever the random outcomes are. *)
Theorem C9_logs_keep_their_shape :
  (forall k, exists c ex wk ls,
      after env wf onProgress k w = Returns (c, ex) wk /\
      heap wk !! logs ex = Some ls /\
      stepId <$> ls = s_id <$> w_steps wf /\
      length ls = length (w_steps wf)) /\
  (exists ex w' ls snaps,
      executeWorkflow env wf onProgress w = Returns ex w' /\
      heap w' !! logs ex = Some ls /\
      stepId <$> ls = s_id <$> w_steps wf /\
      length ls = length (w_steps wf) /\
      received w' = received w ++ snaps /\
      Forall (shaped wf w') snaps).
Proof.
  assert (Hall : forall k, exists c ex wk ls,
      after env wf onProgress k w = Returns (c, ex) wk /\
      heap wk !! logs ex = Some ls /\
      stepId <$> ls = s_id <$> w_steps wf /\
      length ls = length (w_steps wf)).
  { intros k.
    assert (Hk : exists k', (k' <= length (w_steps wf))%nat /\
              after env wf onProgress k w = after env wf onProgress k' w).
    { destruct (decide (k <= length (w_steps wf))%nat).
      - by exists k.
      - exists (length (w_steps wf)). split; [lia|]. apply after_ge. lia. }
    destruct Hk as (k' & Hk' & ->).
    destruct (after_loop_state env wf onProgress w k' Hk')
      as (c & ex & wk & E & ls & hist & Hls & Hids & _).
    exists c, ex, wk, ls. split_and!; try done.
    by rewrite <- (length_fmap stepId), Hids, length_fmap. }
  split; [exact Hall|].
  destruct (Hall (length (w_steps wf))) as (c & ex & wk & ls & E & Hls & Hids & Hlen).
  destruct (after_handed_out env wf onProgress w _ c ex wk (le_n _) E)
    as (snaps & R & Hsh & _).
  rewrite executeWorkflow_after, E.
  destruct (finish_spec env onProgress (snd (c, ex)) wk)
    as (ex' & w' & -> & Hlogs & _ & Hheap & _ & _ & R').
  exists ex', w', ls, (snaps ++ (if onProgress then [ex'] else [])).
  split; [reflexivity|]. rewrite Hheap, Hlogs. split_and!; try done.
  - by rewrite R', R, <- app_assoc.
  - apply Forall_app. split.
    + eapply Forall_impl; [exact Hsh|]. intros s (ls' & Hs & Hids').
      exists ls'. by rewrite Hheap.
    + destruct onProgress; [|by apply Forall_nil]. apply Forall_singleton.
      exists ls. by rewrite Hheap, Hlogs.
Qed.

(** The good half of C4.  The objects handed to the callback inside the
    loop are copies: each owns an array that is not the live one, and what
    its holder sees is the same at every later step boundary and when the
    run has returned. *)
Lemma copies_made_in_the_loop_are_stable k c ex wk :
  (k <= length (w_steps wf))%nat ->
  after env wf onProgress k w = Returns (c, ex) wk ->
  exists snaps,
    received wk = received w ++ snaps /\
    forall s,
      s ∈ drop (if onProgress then 1 else 0)%nat snaps ->
      logs s <> logs ex /\
      is_Some (view wk s) /\
      (forall j c' ex' wj,
         (k <= j)%nat ->
         after env wf onProgress j w = Returns (c', ex') wj ->
         view wj s = view wk s) /\
      (forall ex_end w_end,
         executeWorkflow env wf onProgress w = Returns ex_end w_end ->
         view w_end s = view wk s).
Proof.
  intros Hk E.
  destruct (after_handed_out env wf onProgress w k c ex wk Hk E)
    as (snaps & R & Hsh & _ & Hcp).
  exists snaps. split; [done|]. intros s Hs.
  rewrite Forall_forall in Hcp. specialize (Hcp s Hs).
  assert (Hin : s ∈ snaps).
  { apply list_elem_of_lookup in Hs as [i Hi]. rewrite lookup_drop in Hi.
    by eapply list_elem_of_lookup_2. }
  rewrite Forall_forall in Hsh. destruct (Hsh s Hin) as (ls & Hls & _).
  assert (Hlater : forall j c' ex' wj,
            (k <= j)%nat -> (j <= length (w_steps wf))%nat ->
            after env wf onProgress j w = Returns (c', ex') wj ->
            view wj s = view wk s).
  { intros j c' ex' wj Hkj Hj E'.
    destruct (after_frame env wf onProgress w k j c ex wk c' ex' wj Hkj Hj E E')
      as (F & _).
    unfold view. by rewrite (F _ _ Hcp Hls), Hls. }
  split_and!.
  - done.
  - unfold view. rewrite Hls. by eexists.
  - intros j c' ex' wj Hkj E'.
    destruct (decide (j <= length (w_steps wf))%nat) as [Hj|Hj].
    + by eapply Hlater.
    + rewrite after_ge in E' by lia. eapply Hlater; [| |exact E']; lia.
  - intros ex_end w_end Eend. rewrite executeWorkflow_after in Eend.
    destruct (after env wf onProgress (length (w_steps wf)) w)
      as [[c' ex'] wN|] eqn:EN; [|done].
    destruct (finish_spec env onProgress (snd (c', ex')) wN)
      as (ex'' & w'' & Efin & _ & _ & Hheap & _).
    rewrite Efin in Eend. injection Eend as <- <-.
    rewrite <- (Hlater _ c' ex' wN Hk (le_n _) EN). unfold view. by rewrite Hheap.
Qed.

(** C6.  When the loop reaches a step that declares dependencies and some
    declared dependency has no log entry with status [completed], the
    iteration turns the step's entry into [failed] with error
    "Dependencies not met" and does nothing else: no clock reading, no random
    draw, no call of [simulateStepExecution], no call of the callback, no
    output; the loop goes on with the next step and the execution object,
    still [running], is not touched. *)
Theorem C6_unmet_dependency_is_not_fatal k step deps ex wk ls :
  w_steps wf !! k = Some step ->
  s_dependencies step = Some deps ->
  after env wf onProgress k w = Returns (Next, ex) wk ->
  heap wk !! logs ex = Some ls ->
  (exists d, d ∈ deps /\
     forall l, List.find (same_id d) ls = Some l -> log_status l <> completed) ->
  exists n x wk',
    findIndex (same_id (s_id step)) ls = Z.of_nat n /\
    ls !! n = Some x /\
    after env wf onProgress (S k) w = Returns (Next, ex) wk' /\
    status ex = ex_running /\
    heap wk' !! logs ex = Some (<[n := unmet_log x]> ls) /\
    log_status (unmet_log x) = failed /\
    log_error (unmet_log x) = Some "Dependencies not met" /\
    log_output (unmet_log x) = log_output x /\
    log_startTime (unmet_log x) = log_startTime x /\
    log_endTime (unmet_log x) = log_endTime x /\
    simulations wk' = simulations wk /\
    random_draws wk' = random_draws wk /\
    clock_reads wk' = clock_reads wk /\
    received wk' = received wk.
Proof.
  intros Hk Hdeps E Hls Hunmet.
  assert (Hlen : (k <= length (w_steps wf))%nat).
  { apply Nat.lt_le_incl. by eapply lookup_lt_Some. }
  destruct (reached_loop_state k Next ex wk Hlen E)
    as (ls' & hist & Hls' & Hids & _ & Hst & _).
  rewrite Hls in Hls'. injection Hls' as <-.
  destruct (entry_found _ _ _ _ Hids Hk) as (n & x & Hi & _ & Hx & _).
  assert (Hg : deps_met step ls = false).
  { unfold deps_met. rewrite Hdeps. by apply depsComplete_false. }
  exists n, x, (set_heap (<[logs ex := <[n := unmet_log x]> ls]> (heap wk)) wk).
  split_and!; try done.
  - rewrite (after_S _ _ _ _ _ _ Hk), E.
    by apply iteration_unmet.
  - apply lookup_insert_eq.
Qed.

(** C3, for simulated executions.  Once the simulated execution of a step
    that is not a condition has failed, the loop is left: its state is the
    same at every later point, the entries of all later steps are [pending]
    in it, and the run returns with these very arrays and the status
    [failed]. *)
Theorem C3_fatal_failure_freezes_the_logs k step ex wk c ex' wk' call :
  w_steps wf !! k = Some step ->
  s_type step <> condition ->
  after env wf onProgress k w = Returns (Next, ex) wk ->
  after env wf onProgress (S k) w = Returns (c, ex') wk' ->
  simulations wk' = simulations wk ++ [call] ->
  success (call_result call) = false ->
  c = Break /\
  (forall j, (k < j)%nat ->
     after env wf onProgress j w = Returns (Break, ex') wk') /\
  exists ls,
    heap wk' !! logs ex' = Some ls /\
    pending_from (S k) ls /\
    exists ex_end w_end,
      executeWorkflow env wf onProgress w = Returns ex_end w_end /\
      logs ex_end = logs ex' /\
      heap w_end = heap wk' /\
      status ex_end = ex_failed.
Proof.
  intros Hk Hty E E' Hcall Hfail.
  assert (Hlen : (k < length (w_steps wf))%nat) by (by eapply lookup_lt_Some).
  destruct (reached_loop_state k Next ex wk (Nat.lt_le_incl _ _ Hlen) E)
    as (ls & hist & Hls & Hids & _ & Hst & Hpend & _).
  destruct (entry_found _ _ _ _ Hids Hk) as (n & x & Hi & Hn & Hx & _).
  rewrite (after_S _ _ _ _ _ _ Hk), E in E'.
  destruct (deps_met step ls) eqn:Hg.
  - destruct (iteration_runs env onProgress step ex wk ls n x Hls Hi Hx Hg)
      as (res & t1 & t2 & w'' & Eit & Hls' & _ & Hsim & _).
    rewrite Eit in E'.
    assert (Hw : w'' = wk') by (by injection E').
    subst w''. rewrite Hcall in Hsim. apply app_inv_head in Hsim.
    injection Hsim as ->. simpl in Hfail. rewrite Hfail in E'.
    rewrite (bool_decide_eq_false_2 _ Hty) in E'. simpl in E'.
    injection E' as <- <-.
    assert (EB : after env wf onProgress (S k) w
                 = Returns (Break, with_status ex_failed ex) wk').
    { rewrite (after_S _ _ _ _ _ _ Hk), E, Eit, Hfail.
      by rewrite (bool_decide_eq_false_2 _ Hty). }
    split; [done|]. split.
    { intros j Hj. eapply after_Break; [|exact EB]. lia. }
    exists (<[n := ran_log t1 t2 res x]> ls). split_and!; try done.
    { by apply pending_from_insert. }
    rewrite executeWorkflow_after.
    rewrite (after_Break env wf onProgress (S k) (length (w_steps wf)) _ w wk'
               Hlen EB).
    destruct (finish_spec env onProgress (with_status ex_failed ex) wk')
      as (ex_end & w_end & Efin & Hlogs & Hstat & Hheap & _).
    exists ex_end, w_end. by split_and!.
  - rewrite (iteration_unmet env onProgress step ex wk ls n x Hls Hi Hx Hg) in E'.
    injection E' as <- <- <-. simpl in Hcall.
    apply (f_equal length) in Hcall. rewrite length_app in Hcall.
    simpl in Hcall. lia.
Qed.

(** C10.  The returned record has status [failed] exactly when some call of
    [simulateStepExecution] made during the run failed for a step that is
    not a condition; otherwise its status is [completed].  In the run of
    [notify_workflow] under [env_first_fails] the condition fails, the three
    other steps fail on their dependencies, and the status is [completed]. *)
Theorem C10_overall_status :
  (exists ex w' hist,
     executeWorkflow env wf onProgress w = Returns ex w' /\
     simulations w' = simulations w ++ hist /\
     (status ex = ex_failed <-> Exists fatal hist) /\
     (~ Exists fatal hist -> status ex = ex_completed)) /\
  final_statuses env_first_fails notify_workflow true world0
  = Some (ex_completed, [failed; failed; failed; failed]).
Proof.
  split; [|by vm_compute].
  destruct (after_loop_state env wf onProgress w (length (w_steps wf)) (le_n _))
    as (c & ex & wk & E & ls & hist & Hls & Hids & Hsim & Hc).
  rewrite executeWorkflow_after, E.
  destruct (finish_spec env onProgress (snd (c, ex)) wk)
    as (ex' & w' & -> & _ & Hstat & _ & Hsim' & _).
  exists ex', w', hist. split; [done|]. rewrite Hsim'. split; [done|].
  simpl in Hstat. destruct c.
  - destruct Hc as (Hrun & _ & Hnone). rewrite Hrun in Hstat. simpl in Hstat.
    rewrite Hstat. split; [split|done].
    + done.
    + intros Hex. apply Exists_exists in Hex as (call & Hin & Hf).
      rewrite Forall_forall in Hnone. by destruct (Hnone call Hin).
  - destruct Hc as (Hf & Hex). rewrite Hf in Hstat. simpl in Hstat.
    rewrite Hstat. by split.
Qed.

End ExecutorProperties.

(** Witness of C6: in the run of [notify_workflow] under [env_first_fails],
    the second step is reached when the entry of its dependency is
    [failed]. *)
Lemma C6_witness :
  Examples.statuses_after Examples.env_first_fails Examples.notify_workflow
    true 1 world0
  = Some (Executor.Next, [failed; pending; pending; pending]) /\
  Examples.statuses_after Examples.env_first_fails Examples.notify_workflow
    true 2 world0
  = Some (Executor.Next, [failed; failed; pending; pending]).
Proof.
  split; [by vm_compute|].
  edestruct (C6_unmet_dependency_is_not_fatal Examples.env_first_fails
               Examples.notify_workflow true world0 1)
    as (n & x & wk' & Hi & Hx & E & _ & Hls & _).
  - vm_compute; reflexivity.
  - vm_compute; reflexivity.
  - vm_compute; reflexivity.
  - vm_compute; reflexivity.
  - exists "step-1". split; [by apply list_elem_of_here|].
    vm_compute. intros l [= <-]. discriminate.
  - unfold Examples.statuses_after. rewrite E, Hls. clear E Hls.
    assert (n = 1%nat) as -> by (apply Nat2Z.inj; rewrite <- Hi; by vm_compute).
    vm_compute in Hx. injection Hx as <-. by vm_compute.
Defined.

(** Witness of C3: in the run of [setup_workflow] under [env_first_fails]
    the first step, an action, fails; the loop is left and the three other
    entries stay pending. *)
Lemma C3_witness :
  Examples.statuses_after Examples.env_first_fails Examples.setup_workflow
    true 0 world0
  = Some (Executor.Next, [pending; pending; pending; pending]) /\
  Examples.statuses_after Examples.env_first_fails Examples.setup_workflow
    true 4 world0
  = Some (Executor.Break, [failed; pending; pending; pending]).
Proof.
  split; [by vm_compute|].
  edestruct (C3_fatal_failure_freezes_the_logs Examples.env_first_fails
               Examples.setup_workflow true world0 0)
    as (_ & Hall & ls & Hls & _).
  - vm_compute; reflexivity.
  - vm_compute. discriminate.
  - vm_compute; reflexivity.
  - vm_compute; reflexivity.
  - vm_compute; reflexivity.
  - vm_compute; reflexivity.
  - unfold Examples.statuses_after. rewrite (Hall 4%nat) by lia.
    vm_compute in Hls. vm_compute. congruence.
Defined.

(** Counterexample to C3 as stated.  In the run of [notify_workflow] under
    [env_first_fails], the second step is an action and its entry is [failed]
    (its dependency is not met) once the loop has gone through two steps;
    the entry of the third step is still [pending] then, and [failed] one
    step later. *)
Lemma C3_counterexample :
  s_type <$> w_steps Examples.notify_workflow
  = [condition; action; notification; action] /\
  Examples.statuses_after Examples.env_first_fails Examples.notify_workflow
    true 2 world0
  = Some (Executor.Next, [failed; failed; pending; pending]) /\
  Examples.statuses_after Examples.env_first_fails Examples.notify_workflow
    true 3 world0
  = Some (Executor.Next, [failed; failed; failed; pending]) /\
  Examples.final_statuses Examples.env_first_fails Examples.notify_workflow
    true world0
  = Some (ex_completed, [failed; failed; failed; failed]).
Proof. split_and!; by vm_compute. Qed.

(** Witness of C10, on the run of [setup_workflow] under [env_first_fails]:
    the status is [failed] and the history holds a fatal call. *)
Lemma C10_witness :
  Examples.final_statuses Examples.env_first_fails Examples.setup_workflow
    true world0
  = Some (ex_failed, [failed; pending; pending; pending]) /\
  exists hist, Exists Executor.fatal hist.
Proof.
  split; [by vm_compute|].
  destruct (C10_overall_status Examples.env_first_fails Examples.setup_workflow
              true world0) as ((ex & w' & hist & E & _ & Hiff & _) & _).
  exists hist. apply Hiff.
  assert (Hst : status (Examples.value_of
                  (Executor.executeWorkflow Examples.env_first_fails
                     Examples.setup_workflow true world0)
                  Examples.blank_execution) = ex_failed) by (by vm_compute).
  by rewrite E in Hst.
Defined.

(** C4 fails on the first snapshot.  In the run of [check_workflow] under
    [env_ok], the object handed to the callback by [start] shows the entry
    [pending] when it is handed out, and [completed] when the run has
    returned: it shares the [logs] array of the live record. *)
Theorem C4_first_snapshot_is_not_a_copy :
  exists snapshot ex w1 ex_end w_end,
    Executor.start Examples.env_ok Examples.check_workflow true world0
    = Returns ex w1 /\
    received w1 = [snapshot] /\
    Executor.executeWorkflow Examples.env_ok Examples.check_workflow true world0
    = Returns ex_end w_end /\
    received w_end !! 0%nat = Some snapshot /\
    logs snapshot = logs ex_end /\
    Examples.seen_statuses w1 snapshot = Some [pending] /\
    Examples.seen_statuses w_end snapshot = Some [completed].
Proof.
  eexists _, _, _, _, _. split_and!.
  - vm_compute. reflexivity.
  - vm_compute. reflexivity.
  - vm_compute. reflexivity.
  - vm_compute. reflexivity.
  - vm_compute. reflexivity.
  - vm_compute. reflexivity.
  - vm_compute. reflexivity.
Qed.

(** * The generator *)

Section GeneratorProperties.
Import Generator.

(** C1 fails.  The text contains "notification", a keyword of the reminder
    family, which is tried first: the result is the reminder template, with
    a schedule trigger, not the notification template. *)
Theorem C1_signup_email_gets_the_reminder_template :
  forall env w, exists r w',
    generateWorkflow env "Send an email notification when a new user signs up" w
    = Returns r w' /\
    Str.includes
      (Str.trim
         (Str.toLowerCase (lowerNonAscii env)
            "Send an email notification when a new user signs up"))
      "notification" = true /\
    w_domain (workflow r) = reminders /\
    w_name (workflow r) = "Reminder Workflow" /\
    t_type (w_trigger (workflow r)) = schedule /\
    (t_config (w_trigger (workflow r)) ≫= tc_event) = None /\
    s_title <$> w_steps (workflow r)
    = ["Check Schedule Time"; "Send Reminder"; "Log Event"] /\
    (fun s => s_config s !! "channel") <$> w_steps (workflow r)
    = [None; None; None].
Proof.
  intros env w.
  exists (Examples.value_of
            (generateWorkflow env
               "Send an email notification when a new user signs up" w)
            Examples.blank_result),
         (Examples.world_of
            (generateWorkflow env
               "Send an email notification when a new user signs up" w)).
  repeat split; vm_compute; reflexivity.
Qed.

(** C2 fails.  The text has "set up" in two words and none of "setup",
    "create project", "initialize": no template matches but the general one,
    and no verb of the vocabulary occurs, so that the single step is
    [Process]. *)
Theorem C2_set_up_react_gets_the_general_template :
  forall env w, exists r w',
    generateWorkflow env "Set up a new React project with TypeScript and testing" w
    = Returns r w' /\
    Str.includes
      (Str.trim
         (Str.toLowerCase (lowerNonAscii env)
            "Set up a new React project with TypeScript and testing"))
      "setup" = false /\
    w_domain (workflow r) = general /\
    w_name (workflow r) = "Custom Workflow" /\
    s_title <$> w_steps (workflow r) = ["Process"] /\
    (fun s => (s_config s !! "framework", s_config s !! "packages"))
      <$> w_steps (workflow r)
    = [(None, None)].
Proof.
  intros env w.
  exists (Examples.value_of
            (generateWorkflow env
               "Set up a new React project with TypeScript and testing" w)
            Examples.blank_result),
         (Examples.world_of
            (generateWorkflow env
               "Set up a new React project with TypeScript and testing" w)).
  repeat split; vm_compute; reflexivity.
Qed.

(** The steps of the general template are the action steps of
    [extractActions], which is never empty: the fallback step with the raw
    text as description is out of reach. *)
Lemma general_template_steps env userInput input w :
  exists wfl w',
    generateGeneralWorkflow env userInput input w = Returns wfl w' /\
    w_domain wfl = general /\
    w_steps wfl = imap actionStep (extractActions input).
Proof.
  unfold generateGeneralWorkflow.
  assert (Hne : (length ([] ++ imap actionStep (extractActions input)) =? 0)%nat
                = false).
  { rewrite app_nil_l, length_imap. unfold extractActions.
    destruct (filter _ actionWords) as [|v vs]; done. }
  rewrite Hne. eexists _, _. split; [reflexivity|]. done.
Qed.

Lemma extractActions_found input :
  verbs_of input <> [] -> extractActions input = verbs_of input.
Proof.
  unfold extractActions, verbs_of.
  by destruct (filter _ actionWords) as [|v vs].
Qed.

Lemma extractActions_default input :
  verbs_of input = [] -> extractActions input = ["process"].
Proof. unfold extractActions, verbs_of. by intros ->. Qed.

Lemma reaches_general_template env userInput w :
  let input := Str.trim (Str.toLowerCase (lowerNonAscii env) userInput) in
  (10 <= Str.utf16_length input)%nat ->
  Str.includes input " " = true ->
  no_keyword input ->
  exists wfl w',
    generateWorkflow env userInput w
    = Returns {| workflow := wfl; clarificationNeeded := None;
                 clarificationQuestion := None |} w' /\
    w_domain wfl = general /\
    w_steps wfl = imap actionStep (extractActions input).
Proof.
  intros input Hlen Hsp (H1 & H2 & H3 & H4 & H5 & H6 & H7 & H8 & H9).
  unfold generateWorkflow. fold input.
  assert (Hl : (Str.utf16_length input <? 10)%nat = false)
    by (apply Nat.ltb_ge; lia).
  rewrite Hl, Hsp, H1, H2, H3, H4, H5, H6, H7, H8, H9. cbn [orb negb].
  destruct (general_template_steps env userInput input w)
    as (wfl & w' & E & Hd & Hs).
  exists wfl, w'. split; [|done].
  by rewrite (ExecutorFacts.bind_returns _ _ _ _ _ E).
Qed.

(** The first half of C5: when verbs of the vocabulary occur, the steps
    are one action per verb, in the order of the vocabulary, and each step
    but the first depends on the step before it. *)
Lemma general_template_verbs env userInput w :
  let input := Str.trim (Str.toLowerCase (lowerNonAscii env) userInput) in
  (10 <= Str.utf16_length input)%nat ->
  Str.includes input " " = true ->
  no_keyword input ->
  verbs_of input <> [] ->
  exists r w',
    generateWorkflow env userInput w = Returns r w' /\
    length (w_steps (workflow r)) = length (verbs_of input) /\
    forall i verb,
      verbs_of input !! i = Some verb ->
      exists st,
        w_steps (workflow r) !! i = Some st /\
        s_type st = action /\
        s_title st = capitalizeFirst verb /\
        s_config st !! "action" = Some (JStr verb) /\
        s_id st = "step-" +:+ pretty (i + 1)%nat /\
        match i with
        | O => s_dependencies st = None
        | S j =>
            exists prev,
              w_steps (workflow r) !! j = Some prev /\
              s_dependencies st = Some [s_id prev]
        end.
Proof.
  intros input Hlen Hsp Hkw Hverbs.
  destruct (reaches_general_template env userInput w Hlen Hsp Hkw)
    as (wfl & w' & E & _ & Hs).
  fold input in E, Hs. rewrite (extractActions_found _ Hverbs) in Hs.
  eexists _, _. split; [exact E|]. cbn [workflow]. rewrite Hs. split.
  { apply length_imap. }
  intros i verb Hi. exists (actionStep i verb).
  rewrite list_lookup_imap, Hi. split_and!; try done.
  destruct i as [|j]; [done|].
  destruct (lookup_lt_is_Some_2 (verbs_of input) j) as [v Hv].
  { apply lookup_lt_Some in Hi. lia. }
  exists (actionStep j v). rewrite list_lookup_imap, Hv. split; [done|].
  cbn [actionStep s_dependencies s_id]. by rewrite Nat.add_1_r.
Qed.

(** The second half of C5 fails: when no verb of the vocabulary occurs, the
    single step is the action [Process], not a step that carries the raw
    text. *)
Lemma general_template_no_verb env userInput w :
  let input := Str.trim (Str.toLowerCase (lowerNonAscii env) userInput) in
  (10 <= Str.utf16_length input)%nat ->
  Str.includes input " " = true ->
  no_keyword input ->
  verbs_of input = [] ->
  exists r w',
    generateWorkflow env userInput w = Returns r w' /\
    w_steps (workflow r) = [actionStep 0 "process"].
Proof.
  intros input Hlen Hsp Hkw Hverbs.
  destruct (reaches_general_template env userInput w Hlen Hsp Hkw)
    as (wfl & w' & E & _ & Hs).
  fold input in E, Hs. rewrite (extractActions_default _ Hverbs) in Hs.
  eexists _, _. split; [exact E|]. exact Hs.
Qed.

(** C5 fails on its fallback.  The text "organize my weekly files" reaches
    the general template and holds no verb of the vocabulary; the workflow
    has the single step [Process], whose description is "Execute: process"
    and not the text. *)
Theorem C5_no_verb_gets_the_process_step :
  forall env w, exists r w',
    generateWorkflow env "organize my weekly files" w = Returns r w' /\
    verbs_of
      (Str.trim
         (Str.toLowerCase (lowerNonAscii env) "organize my weekly files"))
    = [] /\
    w_domain (workflow r) = general /\
    (fun s => (s_title s, s_description s, s_config s !! "action"))
      <$> w_steps (workflow r)
    = [("Process", "Execute: process", Some (JStr "process"))] /\
    (fun s => s_description s) <$> w_steps (workflow r)
    <> ["organize my weekly files"].
Proof.
  intros env w.
  exists (Examples.value_of
            (generateWorkflow env "organize my weekly files" w)
            Examples.blank_result),
         (Examples.world_of (generateWorkflow env "organize my weekly files" w)).
  repeat split; try (vm_compute; reflexivity).
  vm_compute. discriminate.
Qed.

(** C7.  A text whose trimmed lower-case form has at least 10 characters
    (UTF-16 code units, as [length] counts), holds a space and holds
    "remind" gets the reminder template: domain
    [reminders] and exactly three steps, of which the second depends on the
    first and the third on the second, each with a reasoning that is not
    empty. *)
Theorem C7_remind_gets_the_reminder_template env userInput w :
  let input := Str.trim (Str.toLowerCase (lowerNonAscii env) userInput) in
  (10 <= Str.utf16_length input)%nat ->
  Str.includes input " " = true ->
  Str.includes input "remind" = true ->
  exists r w' s1 s2 s3,
    generateWorkflow env userInput w = Returns r w' /\
    clarificationNeeded r = None /\
    w_domain (workflow r) = reminders /\
    w_steps (workflow r) = [s1; s2; s3] /\
    s_id s1 = "step-1" /\ s_id s2 = "step-2" /\ s_id s3 = "step-3" /\
    s_dependencies s1 = None /\
    s_dependencies s2 = Some [s_id s1] /\
    s_dependencies s3 = Some [s_id s2] /\
    s_reasoning s1 <> "" /\ s_reasoning s2 <> "" /\ s_reasoning s3 <> "".
Proof.
  intros input Hlen Hsp Hrem. unfold generateWorkflow. fold input.
  assert (Hl : (Str.utf16_length input <? 10)%nat = false)
    by (apply Nat.ltb_ge; lia).
  rewrite Hl, Hsp, Hrem. cbn [orb negb].
  unfold generateReminderWorkflow.
  eexists _, _, _, _, _. split; [reflexivity|].
  cbn [workflow clarificationNeeded w_domain w_steps app s_id s_dependencies
       s_reasoning].
  split_and!; done.
Qed.

(** C8.  A text whose trimmed lower-case form is shorter than 10 characters
    (UTF-16 code units, as [length] counts) or holds no space gets the fixed
    question and the empty workflow (no step, domain [general], manual
    trigger, the text as given in the metadata), whatever keywords it holds;
    and [generateWorkflow] returns on every string, while it throws on a
    value that is not a string. *)
Theorem C8_vague_text_asks_for_clarification :
  (forall env userInput w,
     too_vague (Str.trim (Str.toLowerCase (lowerNonAscii env) userInput)) ->
     exists id now w',
       generateWorkflow env userInput w
       = Returns
           {| workflow :=
                {| w_id := id;
                   w_name := "New Workflow";
                   w_description := "";
                   w_domain := general;
                   w_trigger := {| t_type := manual;
                                   t_description := "Run manually";
                                   t_config := None |};
                   w_steps := [];
                   w_metadata :=
                     {| createdAt := now; userInput := userInput;
                        agentReasoning := "Waiting for more details from user" |} |};
              clarificationNeeded := Some true;
              clarificationQuestion := Some clarifyingQuestion |} w') /\
  (forall env userInput w,
     exists r w',
       generateWorkflow_any env (JStr userInput) w = Returns r w' /\
       generateWorkflow env userInput w = Returns r w') /\
  (forall env v w,
     (forall s, v <> JStr s) ->
     exists msg w', generateWorkflow_any env v w = Throws msg w').
Proof.
  split_and!.
  - intros env userInput w Hv. unfold generateWorkflow.
    assert (Hg : (Str.utf16_length
                    (Str.trim (Str.toLowerCase (lowerNonAscii env) userInput))
                  <? 10)%nat
                 || negb (Str.includes
                            (Str.trim
                               (Str.toLowerCase (lowerNonAscii env) userInput))
                            " ")
                 = true).
    { destruct Hv as [Hv|Hv].
      - apply Nat.ltb_lt in Hv. by rewrite Hv.
      - rewrite Hv. apply orb_true_r. }
    rewrite Hg. eexists _, _, _. reflexivity.
  - intros env userInput w. cbn [generateWorkflow_any]. unfold generateWorkflow.
    repeat case_match; eexists _, _; split; reflexivity.
  - intros env v w Hv. destruct v as [s| | |]; [by destruct (Hv s)|..];
      by eexists _, _.
Qed.

End GeneratorProperties.

(** Witness of C7.  "send me a reminder" holds "send", a keyword of the
    notification family, and is classified as a reminder; so is a text in
    capitals between a tab and a no-break space, whose form has to be
    lower-cased to hold "remind".  Two texts that hold "remind" are not
    covered and get the question: once trimmed, "  remind me  " has 9
    characters, and so has "remind éé", of 11 bytes. *)
Lemma C7_witness :
  Str.includes
    (Str.trim
       (Str.toLowerCase (lowerNonAscii Examples.env_ok) "send me a reminder"))
    "send" = true /\
  (exists r w',
     Generator.generateWorkflow Examples.env_ok "send me a reminder" world0
     = Returns r w' /\
     w_domain (workflow r) = reminders /\
     length (w_steps (workflow r)) = 3%nat) /\
  (exists r w',
     Generator.generateWorkflow Examples.env_ok
       (MoreExamples.tab +:+ "REMIND Me Now" +:+ MoreExamples.nbsp) world0
     = Returns r w' /\
     w_domain (workflow r) = reminders /\
     length (w_steps (workflow r)) = 3%nat) /\
  Examples.clarified "  remind me  " = Some true /\
  Examples.clarified "remind éé" = Some true.
Proof.
  split; [by vm_compute|]. split_and!.
  - destruct (C7_remind_gets_the_reminder_template Examples.env_ok
                "send me a reminder" world0)
      as (r & w' & s1 & s2 & s3 & E & _ & Hd & Hs & _).
    + vm_compute. lia.
    + by vm_compute.
    + by vm_compute.
    + exists r, w'. split_and!; [done | done |]. by rewrite Hs.
  - destruct (C7_remind_gets_the_reminder_template Examples.env_ok
                (MoreExamples.tab +:+ "REMIND Me Now" +:+ MoreExamples.nbsp)
                world0)
      as (r & w' & s1 & s2 & s3 & E & _ & Hd & Hs & _).
    + vm_compute. lia.
    + by vm_compute.
    + by vm_compute.
    + exists r, w'. split_and!; [done | done |]. by rewrite Hs.
  - by vm_compute.
  - by vm_compute.
Defined.

(** Witness of C8.  Between its white space "  REMIND ME", a tab and a
    no-break space, has 9 characters and holds a reminder keyword once
    lower-cased; it gets the question, not the reminder template.  So does
    "añadir té", of 9 characters in 11 bytes. *)
Lemma C8_witness :
  Str.includes
    (Str.trim
       (Str.toLowerCase (lowerNonAscii Examples.env_ok)
          ("  REMIND ME" +:+ MoreExamples.tab +:+ MoreExamples.nbsp)))
    "remind" = true /\
  (exists r w',
     Generator.generateWorkflow Examples.env_ok
       ("  REMIND ME" +:+ MoreExamples.tab +:+ MoreExamples.nbsp) world0
     = Returns r w' /\
     clarificationNeeded r = Some true /\
     w_domain (workflow r) = general /\
     w_steps (workflow r) = []) /\
  (exists r w',
     Generator.generateWorkflow Examples.env_ok "añadir té" world0
     = Returns r w' /\
     clarificationNeeded r = Some true /\
     w_domain (workflow r) = general /\
     w_steps (workflow r) = []).
Proof.
  split; [by vm_compute|]. split.
  - destruct (proj1 C8_vague_text_asks_for_clarification Examples.env_ok
                ("  REMIND ME" +:+ MoreExamples.tab +:+ MoreExamples.nbsp)
                world0) as (id & now & w' & E).
    + left. vm_compute. lia.
    + eexists _, w'. split; [exact E|]. by split_and!.
  - destruct (proj1 C8_vague_text_asks_for_clarification Examples.env_ok
                "añadir té" world0) as (id & now & w' & E).
    + left. vm_compute. lia.
    + eexists _, w'. split; [exact E|]. by split_and!.
Defined.

(** * Checks of the string functions, the templates and the simulation *)

Example trim_lowers_and_strips :
  Str.trim (Str.toLowerCase (lowerNonAscii Examples.env_ok) "  Hello World  ")
  = "hello world".
Proof. reflexivity. Qed.

(** [length] counts code units, not bytes: one for a character of up to
    three bytes, two for one of four. *)
Example length_counts_code_units :
  Str.utf16_length "añadir té" = 9%nat /\ String.length "añadir té" = 11%nat /\
  Str.utf16_length (Examples.bytes [240; 159; 152; 128]) = 2%nat.
Proof. by vm_compute. Qed.

(** [trim] strips the white space of Unicode at both ends. *)
Example trim_strips_unicode_space :
  Str.trim
    (MoreExamples.nbsp +:+ " hello world" +:+ MoreExamples.bom
     +:+ MoreExamples.tab)
  = "hello world".
Proof. by vm_compute. Qed.

(** The lower case of the Kelvin sign is "k"; that of the capital I with a
    dot above has two characters. *)
Example lower_case_beyond_ascii :
  Str.toLowerCase (lowerNonAscii Examples.env_ok)
    ("DRIN" +:+ MoreExamples.kelvin) = "drink" /\
  Str.utf16_length
    (Str.toLowerCase (lowerNonAscii Examples.env_ok) MoreExamples.dotted_I)
  = 2%nat.
Proof. by vm_compute. Qed.

(** The class [\s] of the time pattern matches a no-break space. *)
Example match_time_no_break_space :
  Regex.match_time ("remind me at 5" +:+ MoreExamples.nbsp +:+ "pm ok")
  = Some ("5" +:+ MoreExamples.nbsp +:+ "pm").
Proof. by vm_compute. Qed.

(** The group [(.+?)] stops at a line separator U+2028, which [.] does not
    match: the pattern finds nothing behind "to ". *)
Example match_message_line_separator :
  Regex.match_message ("remind me to " +:+ Examples.bytes [226; 128; 168])
  = None.
Proof. by vm_compute. Qed.

Example includes_finds_remind :
  Str.includes "send me a reminder" "remind" = true.
Proof. reflexivity. Qed.

Example match_time_9am :
  Regex.match_time "send me a reminder every morning at 9am to review my tasks"
  = Some "9am".
Proof. reflexivity. Qed.

Example match_time_keeps_the_spaces :
  Regex.match_time "in 15  minutes or 3pm" = Some "15  minute".
Proof. reflexivity. Qed.

Example match_time_none : Regex.match_time "call me at noon" = None.
Proof. reflexivity. Qed.

Example match_message_to_the_end :
  Regex.match_message "send me a reminder every morning at 9am to review my tasks"
  = Some "review my tasks".
Proof. reflexivity. Qed.

Example match_message_stops_at_at :
  Regex.match_message "remind me to call bob  at noon" = Some "call bob".
Proof. reflexivity. Qed.

Example match_message_is_lazy :
  Regex.match_message "remind me to water plants every day at 8am"
  = Some "water plants".
Proof. reflexivity. Qed.

Example capitalizeFirst_check : Generator.capitalizeFirst "check" = "Check".
Proof. reflexivity. Qed.

Example detectPackages_typescript :
  Generator.detectPackages "setup a react project with typescript and testing"
  = ["typescript"].
Proof. reflexivity. Qed.

(** The general template on a text with two verbs: the steps follow the
    vocabulary ("check" before "update"), not the text. *)
Example general_template_two_verbs :
  (fun s => (s_id s, s_title s, s_dependencies s))
    <$> w_steps (Examples.generated "please update the list and check it")
  = [("step-1", "Check", None); ("step-2", "Update", Some ["step-1"])].
Proof. by vm_compute. Qed.

Example general_template_verbs_applies :
  exists r w',
    Generator.generateWorkflow Examples.env_ok
      "please update the list and check it" world0 = Returns r w' /\
    length (w_steps (workflow r)) = 2%nat.
Proof.
  destruct (general_template_verbs Examples.env_ok
              "please update the list and check it" world0)
    as (r & w' & E & Hlen & _).
  - vm_compute. lia.
  - by vm_compute.
  - by vm_compute.
  - by vm_compute.
  - exists r, w'. split; [done|]. rewrite Hlen. by vm_compute.
Qed.

(** The text of a successful notification step of the reminder template. *)
Example simulate_notification_output :
  output
    (Examples.value_of
       (Executor.simulateStepExecution Examples.env_ok notification
          "Send Reminder"
          {[ "message" := JStr "review my tasks";
             "channels" := JStrings ["push"; "email"] ]} world0)
       {| success := false; output := None; error := None |})
  = Some ("✓ Notification sent: Send Reminder" +:+ Executor.nl +:+
          "Message: review my tasks").
Proof. by vm_compute. Qed.

(** All steps succeed: every entry is completed and so is the run. *)
Example run_of_notify_workflow_succeeds :
  Examples.final_statuses Examples.env_ok Examples.notify_workflow true world0
  = Some (ex_completed, [completed; completed; completed; completed]).
Proof. by vm_compute. Qed.

(** * Further properties of the executor *)

Module RunFacts.
Import Executor ExecutorFacts Shapes.

Lemma simulate_result_ok env type title config w :
  exists res,
    simulateStepExecution env type title config w
    = Returns res (set_random_draws (S (random_draws w)) w) /\
    success res = negb (Qle_bool (random env (random_draws w)) (5 # 100)) /\
    result_ok res.
Proof.
  unfold simulateStepExecution, bind, Math_random.
  destruct (Qle_bool (random env (random_draws w)) (5 # 100)); simpl.
  - eexists. split; [reflexivity|]. simpl. split; [done|]. by split.
  - eexists. split; [reflexivity|]. simpl. split; [done|].
    split; [|done]. intros _. split; [by eexists | done].
Qed.

(** An iteration that simulates its step, with what it returns, draws,
    reads and hands out. *)
Lemma iteration_runs_detail env onProgress step ex w L n x :
  heap w !! logs ex = Some L ->
  findIndex (same_id (s_id step)) L = Z.of_nat n ->
  L !! n = Some x ->
  deps_met step L = true ->
  exists res t1 t2 a1 a2 w',
    iteration env onProgress step ex w
    = Returns
        (if negb (success res) && negb (bool_decide (s_type step = condition))
         then (Break, with_status ex_failed ex) else (Next, ex)) w' /\
    heap w' !! logs ex = Some (<[n := ran_log t1 t2 res x]> L) /\
    result_ok res /\
    success res = negb (Qle_bool (random env (S (random_draws w))) (5 # 100)) /\
    simulations w' =
      simulations w ++
      [{| call_type := s_type step; call_title := s_title step;
          call_result := res |}] /\
    random_draws w' = S (S (random_draws w)) /\
    clock_reads w' = S (S (clock_reads w)) /\
    received w' =
      received w ++
      (if onProgress then [with_logs a1 ex; with_logs a2 ex] else []).
Proof.
  intros H Hi Hx Hg. unfold iteration.
  rewrite (bind_returns _ _ _ _ _ (read_eq _ _ _ H)). rewrite Hi.
  match goal with |- context [bind ?blk _ w] =>
    assert (Hblk : blk w = Returns false w) end.
  { unfold deps_met in Hg. destruct (s_dependencies step) as [deps|]; [|done].
    unfold bind. by rewrite (read_eq _ _ _ H), Hg. }
  rewrite (bind_returns _ _ _ _ _ Hblk). cbv beta iota. clear Hblk.
  rewrite (bind_returns _ _ _ _ _ (assign_eq _ _ _ _ (set_status running) _ H Hx)).
  set (L1 := <[n := set_status running x]> L).
  set (w1 := set_heap (<[logs ex := L1]> (heap w)) w).
  assert (H1 : heap w1 !! logs ex = Some L1) by apply lookup_insert_eq.
  assert (Hx1 : L1 !! n = Some (set_status running x))
    by (by eapply insert_lookup_same).
  rewrite (bind_returns _ _ _ _ _ (Date_iso_eq env w1)).
  set (t1 := toISOString env (clock env (clock_reads w1))).
  set (w2 := set_clock_reads (S (clock_reads w1)) w1).
  assert (H2 : heap w2 !! logs ex = Some L1) by exact H1.
  rewrite (bind_returns _ _ _ _ _
             (assign_eq _ _ _ _ (set_startTime (Some t1)) _ H2 Hx1)).
  set (L3 := <[n := set_startTime (Some t1) (set_status running x)]> L1).
  set (w3 := set_heap (<[logs ex := L3]> (heap w2)) w2).
  assert (H3 : heap w3 !! logs ex = Some L3) by apply lookup_insert_eq.
  assert (Hx3 : L3 !! n = Some (set_startTime (Some t1) (set_status running x)))
    by (by eapply insert_lookup_same).
  destruct (notify_copy_spec onProgress ex L3 w3 H3)
    as (w4 & E4 & H4 & _ & C4 & R4 & S4 & V4 & _).
  rewrite (bind_returns _ _ _ _ _ E4).
  rewrite (bind_returns _ _ _ _ _ (Math_random_eq env w4)).
  unfold sleep at 1. rewrite bind_ret_l.
  set (w5 := set_random_draws (S (random_draws w4)) w4).
  destruct (simulate_result_ok env (s_type step) (s_title step) (s_config step) w5)
    as (res & E6 & Hres & Hok).
  rewrite (bind_returns _ _ _ _ _ E6).
  set (w6 := set_random_draws (S (random_draws w5)) w5).
  unfold record_call at 1. unfold bind at 1.
  set (call := {| call_type := s_type step; call_title := s_title step;
                  call_result := res |}).
  set (w7 := set_simulations (simulations w6 ++ [call]) w6).
  assert (H7 : heap w7 !! logs ex = Some L3) by exact H4.
  set (st := if success res then completed else failed).
  rewrite (bind_returns _ _ _ _ _ (assign_eq _ _ _ _ (set_status st) _ H7 Hx3)).
  set (x8 := set_status st (set_startTime (Some t1) (set_status running x))).
  set (L8 := <[n := x8]> L3).
  set (w8 := set_heap (<[logs ex := L8]> (heap w7)) w7).
  assert (H8 : heap w8 !! logs ex = Some L8) by apply lookup_insert_eq.
  assert (Hx8 : L8 !! n = Some x8) by (by eapply insert_lookup_same).
  rewrite (bind_returns _ _ _ _ _ (Date_iso_eq env w8)).
  set (t2 := toISOString env (clock env (clock_reads w8))).
  set (w9 := set_clock_reads (S (clock_reads w8)) w8).
  assert (H9 : heap w9 !! logs ex = Some L8) by exact H8.
  rewrite (bind_returns _ _ _ _ _
             (assign_eq _ _ _ _ (set_endTime (Some t2)) _ H9 Hx8)).
  set (x10 := set_endTime (Some t2) x8).
  set (L10 := <[n := x10]> L8).
  set (w10 := set_heap (<[logs ex := L10]> (heap w9)) w9).
  assert (H10 : heap w10 !! logs ex = Some L10) by apply lookup_insert_eq.
  assert (Hx10 : L10 !! n = Some x10) by (by eapply insert_lookup_same).
  rewrite (bind_returns _ _ _ _ _
             (assign_eq _ _ _ _ (set_output (output res)) _ H10 Hx10)).
  set (x11 := set_output (output res) x10).
  set (L11 := <[n := x11]> L10).
  set (w11 := set_heap (<[logs ex := L11]> (heap w10)) w10).
  assert (H11 : heap w11 !! logs ex = Some L11) by apply lookup_insert_eq.
  assert (Hx11 : L11 !! n = Some x11) by (by eapply insert_lookup_same).
  rewrite (bind_returns _ _ _ _ _
             (assign_eq _ _ _ _ (set_error (error res)) _ H11 Hx11)).
  set (L12 := <[n := set_error (error res) x11]> L11).
  set (w12 := set_heap (<[logs ex := L12]> (heap w11)) w11).
  assert (H12 : heap w12 !! logs ex = Some L12) by apply lookup_insert_eq.
  destruct (notify_copy_spec onProgress ex L12 w12 H12)
    as (w13 & E13 & H13 & _ & C13 & R13 & S13 & V13 & _).
  rewrite (bind_returns _ _ _ _ _ E13).
  exists res, t1, t2, (fresh (dom (heap w3))), (fresh (dom (heap w12))), w13.
  split.
  { by destruct (negb (success res) && negb (bool_decide (s_type step = condition))). }
  assert (EL : L12 = <[n := ran_log t1 t2 res x]> L).
  { unfold L12, L11, L10, L8, L3, L1. by rewrite !list_insert_insert_eq. }
  split_and!.
  - by rewrite H13, EL.
  - done.
  - rewrite Hres. unfold w5. world_simpl. by rewrite R4.
  - rewrite S13. unfold w12, w11, w10, w9, w8, w7, w6, w5. world_simpl.
    by rewrite S4.
  - rewrite R13. unfold w12, w11, w10, w9, w8, w7, w6, w5. world_simpl.
    by rewrite R4.
  - rewrite C13. unfold w12, w11, w10, w9, w8, w7, w6, w5. world_simpl.
    by rewrite C4.
  - rewrite V13. unfold w12, w11, w10, w9, w8, w7, w6, w5. world_simpl.
    rewrite V4. unfold w3, w2, w1. world_simpl.
    rewrite <- app_assoc. by destruct onProgress.
Qed.

Lemma findIndex_first {A} (p : A -> bool) (l : list A) (n : nat) :
  findIndex p l = Z.of_nat n ->
  forall j y, (j < n)%nat -> l !! j = Some y -> p y = false.
Proof.
  intros Hn j y Hj Hy. apply not_true_is_false. intros Hp.
  destruct (findIndex_found p l j y Hy Hp) as (m & _ & Em & Hm & _).
  rewrite Hn in Em. apply Nat2Z.inj in Em. lia.
Qed.

Lemma find_position {A} (p : A -> bool) (l : list A) (x : A) :
  List.find p l = Some x -> exists m, l !! m = Some x /\ p x = true.
Proof.
  intros H. apply find_some in H as [Hin Hp].
  apply list_elem_of_In, list_elem_of_lookup in Hin as [m Hm]. by exists m.
Qed.

(** With distinct ids, [find] by id returns the entry that carries it. *)
Lemma find_by_id (ls : list ExecutionLog) j l :
  NoDup (stepId <$> ls) -> ls !! j = Some l ->
  List.find (same_id (stepId l)) ls = Some l.
Proof.
  revert j. induction ls as [|z ls IH]; intros j Hnd Hj; [done|].
  rewrite fmap_cons in Hnd. apply NoDup_cons in Hnd as [Hz Hnd].
  simpl. destruct (same_id (stepId l) z) eqn:Ez.
  - destruct j as [|j]; simpl in Hj; [congruence|].
    apply same_id_true in Ez. exfalso. apply Hz. rewrite Ez.
    apply list_elem_of_fmap. exists l. split; [done|].
    by eapply list_elem_of_lookup_2.
  - destruct j as [|j]; simpl in Hj.
    + injection Hj as ->. unfold same_id in Ez. by rewrite String.eqb_refl in Ez.
    + by apply (IH j).
Qed.

Lemma start_detail env wf onProgress w :
  exists ex w',
    start env wf onProgress w = Returns ex w' /\
    status ex = ex_running /\
    workflowId ex = w_id wf /\
    is_Some (startTime ex) /\
    endTime ex = None /\
    simulations w' = simulations w /\
    random_draws w' = random_draws w /\
    clock_reads w' = S (S (clock_reads w)) /\
    received w' = received w ++ (if onProgress then [ex] else []).
Proof.
  destruct (start_spec env wf onProgress w)
    as (ex & w' & E & _ & _ & _ & Hst & Hid & Hsim & Hr & Hrec).
  exists ex, w'. split; [done|].
  revert E. unfold start.
  rewrite (bind_returns _ _ _ _ _
             (eq_refl : Date_now env w = Returns _ (set_clock_reads _ w))).
  set (w1 := set_clock_reads (S (clock_reads w)) w).
  unfold alloc at 1. unfold bind at 1.
  set (a := fresh (dom (heap w1))).
  set (w2 := set_heap (<[a := []]> (heap w1)) w1).
  rewrite (bind_returns _ _ _ _ _ (Date_iso_eq env w2)).
  set (w3 := set_clock_reads (S (clock_reads w2)) w2).
  assert (H3 : heap w3 !! a = Some []) by apply lookup_insert_eq.
  cbn [logs].
  rewrite (bind_returns _ _ _ _ _ (forEach_push a _ (w_steps wf) [] w3 H3)).
  destruct onProgress; simpl; intros [= <- <-]; world_simpl;
    split_and!; try done; by eexists.
Qed.

Lemma finish_detail env onProgress ex w :
  exists t,
    finish env onProgress ex w
    = Returns
        (with_endTime (Some t)
           (if bool_decide (status ex = ex_running)
            then with_status ex_completed ex else ex))
        (set_received
           (received w ++
            (if onProgress
             then [with_endTime (Some t)
                     (if bool_decide (status ex = ex_running)
                      then with_status ex_completed ex else ex)]
             else []))
           (set_clock_reads (S (clock_reads w)) w)).
Proof.
  eexists. unfold finish. rewrite (bind_returns _ _ _ _ _ (Date_iso_eq env w)).
  destruct onProgress; simpl; [reflexivity|].
  unfold bind, ret. f_equal. rewrite app_nil_r. by destruct w.
Qed.

(** A property of the live array that the writes of the loop keep holds
    whenever the loop stands between two steps. *)
Lemma logs_invariant env wf onProgress w (I : list ExecutionLog -> Prop) :
  I (pending_log <$> w_steps wf) ->
  (forall ls n x y,
     stepId <$> ls = s_id <$> w_steps wf ->
     ls !! n = Some x ->
     findIndex (same_id (stepId x)) ls = Z.of_nat n ->
     written x y -> I ls -> I (<[n := y]> ls)) ->
  forall k c ex wk,
    (k <= length (w_steps wf))%nat ->
    after env wf onProgress k w = Returns (c, ex) wk ->
    exists ls, heap wk !! logs ex = Some ls /\ I ls.
Proof.
  intros Hinit Hstep. induction k as [|k IH]; intros c ex wk Hk E.
  - destruct (start_spec env wf onProgress w)
      as (ex0 & w0 & E0 & Hls & _).
    unfold after in E. rewrite (bind_returns _ _ _ _ _ E0), take_0 in E.
    injection E as <- <- <-. by eexists.
  - destruct (lookup_lt_is_Some_2 (w_steps wf) k) as [step Hstepk]; [lia|].
    destruct (after_loop_state env wf onProgress w k) as (c0 & ex0 & w0 & E0 & HS);
      [lia|].
    destruct (IH c0 ex0 w0) as (ls & Hls & HI); [lia | done |].
    rewrite (after_S _ _ _ _ _ _ Hstepk), E0 in E.
    destruct c0; [|injection E as <- <- <-; by exists ls].
    destruct HS as (ls' & hist & Hls' & Hids & _).
    rewrite Hls in Hls'. injection Hls' as <-.
    destruct (entry_found _ _ _ _ Hids Hstepk) as (n & x & Hi & Hn & Hx & Hxid).
    destruct (deps_met step ls) eqn:Hg.
    + destruct (iteration_runs_detail env onProgress step ex0 w0 ls n x
                  Hls Hi Hx Hg)
        as (res & t1 & t2 & a1 & a2 & w' & E' & Hls' & Hok & _).
      rewrite E' in E.
      assert (w' = wk /\ logs ex = logs ex0) as [-> Hlogs].
      { destruct (negb (success res) && _); by injection E as <- <- <-. }
      exists (<[n := ran_log t1 t2 res x]> ls). rewrite Hlogs. split; [done|].
      apply (Hstep ls n x); try done.
      * by rewrite Hxid.
      * right. by exists t1, t2, res.
    + rewrite (iteration_unmet env onProgress step ex0 w0 ls n x Hls Hi Hx Hg) in E.
      injection E as <- <- <-.
      exists (<[n := unmet_log x]> ls). split; [apply lookup_insert_eq|].
      apply (Hstep ls n x); try done.
      * by rewrite Hxid.
      * by left.
Qed.

(** The same for the returned record. *)
Lemma logs_invariant_end env wf onProgress w (I : list ExecutionLog -> Prop) :
  I (pending_log <$> w_steps wf) ->
  (forall ls n x y,
     stepId <$> ls = s_id <$> w_steps wf ->
     ls !! n = Some x ->
     findIndex (same_id (stepId x)) ls = Z.of_nat n ->
     written x y -> I ls -> I (<[n := y]> ls)) ->
  exists ex w' ls,
    executeWorkflow env wf onProgress w = Returns ex w' /\
    heap w' !! logs ex = Some ls /\ I ls.
Proof.
  intros Hinit Hstep.
  destruct (after_loop_state env wf onProgress w (length (w_steps wf)) (le_n _))
    as (c & ex & wk & E & _).
  destruct (logs_invariant env wf onProgress w I Hinit Hstep _ c ex wk (le_n _) E)
    as (ls & Hls & HI).
  rewrite executeWorkflow_after, E.
  destruct (finish_spec env onProgress (snd (c, ex)) wk)
    as (ex' & w' & -> & Hlogs & _ & Hheap & _).
  exists ex', w', ls. split; [done|]. by rewrite Hheap, Hlogs.
Qed.

Lemma entry_ok_pending_logs (steps : list WorkflowStep) :
  Forall entry_ok (pending_log <$> steps).
Proof. apply Forall_fmap, Forall_forall. intros step _. by unfold entry_ok. Qed.

Lemma entry_ok_written (ls : list ExecutionLog) n x y :
  written x y -> Forall entry_ok ls -> Forall entry_ok (<[n := y]> ls).
Proof.
  intros Hw HI. apply Forall_insert; [done|].
  destruct Hw as [->|(t1 & t2 & res & [Hs Hf] & ->)].
  - unfold entry_ok. simpl. by left.
  - unfold entry_ok. simpl. destruct (success res) eqn:Es.
    + destruct (Hs eq_refl) as [Ho He]. split_and!; try done; by eexists.
    + destruct (Hf eq_refl) as [Ho He]. right. split_and!; try done; by eexists.
Qed.

(** What a run has done when the loop stands between two steps: the live
    record is the one [start] made, but for its status after a [break]; per
    simulated step, two random draws, two readings of the clock and, with a
    callback, two copies handed out. *)
Lemma after_accounting env wf onProgress w k c ex wk :
  (k <= length (w_steps wf))%nat ->
  after env wf onProgress k w = Returns (c, ex) wk ->
  exists ex0 w0 hist copies,
    start env wf onProgress w = Returns ex0 w0 /\
    ex = match c with Next => ex0 | Break => with_status ex_failed ex0 end /\
    simulations wk = simulations w ++ hist /\
    (length hist <= k)%nat /\
    random_draws wk = (random_draws w + 2 * length hist)%nat /\
    clock_reads wk = (clock_reads w + 2 + 2 * length hist)%nat /\
    received wk = received w ++ (if onProgress then ex0 :: copies else []) /\
    length copies = (2 * length hist)%nat /\
    Forall (fun s => exists a, s = with_logs a ex0) copies.
Proof.
  revert c ex wk. induction k as [|k IH]; intros c ex wk Hk E.
  - destruct (start_detail env wf onProgress w)
      as (ex0 & w0 & E0 & _ & _ & _ & _ & Hsim & Hr & Hc & Hrec).
    unfold after in E. rewrite (bind_returns _ _ _ _ _ E0), take_0 in E.
    injection E as <- <- <-. exists ex0, w0, [], [].
    split_and!; try done.
    + by rewrite app_nil_r.
    + simpl. lia.
    + simpl. lia.
  - destruct (lookup_lt_is_Some_2 (w_steps wf) k) as [step Hstep]; [lia|].
    destruct (after_loop_state env wf onProgress w k) as (c0 & ex1 & w1 & E1 & HS);
      [lia|].
    destruct (IH c0 ex1 w1) as (ex0 & w0 & hist & copies & E0 & Hex & Hsim & Hlen
                                & Hr & Hc & Hrec & Hcop & Hall); [lia | done |].
    rewrite (after_S _ _ _ _ _ _ Hstep), E1 in E.
    destruct c0.
    2:{ injection E as <- <- <-. exists ex0, w0, hist, copies.
        split_and!; try done. lia. }
    subst ex1. destruct HS as (ls & hist' & Hls & Hids & _).
    destruct (entry_found _ _ _ _ Hids Hstep) as (n & x & Hi & Hn & Hx & Hxid).
    destruct (deps_met step ls) eqn:Hg.
    + destruct (iteration_runs_detail env onProgress step ex0 w1 ls n x
                  Hls Hi Hx Hg)
        as (res & t1 & t2 & a1 & a2 & w' & E' & _ & _ & _ & Hsim' & Hr' & Hc'
            & Hrec').
      rewrite E' in E.
      set (call := {| call_type := s_type step; call_title := s_title step;
                      call_result := res |}) in *.
      exists ex0, w0, (hist ++ [call]),
        (copies ++ [with_logs a1 ex0; with_logs a2 ex0]).
      assert (w' = wk) as ->.
      { destruct (negb (success res) && _); by injection E. }
      split_and!; try done.
      * destruct (negb (success res) && _); by injection E as <- <-.
      * by rewrite Hsim', Hsim, <- app_assoc.
      * rewrite length_app. simpl. lia.
      * rewrite Hr', Hr, length_app. simpl. lia.
      * rewrite Hc', Hc, length_app. simpl. lia.
      * rewrite Hrec', Hrec. destruct onProgress; [|by rewrite !app_nil_r].
        by rewrite <- app_assoc.
      * rewrite !length_app, Hcop. simpl. lia.
      * apply Forall_app. split; [done|].
        apply Forall_cons. split; [by eexists|]. apply Forall_singleton.
        by eexists.
    + rewrite (iteration_unmet env onProgress step ex0 w1 ls n x Hls Hi Hx Hg) in E.
      injection E as <- <- <-. exists ex0, w0, hist, copies.
      world_simpl. split_and!; try done. lia.
Qed.

(** The check [backward] is sound. *)
Lemma backward_from seen (steps : list WorkflowStep) :
  backward seen (skeleton <$> steps) = true ->
  NoDup seen ->
  NoDup (seen ++ (s_id <$> steps)) /\
  forall k step deps d,
    steps !! k = Some step -> s_dependencies step = Some deps -> d ∈ deps ->
    d ∈ seen ++ (s_id <$> take k steps).
Proof.
  revert seen. induction steps as [|s rest IH]; intros seen Hb Hnd.
  - split; [by rewrite app_nil_r | done].
  - rewrite fmap_cons in Hb. unfold skeleton at 1 in Hb. simpl in Hb.
    apply andb_true_iff in Hb as [Hb Hrest].
    apply andb_true_iff in Hb as [Hnew Hdeps].
    apply negb_true_iff, bool_decide_eq_false in Hnew.
    destruct (IH (seen ++ [s_id s]) Hrest) as [Hnd' Hall].
    { apply NoDup_app. split_and!; [done | | apply NoDup_singleton].
      intros x Hx ->%list_elem_of_singleton. done. }
    rewrite <- app_assoc in Hnd'. split; [done|].
    intros k step deps d Hk Hd Hin. destruct k as [|k]; simpl in Hk.
    + injection Hk as ->. rewrite Hd in Hdeps. rewrite forallb_forall in Hdeps.
      rewrite take_0, app_nil_r. apply list_elem_of_In, Hdeps in Hin.
      by apply bool_decide_eq_true in Hin.
    + specialize (Hall k step deps d Hk Hd Hin).
      by rewrite <- app_assoc in Hall.
Qed.

Lemma backward_sound (steps : list WorkflowStep) :
  backward [] (skeleton <$> steps) = true -> well_formed steps.
Proof. intros Hb. apply (backward_from [] steps Hb). apply NoDup_nil_2. Qed.

(** Being well formed is a matter of ids and dependencies only. *)
Lemma well_formed_same_ids (steps steps' : list WorkflowStep) :
  s_id <$> steps = s_id <$> steps' ->
  s_dependencies <$> steps = s_dependencies <$> steps' ->
  well_formed steps -> well_formed steps'.
Proof.
  intros Hids Hdeps [Hnd Hall]. split; [by rewrite <- Hids|].
  intros k step' deps d Hk Hd Hin.
  assert (Hdk : (s_dependencies <$> steps) !! k = Some (Some deps)).
  { by rewrite Hdeps, list_lookup_fmap, Hk, <- Hd. }
  rewrite list_lookup_fmap in Hdk.
  destruct (steps !! k) as [step|] eqn:Ek; [|done]. injection Hdk as Hdk.
  rewrite fmap_take, <- Hids, <- fmap_take. by apply (Hall k step deps d).
Qed.

End RunFacts.

Section RunProperties.
Import Executor ExecutorFacts Shapes RunFacts Callers.

Variable env : Env.
Variable wf : Workflow.
Variable onProgress : bool.
Variable w : World.

(** Every step boundary is reached, also past the last step. *)
Lemma boundary_reached k :
  exists k' c ex wk,
    (k' <= length (w_steps wf))%nat /\
    after env wf onProgress k w = after env wf onProgress k' w /\
    after env wf onProgress k' w = Returns (c, ex) wk.
Proof.
  destruct (decide (k <= length (w_steps wf))%nat) as [Hk|Hk].
  - destruct (after_loop_state env wf onProgress w k Hk) as (c & ex & wk & E & _).
    by exists k, c, ex, wk.
  - destruct (after_loop_state env wf onProgress w _ (le_n (length (w_steps wf))))
      as (c & ex & wk & E & _).
    exists (length (w_steps wf)), c, ex, wk. split_and!; [done | | done].
    apply after_ge. lia.
Qed.

(** X1: a run changes no array that existed before it, and its own array is a
    new one. *)
Theorem run_leaves_other_arrays_alone :
  exists ex w',
    executeWorkflow env wf onProgress w = Returns ex w' /\
    heap w !! logs ex = None /\
    forall l L, heap w !! l = Some L -> heap w' !! l = Some L.
Proof.
  destruct (start_spec env wf onProgress w)
    as (ex0 & w0 & E0 & _ & Hnew & F0 & _).
  assert (EA0 : after env wf onProgress 0 w = Returns (Next, ex0) w0).
  { unfold after. by rewrite (bind_returns _ _ _ _ _ E0), take_0. }
  destruct (after_loop_state env wf onProgress w _ (le_n (length (w_steps wf))))
    as (c & ex & wk & E & _).
  destruct (after_frame env wf onProgress w 0 _ Next ex0 w0 c ex wk
              (Nat.le_0_l _) (le_n _) EA0 E) as (F & Hlogs).
  rewrite executeWorkflow_after, E.
  destruct (finish_spec env onProgress (snd (c, ex)) wk)
    as (ex' & w' & -> & Hlogs' & _ & Hheap & _).
  exists ex', w'. split; [done|]. simpl in Hlogs'. rewrite Hlogs', Hlogs.
  split; [done|]. intros l L Hl. rewrite Hheap.
  assert (Hne : l <> logs ex0) by (intros ->; congruence).
  apply F; [done|]. by apply F0.
Qed.

(** X2: between two steps and in the returned record every log entry is
    consistent: none is [running]; a [pending] entry has no time, output or
    error; a [completed] one has both times, an output and no error; a
    [failed] one carries one of the two fixed errors. *)
Theorem entries_are_consistent :
  (forall k, exists c ex wk ls,
      after env wf onProgress k w = Returns (c, ex) wk /\
      heap wk !! logs ex = Some ls /\ Forall entry_ok ls) /\
  (exists ex w' ls,
      executeWorkflow env wf onProgress w = Returns ex w' /\
      heap w' !! logs ex = Some ls /\ Forall entry_ok ls).
Proof.
  split.
  - intros k. destruct (boundary_reached k) as (k' & c & ex & wk & Hk & -> & E).
    destruct (logs_invariant env wf onProgress w (Forall entry_ok)
                (entry_ok_pending_logs _)
                (fun ls n x y _ _ _ => entry_ok_written ls n x y)
                k' c ex wk Hk E) as (ls & Hls & HI).
    by exists c, ex, wk, ls.
  - apply logs_invariant_end; [apply entry_ok_pending_logs|].
    intros ls n x y _ _ _. apply entry_ok_written.
Qed.

(** X3: the counters of the execution views add up on a returned record:
    no entry is running, and completed, failed and pending entries make up
    the total, one per step. *)
Theorem counters_add_up :
  exists ex w' ls,
    executeWorkflow env wf onProgress w = Returns ex w' /\
    heap w' !! logs ex = Some ls /\
    countStatus running ls = 0%nat /\
    (countStatus completed ls + countStatus failed ls + countStatus pending ls
     = length ls)%nat /\
    length ls = length (w_steps wf).
Proof.
  destruct (logs_invariant_end env wf onProgress w
              (fun ls => Forall entry_ok ls /\
                         stepId <$> ls = s_id <$> w_steps wf))
    as (ex & w' & ls & E & Hls & Hok & Hids).
  { split; [apply entry_ok_pending_logs|]. by rewrite <- list_fmap_compose. }
  { intros ls n x y Hids Hx _ Hw [HI _]. split; [by eapply entry_ok_written|].
    rewrite (ids_insert _ _ x); [done | done |].
    destruct Hw as [->|(t1 & t2 & res & _ & ->)]; done. }
  exists ex, w', ls. split; [done|]. split; [done|]. split_and!.
  - clear -Hok. unfold countStatus. induction Hok as [|l ls Hl _ IH]; [done|].
    rewrite filter_cons. unfold entry_ok in Hl.
    destruct (log_status l); by (case_decide; simpl; try done).
  - clear -Hok. unfold countStatus. induction Hok as [|l ls Hl _ IH]; [done|].
    rewrite !filter_cons. unfold entry_ok in Hl.
    destruct (log_status l); try done;
      repeat case_decide; try done; simpl; lia.
  - by rewrite <- (length_fmap stepId), Hids, length_fmap.
Qed.

End RunProperties.

Section SnapshotProperties.
Import Executor ExecutorFacts Shapes RunFacts Callers.

Variable env : Env.
Variable wf : Workflow.
Variable w : World.

(** X4: without a callback nothing is handed out.  With a callback a run
    hands out one object at the start, two per simulated step and one at the
    end; the last one is the returned record, completed or failed and with an
    end time; all the others are still running and have none. *)
Theorem only_the_last_snapshot_is_final :
  (exists ex w',
     executeWorkflow env wf false w = Returns ex w' /\
     received w' = received w) /\
  (exists ex w' hist earlier,
     executeWorkflow env wf true w = Returns ex w' /\
     simulations w' = simulations w ++ hist /\
     received w' = received w ++ earlier ++ [ex] /\
     length earlier = (1 + 2 * length hist)%nat /\
     Forall (fun s => status s = ex_running /\ endTime s = None) earlier /\
     (status ex = ex_completed \/ status ex = ex_failed) /\
     is_Some (endTime ex)).
Proof.
  split.
  - destruct (after_loop_state env wf false w _ (le_n (length (w_steps wf))))
      as (c & ex & wk & E & _).
    destruct (after_accounting env wf false w _ c ex wk (le_n _) E)
      as (ex0 & w0 & hist & copies & _ & _ & _ & _ & _ & _ & Hrec & _).
    rewrite executeWorkflow_after, E.
    destruct (finish_detail env false (snd (c, ex)) wk) as (t & ->).
    eexists _, _. split; [reflexivity|]. world_simpl.
    by rewrite Hrec, !app_nil_r.
  - destruct (after_loop_state env wf true w _ (le_n (length (w_steps wf))))
      as (c & ex & wk & E & _).
    destruct (after_accounting env wf true w _ c ex wk (le_n _) E)
      as (ex0 & w0 & hist & copies & E0 & Hex & Hsim & _ & _ & _ & Hrec & Hlen
          & Hcop).
    destruct (start_detail env wf true w)
      as (ex0' & w0' & E0' & Hst & _ & _ & Hend & _).
    rewrite E0 in E0'. injection E0' as <- <-.
    rewrite executeWorkflow_after, E.
    destruct (finish_detail env true (snd (c, ex)) wk) as (t & ->).
    eexists _, _, hist, (ex0 :: copies). split; [reflexivity|]. world_simpl.
    split_and!.
    + done.
    + by rewrite Hrec, <- app_assoc.
    + simpl. lia.
    + apply Forall_cons. split; [done|].
      eapply Forall_impl; [exact Hcop|]. by intros s [a ->].
    + simpl. rewrite Hex. destruct c; simpl.
      * rewrite Hst. simpl. by left.
      * by right.
    + by eexists.
Qed.

End SnapshotProperties.

Section OutcomeProperties.
Import Executor ExecutorFacts Shapes RunFacts Callers.

Variable env : Env.
Variable wf : Workflow.
Variable onProgress : bool.
Variable w : World.

(** X5: the returned record names the workflow and has a start and an end
    time; for [n] simulated steps, at most one per step, a run draws [2 n]
    random numbers and reads the clock [3 + 2 n] times. *)
Theorem run_accounting :
  exists ex w' hist,
    executeWorkflow env wf onProgress w = Returns ex w' /\
    workflowId ex = w_id wf /\
    is_Some (startTime ex) /\ is_Some (endTime ex) /\
    simulations w' = simulations w ++ hist /\
    (length hist <= length (w_steps wf))%nat /\
    random_draws w' = (random_draws w + 2 * length hist)%nat /\
    clock_reads w' = (clock_reads w + 3 + 2 * length hist)%nat.
Proof.
  destruct (after_loop_state env wf onProgress w _ (le_n (length (w_steps wf))))
    as (c & ex & wk & E & _).
  destruct (after_accounting env wf onProgress w _ c ex wk (le_n _) E)
    as (ex0 & w0 & hist & copies & E0 & Hex & Hsim & Hlen & Hr & Hc & _).
  destruct (start_detail env wf onProgress w)
    as (ex0' & w0' & E0' & _ & Hid & Hstart & _).
  rewrite E0 in E0'. injection E0' as <- <-.
  rewrite executeWorkflow_after, E.
  destruct (finish_detail env onProgress (snd (c, ex)) wk) as (t & ->).
  eexists _, _, hist. split; [reflexivity|]. world_simpl. simpl.
  assert (Hfields : workflowId ex = w_id wf /\ is_Some (startTime ex)).
  { rewrite Hex. by destruct c. }
  destruct Hfields as [Hid' Hstart'].
  split_and!; try done; try (by destruct (bool_decide (status ex = ex_running)));
    try (by eexists); lia.
Qed.

(** When every simulated execution succeeds and the workflow is well
    formed, the loop goes through every step and completes it. *)
Lemma all_succeed_after k :
  all_succeed env -> well_formed (w_steps wf) ->
  (k <= length (w_steps wf))%nat ->
  exists ex wk ls,
    after env wf onProgress k w = Returns (Next, ex) wk /\
    heap wk !! logs ex = Some ls /\
    stepId <$> ls = s_id <$> w_steps wf /\
    status ex = ex_running /\
    forall p l, (p < k)%nat -> ls !! p = Some l ->
                log_status l = completed /\ is_Some (log_output l).
Proof.
  intros Hall [Hnd Hdeps]. induction k as [|k IH]; intros Hk.
  - destruct (after_loop_state env wf onProgress w 0 Hk)
      as (c & ex & wk & E & ls & hist & Hls & Hids & _ & Hc).
    assert (c = Next) as ->.
    { destruct (start_spec env wf onProgress w) as (ex0 & w0 & E0 & _).
      unfold after in E. rewrite (bind_returns _ _ _ _ _ E0), take_0 in E.
      by injection E. }
    destruct Hc as (Hst & _). exists ex, wk, ls. split_and!; try done. lia.
  - destruct IH as (ex & wk & ls & E & Hls & Hids & Hst & Hdone); [lia|].
    destruct (lookup_lt_is_Some_2 (w_steps wf) k) as [step Hstep]; [lia|].
    destruct (reached_loop_state env wf onProgress w k Next ex wk) as
      (ls' & hist & Hls' & _ & _ & _ & Hpend & _); [lia | done |].
    rewrite Hls in Hls'. injection Hls' as <-.
    destruct (entry_found _ _ _ _ Hids Hstep) as (n & x & Hi & Hn & Hx & Hxid).
    assert (Hnd' : NoDup (stepId <$> ls)) by (by rewrite Hids).
    assert (n = k) as ->.
    { apply (NoDup_lookup _ _ _ (s_id step) Hnd').
      - by rewrite list_lookup_fmap, Hx, <- Hxid.
      - by rewrite Hids, list_lookup_fmap, Hstep. }
    assert (Hg : deps_met step ls = true).
    { unfold deps_met. destruct (s_dependencies step) as [deps|] eqn:Ed; [|done].
      unfold depsComplete. apply forallb_forall. intros d Hd.
      apply list_elem_of_In in Hd.
      pose proof (Hdeps k step deps d Hstep Ed Hd) as Hearlier.
      apply list_elem_of_lookup in Hearlier as [j Hjd].
      assert (Hj : (j < k)%nat).
      { apply lookup_lt_Some in Hjd. rewrite length_fmap, length_take in Hjd. lia. }
      assert (Hlj : (stepId <$> ls) !! j = Some d).
      { rewrite Hids. rewrite fmap_take, lookup_take_lt in Hjd by done. done. }
      rewrite list_lookup_fmap in Hlj.
      destruct (ls !! j) as [lj|] eqn:Elj; [|done]. injection Hlj as Hlj.
      rewrite <- Hlj, (find_by_id ls j lj Hnd' Elj).
      destruct (Hdone j lj Hj Elj) as [Hc _]. by apply bool_decide_eq_true. }
    destruct (iteration_runs_detail env onProgress step ex wk ls k x Hls Hi Hx Hg)
      as (res & t1 & t2 & a1 & a2 & w' & E' & Hls' & [Hok _] & Hres & _).
    assert (Hs : success res = true) by (by rewrite Hres, Hall).
    rewrite Hs in E'. simpl in E'.
    exists ex, w', (<[k := ran_log t1 t2 res x]> ls). split_and!; try done.
    + by rewrite (after_S _ _ _ _ _ _ Hstep), E.
    + by rewrite (ids_insert _ _ x).
    + intros p l Hp Hl. destruct (decide (p = k)) as [->|Hne].
      * rewrite (insert_lookup_same _ _ _ _ Hx) in Hl. injection Hl as <-.
        simpl. rewrite Hs. split; [done|]. by apply Hok.
      * rewrite list_lookup_insert_ne in Hl by done. apply (Hdone p l); [lia|done].
Qed.

(** X6: a well-formed workflow run in an environment where every simulated
    execution succeeds is completed, and so is every step, each with an
    output. *)
Theorem well_formed_run_completes_when_all_succeed :
  all_succeed env -> well_formed (w_steps wf) ->
  exists ex w' ls,
    executeWorkflow env wf onProgress w = Returns ex w' /\
    status ex = ex_completed /\
    heap w' !! logs ex = Some ls /\
    length ls = length (w_steps wf) /\
    Forall (fun l => log_status l = completed /\ is_Some (log_output l)) ls.
Proof.
  intros Hall Hwf.
  destruct (all_succeed_after _ Hall Hwf (le_n (length (w_steps wf))))
    as (ex & wk & ls & E & Hls & Hids & Hst & Hdone).
  rewrite executeWorkflow_after, E.
  destruct (finish_spec env onProgress (snd (Next, ex)) wk)
    as (ex' & w' & -> & Hlogs & Hstat & Hheap & _).
  assert (Hlen : length ls = length (w_steps wf)).
  { by rewrite <- (length_fmap stepId), Hids, length_fmap. }
  exists ex', w', ls. split_and!; try done.
  - simpl in Hstat. by rewrite Hstat, Hst.
  - by rewrite Hheap, Hlogs.
  - apply Forall_lookup. intros p l Hl. apply (Hdone p l); [|done].
    rewrite <- Hlen. by eapply lookup_lt_Some.
Qed.

(** X7: a step with a dependency that no earlier step carries (an unknown
    id, the step itself, a later step) is never simulated: when the loop
    reaches it, its entry becomes failed with "Dependencies not met", and the
    loop goes on. *)
Theorem dependency_on_no_earlier_step_is_never_met k step deps d ex wk :
  w_steps wf !! k = Some step ->
  s_dependencies step = Some deps ->
  d ∈ deps ->
  d ∉ (s_id <$> take k (w_steps wf)) ->
  after env wf onProgress k w = Returns (Next, ex) wk ->
  exists wk' ls n l,
    after env wf onProgress (S k) w = Returns (Next, ex) wk' /\
    simulations wk' = simulations wk /\
    heap wk' !! logs ex = Some ls /\
    findIndex (same_id (s_id step)) ls = Z.of_nat n /\
    ls !! n = Some l /\
    log_status l = failed /\
    log_error l = Some "Dependencies not met".
Proof.
  intros Hk Hdeps Hd Hnew E.
  assert (Hlen : (k <= length (w_steps wf))%nat).
  { apply Nat.lt_le_incl. by eapply lookup_lt_Some. }
  destruct (reached_loop_state env wf onProgress w k Next ex wk Hlen E)
    as (ls & hist & Hls & Hids & _ & _ & Hpend & _).
  destruct (entry_found _ _ _ _ Hids Hk) as (n & x & Hi & _ & Hx & Hxid).
  assert (Hg : deps_met step ls = false).
  { unfold deps_met. rewrite Hdeps. apply depsComplete_false.
    exists d. split; [done|]. intros l Hfind.
    destruct (find_position _ _ _ Hfind) as (m & Hm & Hid).
    apply same_id_true in Hid.
    assert (Hmk : (k <= m)%nat).
    { destruct (decide (k <= m)%nat) as [|Hlt]; [done|]. exfalso. apply Hnew.
      apply list_elem_of_lookup. exists m.
      rewrite list_lookup_fmap, lookup_take_lt by lia.
      rewrite <- list_lookup_fmap, <- Hids, list_lookup_fmap, Hm. simpl.
      by rewrite Hid. }
    by rewrite (Hpend m l Hmk Hm). }
  exists (set_heap (<[logs ex := <[n := unmet_log x]> ls]> (heap wk)) wk),
    (<[n := unmet_log x]> ls), n, (unmet_log x).
  split_and!; try done.
  - rewrite (after_S _ _ _ _ _ _ Hk), E. by apply iteration_unmet.
  - apply lookup_insert_eq.
  - rewrite <- Hi. clear -Hx. revert n Hx.
    induction ls as [|z ls IH]; intros n Hx; [done|].
    destruct n as [|n]; simpl in *.
    + injection Hx as ->. done.
    + by rewrite (IH n Hx).
  - by eapply insert_lookup_same.
Qed.

(** X8: when two steps have the same id, the entry of the later one is
    never written: it is the entry that [start] made, between any two steps
    and in the returned record. *)
Theorem entry_of_a_repeated_id_is_never_written p j step prev :
  w_steps wf !! p = Some step ->
  (j < p)%nat ->
  w_steps wf !! j = Some prev ->
  s_id prev = s_id step ->
  (forall k, exists c ex wk ls,
      after env wf onProgress k w = Returns (c, ex) wk /\
      heap wk !! logs ex = Some ls /\
      ls !! p = Some (pending_log step)) /\
  (exists ex w' ls,
      executeWorkflow env wf onProgress w = Returns ex w' /\
      heap w' !! logs ex = Some ls /\
      ls !! p = Some (pending_log step)).
Proof.
  intros Hp Hj Hprev Hid.
  assert (Hinit : (pending_log <$> w_steps wf) !! p = Some (pending_log step)).
  { by rewrite list_lookup_fmap, Hp. }
  assert (Hstep : forall ls n x y,
            stepId <$> ls = s_id <$> w_steps wf ->
            ls !! n = Some x ->
            findIndex (same_id (stepId x)) ls = Z.of_nat n ->
            written x y ->
            ls !! p = Some (pending_log step) ->
            <[n := y]> ls !! p = Some (pending_log step)).
  { intros ls n x y Hids Hx Hn _ HI.
    rewrite list_lookup_insert_ne; [done|]. intros ->.
    rewrite HI in Hx. injection Hx as <-.
    assert (Hlj : (stepId <$> ls) !! j = Some (s_id step)).
    { by rewrite Hids, list_lookup_fmap, Hprev, <- Hid. }
    rewrite list_lookup_fmap in Hlj.
    destruct (ls !! j) as [lj|] eqn:Elj; [|done]. injection Hlj as Hlj.
    pose proof (findIndex_first _ _ _ Hn j lj Hj Elj) as Hfalse.
    simpl in Hfalse. unfold same_id in Hfalse.
    by rewrite Hlj, String.eqb_refl in Hfalse. }
  split.
  - intros k.
    destruct (decide (k <= length (w_steps wf))%nat) as [Hk|Hk].
    + destruct (after_loop_state env wf onProgress w k Hk) as (c & ex & wk & E & _).
      destruct (logs_invariant env wf onProgress w _ Hinit Hstep k c ex wk Hk E)
        as (ls & Hls & HI).
      by exists c, ex, wk, ls.
    + destruct (after_loop_state env wf onProgress w _
                  (le_n (length (w_steps wf)))) as (c & ex & wk & E & _).
      destruct (logs_invariant env wf onProgress w _ Hinit Hstep _ c ex wk
                  (le_n _) E) as (ls & Hls & HI).
      exists c, ex, wk, ls. split; [|done].
      rewrite after_ge by lia. done.
  - by apply (logs_invariant_end env wf onProgress w
                (fun ls => ls !! p = Some (pending_log step))).
Qed.

End OutcomeProperties.

(** Witness of X6: the run of [notify_workflow] under [env_ok]. *)
Lemma well_formed_run_completes_witness :
  exists ex w' ls,
    Executor.executeWorkflow Examples.env_ok Examples.notify_workflow true world0
    = Returns ex w' /\
    status ex = ex_completed /\
    heap w' !! logs ex = Some ls /\
    length ls = length (w_steps Examples.notify_workflow) /\
    Forall (fun l => log_status l = completed /\ is_Some (log_output l)) ls.
Proof.
  apply (well_formed_run_completes_when_all_succeed
           Examples.env_ok Examples.notify_workflow true world0).
  - intros n. reflexivity.
  - apply RunFacts.backward_sound. vm_compute. reflexivity.
Defined.

(** Witness of X7: the second step of [dangling_workflow] depends on itself. *)
Lemma dependency_on_no_earlier_step_witness :
  exists ex wk' ls n l,
    Executor.after Examples.env_ok MoreExamples.dangling_workflow true 2 world0
    = Returns (Executor.Next, ex) wk' /\
    heap wk' !! logs ex = Some ls /\
    Executor.findIndex (Executor.same_id "b") ls = Z.of_nat n /\
    ls !! n = Some l /\
    log_status l = failed /\
    log_error l = Some "Dependencies not met".
Proof.
  set (ex := snd (Examples.value_of
                    (Executor.after Examples.env_ok MoreExamples.dangling_workflow
                       true 1 world0)
                    (Executor.Next, Examples.blank_execution))).
  set (wk := Examples.world_of
               (Executor.after Examples.env_ok MoreExamples.dangling_workflow
                  true 1 world0)).
  destruct (dependency_on_no_earlier_step_is_never_met
              Examples.env_ok MoreExamples.dangling_workflow true world0 1
              (MoreExamples.bare_step "b" action (Some ["b"])) ["b"] "b" ex wk)
    as (wk' & ls & n & l & E & _ & Hls & Hn & Hl & Hs & He).
  - reflexivity.
  - reflexivity.
  - apply list_elem_of_here.
  - vm_compute. intros H. apply list_elem_of_singleton in H. discriminate H.
  - vm_compute. reflexivity.
  - exists ex, wk', ls, n, l. repeat split; assumption.
Defined.

(** Witness of X8: the two steps of [twice_workflow] carry the id "a". *)
Lemma entry_of_a_repeated_id_witness :
  (forall k, exists c ex wk ls,
      Executor.after Examples.env_ok MoreExamples.twice_workflow true k world0
      = Returns (c, ex) wk /\
      heap wk !! logs ex = Some ls /\
      ls !! 1%nat
      = Some (Executor.pending_log (MoreExamples.bare_step "a" action None))) /\
  (exists ex w' ls,
      Executor.executeWorkflow Examples.env_ok MoreExamples.twice_workflow true
        world0 = Returns ex w' /\
      heap w' !! logs ex = Some ls /\
      ls !! 1%nat
      = Some (Executor.pending_log (MoreExamples.bare_step "a" action None))).
Proof.
  apply (entry_of_a_repeated_id_is_never_written
           Examples.env_ok MoreExamples.twice_workflow true world0 1 0
           (MoreExamples.bare_step "a" action None)
           (MoreExamples.bare_step "a" action None)).
  - reflexivity.
  - lia.
  - reflexivity.
  - reflexivity.
Defined.

(** * Further properties of the generator *)

Module TemplateFacts.
Import Str Generator Shapes.

Lemma skeleton_imap_actionStep (l : list string) :
  skeleton <$> imap actionStep l = general_skeleton (length l).
Proof.
  apply list_eq. intros i. unfold general_skeleton.
  rewrite !list_lookup_fmap, list_lookup_imap.
  destruct (l !! i) as [v|] eqn:E.
  - rewrite lookup_seq_lt by (by eapply lookup_lt_Some). done.
  - rewrite lookup_seq_ge by (by apply lookup_ge_None). done.
Qed.

Lemma extractActions_not_empty input : (0 < length (extractActions input))%nat.
Proof.
  unfold extractActions. destruct (filter _ actionWords) as [|v vs]; simpl; lia.
Qed.

(** The shape of what [generateWorkflow] returns, branch by branch. *)
Lemma generateWorkflow_template env text w :
  exists r w',
    generateWorkflow env text w = Returns r w' /\
    userInput (w_metadata (workflow r)) = text /\
    Forall (fun s => s_reasoning s <> "") (w_steps (workflow r)) /\
    let input := trim (toLowerCase (lowerNonAscii env) text) in
    if vague input then
      clarificationNeeded r = Some true /\
      clarificationQuestion r = Some clarifyingQuestion /\
      w_domain (workflow r) = general /\
      t_type (w_trigger (workflow r)) = manual /\
      skeleton <$> w_steps (workflow r) = []
    else
      clarificationNeeded r = None /\
      clarificationQuestion r = None /\
      if reminder_family input then
        w_domain (workflow r) = reminders /\
        t_type (w_trigger (workflow r)) = schedule /\
        skeleton <$> w_steps (workflow r) = reminder_skeleton
      else if setup_family input then
        w_domain (workflow r) = app_setup /\
        t_type (w_trigger (workflow r)) = manual /\
        skeleton <$> w_steps (workflow r) = setup_skeleton (testing input)
      else if notification_family input then
        w_domain (workflow r) = automation /\
        t_type (w_trigger (workflow r))
        = (if eventful input then event else manual) /\
        skeleton <$> w_steps (workflow r) = notification_skeleton
      else
        w_domain (workflow r) = general /\
        t_type (w_trigger (workflow r)) = manual /\
        skeleton <$> w_steps (workflow r)
        = general_skeleton (length (extractActions input)).
Proof.
  unfold generateWorkflow, vague, reminder_family, setup_family,
    notification_family.
  set (input := trim (toLowerCase (lowerNonAscii env) text)). cbv zeta.
  destruct ((Str.utf16_length input <? 10)%nat || negb (includes input " ")).
  { eexists _, _. split; [reflexivity|]. cbn. split_and!; try done. }
  destruct (includes input "remind" || includes input "notification"
            || includes input "alert").
  { eexists _, _. split; [reflexivity|]. cbn. split_and!; try done.
    repeat constructor; done. }
  destruct (includes input "setup" || includes input "create project"
            || includes input "initialize").
  { unfold generateAppSetupWorkflow, testing.
    destruct (includes input "test" || includes input "jest"
              || includes input "vitest").
    - eexists _, _. split; [reflexivity|]. cbn. split_and!; try done.
      repeat constructor; done.
    - eexists _, _. split; [reflexivity|]. cbn. split_and!; try done.
      repeat constructor; done. }
  destruct (includes input "email" || includes input "send"
            || includes input "notify").
  { unfold generateNotificationWorkflow, eventful.
    destruct (includes input "when" || includes input "signup"
              || includes input "user").
    - eexists _, _. split; [reflexivity|]. cbn. split_and!; try done.
      repeat constructor; done.
    - eexists _, _. split; [reflexivity|]. cbn. split_and!; try done.
      repeat constructor; done. }
  unfold generateGeneralWorkflow.
  assert (Hne : (length ([] ++ imap actionStep (extractActions input)) =? 0)%nat
                = false).
  { rewrite app_nil_l, length_imap. apply Nat.eqb_neq.
    pose proof (extractActions_not_empty input). lia. }
  rewrite Hne. eexists _, _. split; [reflexivity|].
  cbn [workflow w_metadata userInput w_steps clarificationNeeded
       clarificationQuestion w_domain w_trigger t_type app].
  split_and!; try done.
  - apply Forall_forall. intros s Hs.
    apply list_elem_of_lookup in Hs as [i Hi].
    rewrite list_lookup_imap in Hi.
    destruct (extractActions input !! i) as [v|]; [|done].
    injection Hi as <-. done.
  - apply skeleton_imap_actionStep.
Qed.

End TemplateFacts.

Module SkeletonFacts.
Import Str Generator Executor Shapes Callers RunFacts TemplateFacts.

Lemma general_skeleton_from m k :
  backward ((fun i => "step-" +:+ pretty (i + 1)%nat) <$> seq 0 k)
    ((fun i => ("step-" +:+ pretty (i + 1)%nat, action,
                if (0 <? i)%nat then Some ["step-" +:+ pretty i] else None))
     <$> seq k m) = true.
Proof.
  revert k. induction m as [|m IH]; intros k; [done|].
  cbn [seq]. rewrite fmap_cons. cbn [backward].
  apply andb_true_iff. split; [apply andb_true_iff; split|].
  - apply negb_true_iff, bool_decide_eq_false. intros Hin.
    apply list_elem_of_fmap in Hin as (i & Heq & Hi).
    apply elem_of_seq in Hi. injection Heq as Heq. cbn [String.append] in Heq.
    apply pretty_nat_inj in Heq. lia.
  - destruct k as [|k]; [done|]. cbn [Nat.ltb Nat.leb forallb].
    rewrite andb_true_r. apply bool_decide_eq_true.
    apply list_elem_of_fmap. exists k. split.
    + by rewrite Nat.add_1_r.
    + apply elem_of_seq. lia.
  - specialize (IH (S k)). by rewrite seq_S, fmap_app in IH.
Qed.

Lemma general_skeleton_backward n : backward [] (general_skeleton n) = true.
Proof. apply (general_skeleton_from n 0). Qed.

Lemma length_general_skeleton n : length (general_skeleton n) = n.
Proof. unfold general_skeleton. by rewrite length_fmap, length_seq. Qed.

Lemma extractActions_vocabulary input v :
  v ∈ extractActions input -> v ∈ actionWords.
Proof.
  unfold extractActions.
  destruct (0 <? length (filter _ actionWords))%nat.
  - intros Hv. by apply list_elem_of_filter in Hv as [_ Hv].
  - intros ->%list_elem_of_singleton. unfold actionWords.
    do 6 apply list_elem_of_further. apply list_elem_of_here.
Qed.

Lemma extractActions_occur input v :
  v ∈ extractActions input ->
  includes input v = true \/ extractActions input = ["process"].
Proof.
  unfold extractActions.
  destruct (0 <? length (filter _ actionWords))%nat.
  - intros Hv. left. by apply list_elem_of_filter in Hv as [Hv _].
  - by right.
Qed.

(** Outside the notification family the verbs "send" and "notify" do not
    occur: at most ten verbs are left. *)
Lemma extractActions_bound input :
  notification_family input = false ->
  (1 <= length (extractActions input) <= 10)%nat.
Proof.
  intros Hn. split; [apply extractActions_not_empty|].
  unfold notification_family in Hn.
  apply orb_false_iff in Hn as [Hn Hnotify].
  apply orb_false_iff in Hn as [_ Hsend].
  unfold extractActions.
  destruct (0 <? length (filter _ actionWords))%nat; [|simpl; lia].
  change actionWords with
    (["create"] ++ ["send"] ++ ["check"; "update"; "delete"] ++ ["notify"]
     ++ ["process"; "validate"; "transform"; "save"; "load"; "execute"]).
  rewrite !filter_app, !length_app.
  rewrite (filter_singleton_False _ "send" []) by (by rewrite Hsend).
  rewrite (filter_singleton_False _ "notify" []) by (by rewrite Hnotify).
  pose proof (length_filter (fun word => includes input word = true) ["create"]).
  pose proof (length_filter (fun word => includes input word = true)
                ["check"; "update"; "delete"]).
  pose proof (length_filter (fun word => includes input word = true)
                ["process"; "validate"; "transform"; "save"; "load"; "execute"]).
  simpl in *. lia.
Qed.

(** Every generated workflow is well formed. *)
Lemma generateWorkflow_well_formed env text w :
  exists r w',
    generateWorkflow env text w = Returns r w' /\
    well_formed (w_steps (workflow r)).
Proof.
  destruct (generateWorkflow_template env text w) as (r & w' & E & _ & _ & H).
  exists r, w'. split; [done|]. apply backward_sound. cbv zeta in H.
  destruct (vague _); [by destruct H as (_ & _ & _ & _ & ->)|].
  destruct H as (_ & _ & H).
  destruct (reminder_family _); [by destruct H as (_ & _ & ->)|].
  destruct (setup_family _).
  { destruct H as (_ & _ & ->). by destruct (testing _). }
  destruct (notification_family _); [by destruct H as (_ & _ & ->)|].
  destruct H as (_ & _ & ->). apply general_skeleton_backward.
Qed.

(** The number of steps, template by template. *)
Lemma generateWorkflow_step_count env text w :
  exists r w',
    generateWorkflow env text w = Returns r w' /\
    let input := trim (toLowerCase (lowerNonAscii env) text) in
    length (w_steps (workflow r))
    = if vague input then 0%nat
      else if reminder_family input then 3%nat
      else if setup_family input then (if testing input then 4%nat else 3%nat)
      else if notification_family input then 4%nat
      else length (extractActions input).
Proof.
  destruct (generateWorkflow_template env text w) as (r & w' & E & _ & _ & H).
  exists r, w'. split; [done|]. cbv zeta in *.
  rewrite <- (length_fmap skeleton).
  destruct (vague _); [by destruct H as (_ & _ & _ & _ & ->)|].
  destruct H as (_ & _ & H).
  destruct (reminder_family _); [by destruct H as (_ & _ & ->)|].
  destruct (setup_family _).
  { destruct H as (_ & _ & ->). by destruct (testing _). }
  destruct (notification_family _); [by destruct H as (_ & _ & ->)|].
  destruct H as (_ & _ & ->). apply length_general_skeleton.
Qed.

Lemma no_delay_counts (steps : list WorkflowStep) :
  Forall (fun s => s_type s <> delay) steps ->
  countType delay steps = 0%nat /\
  (countType action steps + countType condition steps
   + countType notification steps = length steps)%nat.
Proof.
  unfold countType. induction 1 as [|s steps Hs _ [IH1 IH2]]; [done|].
  rewrite !filter_cons.
  destruct (s_type s); try done; repeat case_decide; try done; simpl; lia.
Qed.

Lemma skeleton_no_delay (steps : list WorkflowStep) :
  Forall (fun sk => sk.1.2 <> delay) (skeleton <$> steps) ->
  Forall (fun s => s_type s <> delay) steps.
Proof.
  rewrite !Forall_forall. intros H s Hs.
  apply (H (skeleton s)). by apply list_elem_of_fmap_2.
Qed.

End SkeletonFacts.

Section TemplateProperties.
Import Str Generator Executor Shapes Callers RunFacts TemplateFacts SkeletonFacts.

Variable env : Env.
Variable w : World.

(** X9: a generated workflow has no step exactly when the text is too vague
    (once lower-cased and trimmed it has fewer than 10 UTF-16 code units or
    no space), and exactly then the answer asks for clarification. *)
Theorem steps_are_missing_exactly_for_vague_text text :
  exists r w',
    generateWorkflow env text w = Returns r w' /\
    (w_steps (workflow r) = []
     <-> vague (trim (toLowerCase (lowerNonAscii env) text)) = true) /\
    (clarificationNeeded r = Some true
     <-> vague (trim (toLowerCase (lowerNonAscii env) text)) = true) /\
    (clarificationQuestion r = None
     <-> vague (trim (toLowerCase (lowerNonAscii env) text)) = false).
Proof.
  destruct (generateWorkflow_template env text w) as (r & w' & E & _ & _ & H).
  destruct (generateWorkflow_step_count env text w) as (r' & w'' & E' & Hn).
  rewrite E in E'. injection E' as <- <-. cbv zeta in *.
  exists r, w'. split; [done|].
  destruct (vague _).
  - destruct H as (Hc & Hq & _). apply nil_length_inv in Hn.
    rewrite Hc, Hq, Hn. done.
  - destruct H as (Hc & Hq & H). rewrite Hc, Hq.
    split_and!; try done. split; [|done]. intros Hnil.
    rewrite Hnil in Hn. simpl in Hn.
    destruct (reminder_family _); [done|].
    destruct (setup_family _); [by destruct (testing _)|].
    destruct (notification_family _); [done|].
    pose proof (extractActions_not_empty
                  (trim (toLowerCase (lowerNonAscii env) text))). lia.
Qed.

(** X10: every generated workflow is well formed (distinct step ids, every
    dependency names an earlier step), each of its steps explains itself, and
    its metadata keep the text as it was given. *)
Theorem generated_workflow_is_well_formed text :
  exists r w',
    generateWorkflow env text w = Returns r w' /\
    well_formed (w_steps (workflow r)) /\
    Forall (fun s => s_reasoning s <> "") (w_steps (workflow r)) /\
    userInput (w_metadata (workflow r)) = text.
Proof.
  destruct (generateWorkflow_template env text w) as (r & w' & E & Hm & Hr & _).
  destruct (generateWorkflow_well_formed env text w) as (r' & w'' & E' & Hwf).
  rewrite E in E'. injection E' as <- <-. by exists r, w'.
Qed.

(** X11: no generated step is a delay, so the three counts of the summary
    (actions, conditions, notifications) add up to the number of steps. *)
Theorem generated_steps_are_never_delays text :
  exists r w',
    generateWorkflow env text w = Returns r w' /\
    countType delay (w_steps (workflow r)) = 0%nat /\
    (countType action (w_steps (workflow r))
     + countType condition (w_steps (workflow r))
     + countType notification (w_steps (workflow r))
     = length (w_steps (workflow r)))%nat.
Proof.
  destruct (generateWorkflow_template env text w) as (r & w' & E & _ & _ & H).
  exists r, w'. split; [done|]. apply no_delay_counts, skeleton_no_delay.
  cbv zeta in H.
  destruct (vague _); [destruct H as (_ & _ & _ & _ & ->); constructor|].
  destruct H as (_ & _ & H).
  destruct (reminder_family _);
    [destruct H as (_ & _ & ->); by repeat constructor|].
  destruct (setup_family _).
  { destruct H as (_ & _ & ->). destruct (testing _); by repeat constructor. }
  destruct (notification_family _);
    [destruct H as (_ & _ & ->); by repeat constructor|].
  destruct H as (_ & _ & ->). unfold general_skeleton.
  apply Forall_fmap, Forall_forall. done.
Qed.

(** X12: the trigger and the number of steps follow the domain: reminders are
    scheduled and have three steps; a project setup is manual and has four
    steps with tests and three without; an automation has four steps and is
    triggered by an event or by hand; a general workflow is manual and has at
    most ten steps, none exactly for a vague text. *)
Theorem trigger_and_size_follow_the_domain text :
  exists r w',
    generateWorkflow env text w = Returns r w' /\
    let input := trim (toLowerCase (lowerNonAscii env) text) in
    let n := length (w_steps (workflow r)) in
    match w_domain (workflow r) with
    | reminders => t_type (w_trigger (workflow r)) = schedule /\ n = 3%nat
    | app_setup =>
        t_type (w_trigger (workflow r)) = manual /\
        n = (if testing input then 4%nat else 3%nat)
    | automation =>
        t_type (w_trigger (workflow r))
        = (if eventful input then event else manual) /\ n = 4%nat
    | general =>
        t_type (w_trigger (workflow r)) = manual /\ (n <= 10)%nat /\
        (n = 0%nat <-> vague input = true)
    end.
Proof.
  destruct (generateWorkflow_template env text w) as (r & w' & E & _ & _ & H).
  destruct (generateWorkflow_step_count env text w) as (r' & w'' & E' & Hn).
  rewrite E in E'. injection E' as <- <-. cbv zeta in *.
  exists r, w'. split; [done|].
  destruct (vague _).
  { destruct H as (_ & _ & -> & -> & _). rewrite Hn. split_and!; [done|lia|done]. }
  destruct H as (_ & _ & H).
  destruct (reminder_family _); [by destruct H as (-> & -> & _)|].
  destruct (setup_family _); [by destruct H as (-> & -> & _)|].
  destruct (notification_family _) eqn:En; [by destruct H as (-> & -> & _)|].
  destruct H as (-> & -> & _). rewrite Hn.
  pose proof (extractActions_bound _ En). split_and!; [done|lia|].
  split; [lia|done].
Qed.

(** X13: the general template never falls back on the step
    [Execute Workflow]: it has between one and twelve steps, one for each
    verb of the vocabulary found in the text (or the one verb "process"), and
    each step carries its verb in its config. *)
Theorem general_fallback_step_is_never_produced userInput input :
  exists wfl w',
    generateGeneralWorkflow env userInput input w = Returns wfl w' /\
    (1 <= length (w_steps wfl) <= 12)%nat /\
    Forall (fun s =>
              s_title s <> "Execute Workflow" /\
              exists v, v ∈ actionWords /\
                        s_config s !! "action" = Some (JStr v) /\
                        s_title s = capitalizeFirst v /\
                        (includes input v = true \/
                         (v = "process" /\ length (w_steps wfl) = 1%nat)))
           (w_steps wfl).
Proof.
  destruct (general_template_steps env userInput input w)
    as (wfl & w' & E & _ & Hsteps).
  exists wfl, w'. split; [done|]. rewrite Hsteps, length_imap. split.
  - split; [apply extractActions_not_empty|].
    unfold extractActions.
    destruct (0 <? length (filter _ actionWords))%nat; [|simpl; lia].
    apply (length_filter (fun word => includes input word = true) actionWords).
  - apply Forall_forall. intros s Hs.
    apply list_elem_of_lookup in Hs as [i Hi].
    rewrite list_lookup_imap in Hi.
    destruct (extractActions input !! i) as [v|] eqn:Ev; [|done].
    injection Hi as <-.
    assert (Hv : v ∈ extractActions input) by (by eapply list_elem_of_lookup_2).
    pose proof (extractActions_vocabulary _ _ Hv) as Hvoc.
    split.
    + assert (Hall : Forall (fun v => capitalizeFirst v <> "Execute Workflow")
                       actionWords) by (by repeat constructor).
      rewrite Forall_forall in Hall. by apply Hall.
    + exists v. split_and!; [done | done | done |].
      destruct (extractActions_occur _ _ Hv) as [Hin|Hdef]; [by left|].
      right. rewrite Hdef in Hv |- *.
      by apply list_elem_of_singleton in Hv.
Qed.

End TemplateProperties.

Module StringFacts.
Import Str Regex Shapes.












End StringFacts.

Section TemplateConsistency.
Import Str Generator Executor Shapes Callers RunFacts TemplateFacts SkeletonFacts.
Import StringFacts ExecutorFacts.

Variable env : Env.

(** X14: the time of a reminder.  The [time] of the first step, the
    [schedule] of the trigger and the text of the trigger all hold the text
    matched in the input, or "9:00 AM" when nothing is matched; the
    description of the first step holds the matched text too, but
    "specified time", not "9:00 AM", when nothing is matched; the trigger
    has a [cron] exactly when the text says "every", and it is "0 " and
    that time. *)
Theorem reminder_schedule_is_consistent userInput input w :
  exists wfl w' step1 tc t,
    generateReminderWorkflow env userInput input w = Returns wfl w' /\
    t = default "9:00 AM" (Regex.match_time input) /\
    w_steps wfl !! 0%nat = Some step1 /\
    s_config step1 !! "time" = Some (JStr t) /\
    s_description step1
    = "Monitor for the scheduled time: "
      +:+ default "specified time" (Regex.match_time input) /\
    s_config step1 !! "frequency"
    = Some (JStr (if includes input "every" then "recurring" else "once")) /\
    t_config (w_trigger wfl) = Some tc /\
    tc_schedule tc = Some t /\
    tc_cron tc = (if includes input "every" then Some ("0 " +:+ t) else None) /\
    t_description (w_trigger wfl)
    = (if includes input "every" then "Every day" else "Once") +:+ " at " +:+ t.
Proof.
  unfold generateReminderWorkflow.
  destruct (includes input "every"); destruct (Regex.match_time input) as [m|];
    eexists _, _, _, _, _; (split; [reflexivity|]); cbn;
    repeat split; reflexivity.
Qed.

(** X15: the notification step names its channel: its description is
    "Send via " and the [channel] of its config, one of the four channels;
    "push" is chosen only if the text says so; the trigger has a config exactly
    when it is an event. *)
Theorem notification_step_names_its_channel userInput input w :
  exists wfl w' step3 c,
    generateNotificationWorkflow env userInput input w = Returns wfl w' /\
    w_steps wfl !! 2%nat = Some step3 /\
    s_config step3 !! "channel" = Some (JStr c) /\
    s_description step3 = "Send via " +:+ c /\
    c ∈ ["email"; "sms"; "slack"; "push"] /\
    (c = "push" -> includes input "push" = true) /\
    (c = "slack" -> includes input "slack" = true) /\
    (t_type (w_trigger wfl) = event <-> is_Some (t_config (w_trigger wfl))) /\
    (t_type (w_trigger wfl) = event
     <-> t_description (w_trigger wfl) = "Event: New user signup").
Proof.
  unfold generateNotificationWorkflow.
  eexists _, _, _, (detectChannel input). split; [reflexivity|]. cbn.
  split; [reflexivity|]. split; [reflexivity|]. split; [reflexivity|].
  split_and!.
  - unfold detectChannel.
    repeat match goal with
           | |- context [if ?b then _ else _] => destruct b
           end; set_solver.
  - unfold detectChannel.
    destruct (includes input "email"); [done|].
    destruct (includes input "sms" || includes input "text"); [done|].
    destruct (includes input "slack"); [done|].
    by destruct (includes input "push").
  - unfold detectChannel.
    destruct (includes input "email"); [done|].
    destruct (includes input "sms" || includes input "text"); [done|].
    destruct (includes input "slack"); [done|].
    by destruct (includes input "push").
  - destruct (includes input "when" || includes input "signup"
              || includes input "user").
    + split; [intros _; by eexists | done].
    + split; [done | by intros [? ?]].
  - by destruct (includes input "when" || includes input "signup"
                 || includes input "user").
Qed.

(** X16: the answer depends on the text only through its lower-case, trimmed
    form: two texts with the same form get the same template, steps, trigger,
    name and domain, and the same request for clarification. *)
Theorem templates_ignore_case_and_outer_space text1 text2 w1 w2 :
  trim (toLowerCase (lowerNonAscii env) text1)
  = trim (toLowerCase (lowerNonAscii env) text2) ->
  exists r1 w1' r2 w2',
    generateWorkflow env text1 w1 = Returns r1 w1' /\
    generateWorkflow env text2 w2 = Returns r2 w2' /\
    w_steps (workflow r1) = w_steps (workflow r2) /\
    w_trigger (workflow r1) = w_trigger (workflow r2) /\
    w_name (workflow r1) = w_name (workflow r2) /\
    w_domain (workflow r1) = w_domain (workflow r2) /\
    clarificationNeeded r1 = clarificationNeeded r2 /\
    clarificationQuestion r1 = clarificationQuestion r2.
Proof.
  intros H. unfold generateWorkflow. rewrite H.
  set (input := trim (toLowerCase (lowerNonAscii env) text2)). cbv zeta.
  destruct ((Str.utf16_length input <? 10)%nat || negb (includes input " ")).
  { eexists _, _, _, _. split; [reflexivity|]. split; [reflexivity|]. done. }
  destruct (includes input "remind" || includes input "notification"
            || includes input "alert").
  { eexists _, _, _, _. split; [reflexivity|]. split; [reflexivity|]. done. }
  destruct (includes input "setup" || includes input "create project"
            || includes input "initialize").
  { eexists _, _, _, _. split; [reflexivity|]. split; [reflexivity|]. done. }
  destruct (includes input "email" || includes input "send"
            || includes input "notify").
  { eexists _, _, _, _. split; [reflexivity|]. split; [reflexivity|]. done. }
  destruct (general_template_steps env text1 input w1)
    as (wfl1 & w1' & E1 & _ & Hs1).
  destruct (general_template_steps env text2 input w2)
    as (wfl2 & w2' & E2 & _ & Hs2).
  unfold generateGeneralWorkflow in *.
  assert (Hne : (length ([] ++ imap actionStep (extractActions input)) =? 0)%nat
                = false).
  { rewrite app_nil_l, length_imap. apply Nat.eqb_neq.
    pose proof (extractActions_not_empty input). lia. }
  rewrite Hne. eexists _, _, _, _.
  split; [reflexivity|]. split; [reflexivity|]. done.
Qed.


End TemplateConsistency.

Section RegexProperties.
Import Str Regex Shapes StringFacts.


End RegexProperties.

(** * Properties of the callers *)

Module CallerFacts.
Import Shapes Callers.

Lemma sublist_fmap {A B} (f : A -> B) (l1 l2 : list A) :
  l1 `sublist_of` l2 -> (f <$> l1) `sublist_of` (f <$> l2).
Proof.
  induction 1 as [|x l1 l2 _ IH|x l1 l2 _ IH]; rewrite ?fmap_cons.
  - constructor.
  - by apply sublist_skip.
  - by apply sublist_cons.
Qed.

Lemma filter_all {A} (P : A -> Prop) `{!forall x, Decision (P x)} (l : list A) :
  Forall P l -> filter P l = l.
Proof.
  induction 1 as [|x l Hx _ IH]; [done|].
  by rewrite filter_cons_True, IH.
Qed.

(** With distinct ids, [find] by id returns the step that carries it. *)
Lemma find_step_by_id (steps : list WorkflowStep) j s :
  NoDup (s_id <$> steps) -> steps !! j = Some s ->
  List.find (fun x => String.eqb (s_id x) (s_id s)) steps = Some s.
Proof.
  revert j. induction steps as [|z steps IH]; intros j Hnd Hj; [done|].
  rewrite fmap_cons in Hnd. apply NoDup_cons in Hnd as [Hz Hnd].
  simpl. destruct (String.eqb (s_id z) (s_id s)) eqn:Ez.
  - destruct j as [|j]; simpl in Hj; [congruence|].
    apply String.eqb_eq in Ez. exfalso. apply Hz. rewrite Ez.
    apply list_elem_of_fmap. exists s. split; [done|].
    by eapply list_elem_of_lookup_2.
  - destruct j as [|j]; simpl in Hj.
    + injection Hj as ->. by rewrite String.eqb_refl in Ez.
    + by apply (IH j).
Qed.

Lemma find_step_none (steps : list WorkflowStep) d :
  d ∉ (s_id <$> steps) ->
  List.find (fun x => String.eqb (s_id x) d) steps = None.
Proof.
  induction steps as [|z steps IH]; [done|]. rewrite fmap_cons.
  intros Hd. apply not_elem_of_cons in Hd as [Hz Hd]. simpl.
  destruct (String.eqb (s_id z) d) eqn:Ez.
  - apply String.eqb_eq in Ez. congruence.
  - by apply IH.
Qed.

Lemma with_field_skeleton field value s :
  skeleton (with_field field value s) = skeleton s /\
  s_config (with_field field value s) = s_config s /\
  s_reasoning (with_field field value s) = s_reasoning s.
Proof. by destruct field. Qed.

End CallerFacts.

Section CallerProperties.
Import Shapes Callers RunFacts CallerFacts.

(** X19: the history after a save: the saved workflow comes first, at most
    three workflows are kept, in the order they had, with distinct ids if the
    ids were distinct before; saving the same workflow again changes
    nothing. *)
Theorem history_keeps_three_distinct_workflows newWorkflow workflowHistory :
  NoDup (w_id <$> workflowHistory) ->
  saveToHistory newWorkflow workflowHistory !! 0%nat = Some newWorkflow /\
  (length (saveToHistory newWorkflow workflowHistory) <= 3)%nat /\
  NoDup (w_id <$> saveToHistory newWorkflow workflowHistory) /\
  saveToHistory newWorkflow workflowHistory
    `sublist_of` (newWorkflow :: workflowHistory) /\
  saveToHistory newWorkflow (saveToHistory newWorkflow workflowHistory)
  = saveToHistory newWorkflow workflowHistory.
Proof.
  intros Hnd. unfold saveToHistory.
  set (P := fun w : Workflow => w_id w <> w_id newWorkflow).
  assert (Hsub : take 3 (newWorkflow :: filter P workflowHistory)
                   `sublist_of` (newWorkflow :: workflowHistory)).
  { etrans; [apply sublist_take|]. apply sublist_skip, sublist_filter. }
  split_and!.
  - done.
  - rewrite length_take. lia.
  - eapply sublist_NoDup; [|apply sublist_fmap, sublist_take].
    rewrite fmap_cons. apply NoDup_cons. split.
    + intros Hin. apply list_elem_of_fmap in Hin as (x & Hx & Hin).
      apply list_elem_of_filter in Hin as [Hp _]. by apply Hp.
    + eapply sublist_NoDup; [exact Hnd|].
      apply sublist_fmap, sublist_filter.
  - done.
  - cbn [take]. rewrite filter_cons_False by (intros Hp; by apply Hp).
    rewrite (filter_all P).
    + by rewrite take_idemp.
    + apply Forall_forall. intros x Hx.
      assert (Hx' : x ∈ filter P workflowHistory).
      { eapply elem_of_sublist; [done|apply sublist_take]. }
      by apply list_elem_of_filter in Hx' as [Hp _].
Qed.

(** X20: an edit in the visualizer changes text only: ids, types and
    dependencies, configs and reasonings stay, so a well-formed list of steps
    stays well formed; every step that carries the id gets the new text; an
    id that no step carries changes nothing; and the saved workflow differs
    from the old one in its steps only. *)
Theorem step_edit_changes_text_only workflow stepId field value :
  let edited := handleStepEdit stepId field value (w_steps workflow) in
  skeleton <$> edited = skeleton <$> w_steps workflow /\
  s_config <$> edited = s_config <$> w_steps workflow /\
  s_reasoning <$> edited = s_reasoning <$> w_steps workflow /\
  (well_formed (w_steps workflow) -> well_formed edited) /\
  (forall k s, w_steps workflow !! k = Some s -> s_id s = stepId ->
               edited !! k = Some (with_field field value s)) /\
  (stepId ∉ (s_id <$> w_steps workflow) -> edited = w_steps workflow) /\
  w_steps (handleSaveChanges workflow edited) = edited /\
  w_id (handleSaveChanges workflow edited) = w_id workflow /\
  w_trigger (handleSaveChanges workflow edited) = w_trigger workflow /\
  w_metadata (handleSaveChanges workflow edited) = w_metadata workflow.
Proof.
  cbv zeta. unfold handleStepEdit.
  set (f := fun step : WorkflowStep =>
              if String.eqb (s_id step) stepId
              then with_field field value step else step).
  assert (Hf : forall s, skeleton (f s) = skeleton s /\
                         s_config (f s) = s_config s /\
                         s_reasoning (f s) = s_reasoning s).
  { intros s. unfold f. destruct (String.eqb (s_id s) stepId); [|done].
    apply with_field_skeleton. }
  assert (Hsk : skeleton <$> (f <$> w_steps workflow)
                = skeleton <$> w_steps workflow).
  { rewrite <- list_fmap_compose. apply list_fmap_ext. intros _ s _.
    apply (Hf s). }
  split_and!; try done.
  - rewrite <- list_fmap_compose. apply list_fmap_ext. intros _ s _.
    apply (Hf s).
  - rewrite <- list_fmap_compose. apply list_fmap_ext. intros _ s _.
    apply (Hf s).
  - apply well_formed_same_ids.
    + rewrite <- list_fmap_compose. apply list_fmap_ext. intros _ s _.
      destruct (Hf s) as [Hs _]. unfold skeleton in Hs. simpl.
      by injection Hs.
    + rewrite <- list_fmap_compose. apply list_fmap_ext. intros _ s _.
      destruct (Hf s) as [Hs _]. unfold skeleton in Hs. simpl.
      by injection Hs.
  - intros k s Hk Hid. rewrite list_lookup_fmap, Hk. simpl. unfold f.
    by rewrite <- Hid, String.eqb_refl.
  - intros Hno. rewrite <- (list_fmap_id (w_steps workflow)) at 2.
    apply list_fmap_ext. intros k s Hk. unfold f.
    destruct (String.eqb (s_id s) stepId) eqn:E; [|done].
    apply String.eqb_eq in E. exfalso. apply Hno. rewrite <- E.
    apply list_elem_of_fmap. exists s. split; [done|].
    by eapply list_elem_of_lookup_2.
Qed.

(** X21: in a well-formed workflow every dependency of a step is shown under
    the title of the earlier step that carries the id, by the explanation and
    by the visualizer alike when no title is empty; an id that no step
    carries is shown as it is. *)
Theorem dependencies_are_shown_by_title workflow k step deps :
  well_formed (w_steps workflow) ->
  w_steps workflow !! k = Some step ->
  s_dependencies step = Some deps ->
  Forall2 (fun d name =>
             exists j dep, (j < k)%nat /\ w_steps workflow !! j = Some dep /\
                           s_id dep = d /\ name = s_title dep)
    deps (depNames workflow deps) /\
  (Forall (fun s => s_title s <> "") (w_steps workflow) ->
   depLabels workflow deps = depNames workflow deps) /\
  (forall ghost, ghost ∉ (s_id <$> w_steps workflow) ->
                 depNames workflow [ghost] = [ghost] /\
                 depLabels workflow [ghost] = [ghost]).
Proof.
  intros [Hnd Hdeps] Hk Hd. split_and!.
  - unfold depNames. apply Forall2_fmap_r, Forall_Forall2_diag, Forall_forall.
    intros d Hin. specialize (Hdeps k step deps d Hk Hd Hin).
    apply list_elem_of_lookup in Hdeps as [j Hj].
    assert (Hjk : (j < k)%nat).
    { apply lookup_lt_Some in Hj. rewrite length_fmap, length_take in Hj. lia. }
    rewrite fmap_take, lookup_take_lt in Hj by done.
    rewrite list_lookup_fmap in Hj.
    destruct (w_steps workflow !! j) as [dep|] eqn:Ej; [|done].
    injection Hj as Hj. exists j, dep. split_and!; try done.
    by rewrite <- Hj, (find_step_by_id _ j dep Hnd Ej).
  - intros Ht. unfold depLabels, depNames. apply list_fmap_ext.
    intros _ d _.
    destruct (List.find _ (w_steps workflow)) as [dep|] eqn:E; [|done].
    apply find_position in E as (m & Hm & _).
    rewrite Forall_lookup in Ht. specialize (Ht m dep Hm).
    destruct (String.eqb (s_title dep) "") eqn:Et; [|done].
    by apply String.eqb_eq in Et.
  - intros ghost Hg. unfold depNames, depLabels. simpl.
    by rewrite (find_step_none _ _ Hg).
Qed.

End CallerProperties.

(** ** Witnesses *)

(** Witness of X16: the same reminder in two spellings; the first has
    capitals, a byte order mark in front, a no-break space behind and a
    Kelvin sign for the "k" of "drink". *)
Lemma templates_ignore_case_witness :
  exists r1 w1' r2 w2',
    Generator.generateWorkflow Examples.env_ok
      (MoreExamples.bom +:+ "Remind me to DRIN" +:+ MoreExamples.kelvin
       +:+ " water at 5PM" +:+ MoreExamples.nbsp) world0 = Returns r1 w1' /\
    Generator.generateWorkflow Examples.env_ok
      "  remind me to drink water at 5pm" world0 = Returns r2 w2' /\
    w_steps (workflow r1) = w_steps (workflow r2) /\
    w_trigger (workflow r1) = w_trigger (workflow r2) /\
    w_name (workflow r1) = w_name (workflow r2) /\
    w_domain (workflow r1) = w_domain (workflow r2) /\
    clarificationNeeded r1 = clarificationNeeded r2 /\
    clarificationQuestion r1 = clarificationQuestion r2.
Proof.
  apply (templates_ignore_case_and_outer_space Examples.env_ok
           (MoreExamples.bom +:+ "Remind me to DRIN" +:+ MoreExamples.kelvin
            +:+ " water at 5PM" +:+ MoreExamples.nbsp)
           "  remind me to drink water at 5pm" world0 world0).
  vm_compute. reflexivity.
Defined.



(** Witness of X9.  Between its white space "  REMIND ME  " has 9
    characters: no step and a question.  "İs tanbul" has 9 characters too,
    but 10 in lower case, where the first one becomes two: it gets a
    step and no question. *)
Lemma steps_are_missing_witness :
  (exists r w',
     Generator.generateWorkflow Examples.env_ok "  REMIND ME  " world0
     = Returns r w' /\
     w_steps (workflow r) = [] /\ clarificationNeeded r = Some true) /\
  (exists r w',
     Generator.generateWorkflow Examples.env_ok
       (MoreExamples.dotted_I +:+ "s tanbul") world0 = Returns r w' /\
     w_steps (workflow r) <> [] /\ clarificationQuestion r = None).
Proof.
  split.
  - destruct (steps_are_missing_exactly_for_vague_text Examples.env_ok world0
                "  REMIND ME  ") as (r & w' & E & H1 & H2 & _).
    exists r, w'. split; [exact E|]. split.
    + apply H1. vm_compute. reflexivity.
    + apply H2. vm_compute. reflexivity.
  - destruct (steps_are_missing_exactly_for_vague_text Examples.env_ok world0
                (MoreExamples.dotted_I +:+ "s tanbul"))
      as (r & w' & E & H1 & _ & H3).
    exists r, w'. split; [exact E|]. split.
    + intros Hnil. apply H1 in Hnil. vm_compute in Hnil. discriminate Hnil.
    + apply H3. vm_compute. reflexivity.
Defined.

(** Witness of X12: the same two texts; both answers are of the domain
    [general], the first without a step, the second with one. *)
Lemma trigger_and_size_witness :
  (exists r w',
     Generator.generateWorkflow Examples.env_ok "  REMIND ME  " world0
     = Returns r w' /\
     w_domain (workflow r) = general /\
     t_type (w_trigger (workflow r)) = manual /\
     length (w_steps (workflow r)) = 0%nat) /\
  (exists r w',
     Generator.generateWorkflow Examples.env_ok
       (MoreExamples.dotted_I +:+ "s tanbul") world0 = Returns r w' /\
     w_domain (workflow r) = general /\
     t_type (w_trigger (workflow r)) = manual /\
     (1 <= length (w_steps (workflow r)) <= 10)%nat).
Proof.
  split.
  - destruct (trigger_and_size_follow_the_domain Examples.env_ok world0
                "  REMIND ME  ") as (r & w' & E & H).
    assert (Hd : w_domain (workflow r) = general).
    { change (w_domain (workflow r))
        with (w_domain (workflow (Examples.value_of (Returns r w')
                                    Examples.blank_result))).
      rewrite <- E. vm_compute. reflexivity. }
    cbv zeta in H. rewrite Hd in H. destruct H as (Ht & _ & Hn).
    exists r, w'. split_and!; [exact E | exact Hd | exact Ht |].
    apply Hn. vm_compute. reflexivity.
  - destruct (trigger_and_size_follow_the_domain Examples.env_ok world0
                (MoreExamples.dotted_I +:+ "s tanbul")) as (r & w' & E & H).
    assert (Hd : w_domain (workflow r) = general).
    { change (w_domain (workflow r))
        with (w_domain (workflow (Examples.value_of (Returns r w')
                                    Examples.blank_result))).
      rewrite <- E. vm_compute. reflexivity. }
    cbv zeta in H. rewrite Hd in H. destruct H as (Ht & Hle & Hn).
    exists r, w'. split_and!; [exact E | exact Hd | exact Ht | | exact Hle].
    destruct (length (w_steps (workflow r))) as [|n]; [|lia].
    destruct Hn as [Hn _]. specialize (Hn eq_refl).
    vm_compute in Hn. discriminate Hn.
Defined.

(** Witness of X19: saving the second of three workflows again. *)
Lemma history_witness :
  Callers.saveToHistory (MoreExamples.named_workflow "b")
    [MoreExamples.named_workflow "a"; MoreExamples.named_workflow "b";
     MoreExamples.named_workflow "c"] !! 0%nat
  = Some (MoreExamples.named_workflow "b") /\
  (length (Callers.saveToHistory (MoreExamples.named_workflow "b")
             [MoreExamples.named_workflow "a"; MoreExamples.named_workflow "b";
              MoreExamples.named_workflow "c"]) <= 3)%nat /\
  NoDup (w_id <$> Callers.saveToHistory (MoreExamples.named_workflow "b")
                    [MoreExamples.named_workflow "a";
                     MoreExamples.named_workflow "b";
                     MoreExamples.named_workflow "c"]) /\
  Callers.saveToHistory (MoreExamples.named_workflow "b")
    [MoreExamples.named_workflow "a"; MoreExamples.named_workflow "b";
     MoreExamples.named_workflow "c"]
    `sublist_of` [MoreExamples.named_workflow "b";
                  MoreExamples.named_workflow "a";
                  MoreExamples.named_workflow "b";
                  MoreExamples.named_workflow "c"] /\
  Callers.saveToHistory (MoreExamples.named_workflow "b")
    (Callers.saveToHistory (MoreExamples.named_workflow "b")
       [MoreExamples.named_workflow "a"; MoreExamples.named_workflow "b";
        MoreExamples.named_workflow "c"])
  = Callers.saveToHistory (MoreExamples.named_workflow "b")
      [MoreExamples.named_workflow "a"; MoreExamples.named_workflow "b";
       MoreExamples.named_workflow "c"].
Proof.
  apply (history_keeps_three_distinct_workflows
           (MoreExamples.named_workflow "b")
           [MoreExamples.named_workflow "a"; MoreExamples.named_workflow "b";
            MoreExamples.named_workflow "c"]).
  apply (bool_decide_unpack _). vm_compute. reflexivity.
Defined.

(** Witness of X21: the second step of [notify_workflow]. *)
Lemma dependencies_are_shown_by_title_witness :
  Forall2 (fun d name =>
             exists j dep, (j < 1)%nat /\
                           w_steps Examples.notify_workflow !! j = Some dep /\
                           s_id dep = d /\ name = s_title dep)
    ["step-1"] (Callers.depNames Examples.notify_workflow ["step-1"]) /\
  (Forall (fun s => s_title s <> "") (w_steps Examples.notify_workflow) ->
   Callers.depLabels Examples.notify_workflow ["step-1"]
   = Callers.depNames Examples.notify_workflow ["step-1"]) /\
  (forall ghost, ghost ∉ (s_id <$> w_steps Examples.notify_workflow) ->
                 Callers.depNames Examples.notify_workflow [ghost] = [ghost] /\
                 Callers.depLabels Examples.notify_workflow [ghost] = [ghost]).
Proof.
  eapply (dependencies_are_shown_by_title Examples.notify_workflow 1 _
            ["step-1"]).
  - apply RunFacts.backward_sound. vm_compute. reflexivity.
  - vm_compute. reflexivity.
  - reflexivity.
Defined.

(** * Chains headed by a condition *)

Module ChainFacts.
Import Executor ExecutorFacts Shapes RunFacts Chains.

Lemma hangs_from seen (steps : list WorkflowStep) :
  hangs seen (skeleton <$> steps) = true ->
  forall k step,
    steps !! k = Some step ->
    exists deps d,
      s_dependencies step = Some deps /\ d ∈ deps /\
      d ∈ seen ++ (s_id <$> take k steps).
Proof.
  revert seen. induction steps as [|s rest IH]; intros seen Hb k step Hk; [done|].
  rewrite fmap_cons in Hb. unfold skeleton at 1 in Hb. simpl in Hb.
  apply andb_true_iff in Hb as [Hd Hrest].
  destruct k as [|k]; simpl in Hk.
  - injection Hk as ->. destruct (s_dependencies step) as [deps|]; [|done].
    apply existsb_exists in Hd as (d & Hin & Hseen).
    apply bool_decide_eq_true in Hseen. exists deps, d.
    split_and!; [done | by apply list_elem_of_In |].
    by rewrite take_0, app_nil_r.
  - destruct (IH _ Hrest k step Hk) as (deps & d & Hdeps & Hin & Hseen).
    exists deps, d. split_and!; [done | done |].
    by rewrite <- app_assoc in Hseen.
Qed.

Lemma hangs_sound (steps : list WorkflowStep) :
  hangs (s_id <$> take 1 steps) (skeleton <$> drop 1 steps) = true ->
  rooted steps.
Proof.
  destruct steps as [|head rest]; [done|].
  cbn [take drop fmap list_fmap].
  intros Hb k step Hk. simpl in Hk.
  destruct (hangs_from _ _ Hb k step Hk) as (deps & d & Hdeps & Hin & Hseen).
  by exists deps, d.
Qed.

End ChainFacts.

Section ChainProperties.
Import Executor ExecutorFacts Shapes RunFacts Chains ChainFacts.

Variable env : Env.
Variable wf : Workflow.
Variable onProgress : bool.
Variable w : World.

(** When the first step is a condition without dependencies whose simulated
    execution fails and every other step depends on a step before it, the
    loop goes through every step, simulates none but the first and fails
    them all. *)
Lemma failed_head_after head k :
  NoDup (s_id <$> w_steps wf) ->
  rooted (w_steps wf) ->
  w_steps wf !! 0%nat = Some head ->
  s_type head = condition ->
  s_dependencies head = None ->
  Qle_bool (random env (S (random_draws w))) (5 # 100) = true ->
  (1 <= k <= length (w_steps wf))%nat ->
  exists ex wk ls call,
    after env wf onProgress k w = Returns (Next, ex) wk /\
    heap wk !! logs ex = Some ls /\
    stepId <$> ls = s_id <$> w_steps wf /\
    status ex = ex_running /\
    simulations wk = simulations w ++ [call] /\
    success (call_result call) = false /\
    forall p l, (p < k)%nat -> ls !! p = Some l ->
                log_status l = failed /\
                log_error l
                = Some (match p with
                        | O => "Simulated execution error"
                        | S _ => "Dependencies not met"
                        end).
Proof.
  intros Hnd Hroot Hhead Htype Hnone Hfail [Hk1 Hk].
  induction k as [|k IH]; [lia|].
  destruct k as [|k].
  - clear IH.
    destruct (after_loop_state env wf onProgress w 0 (Nat.le_0_l _))
      as (c & ex & wk & E & ls & hist & Hls & Hids & _ & Hc).
    destruct (after_accounting env wf onProgress w 0 c ex wk (Nat.le_0_l _) E)
      as (ex0 & w0 & hist' & copies & E0 & _ & Hsim & Hlen & Hr & _).
    assert (c = Next) as ->.
    { unfold after in E. rewrite (bind_returns _ _ _ _ _ E0), take_0 in E.
      by injection E. }
    destruct Hc as (Hst & _).
    assert (hist' = []) as -> by (apply nil_length_inv; lia).
    rewrite app_nil_r in Hsim. simpl in Hr. rewrite Nat.add_0_r in Hr.
    destruct (entry_found _ _ _ _ Hids Hhead) as (n & x & Hi & Hn & Hx & Hxid).
    assert (n = 0%nat) as -> by lia.
    assert (Hg : deps_met head ls = true) by (unfold deps_met; by rewrite Hnone).
    destruct (iteration_runs_detail env onProgress head ex wk ls 0 x Hls Hi Hx Hg)
      as (res & t1 & t2 & a1 & a2 & w' & E' & Hls' & [_ Hbad] & Hres & Hsim' & _).
    assert (Hs : success res = false) by (by rewrite Hres, Hr, Hfail).
    rewrite Hs, Htype in E'. simpl in E'.
    eexists ex, w', _, _. split_and!.
    + by rewrite (after_S _ _ _ _ _ _ Hhead), E.
    + exact Hls'.
    + by rewrite (ids_insert _ _ x).
    + done.
    + by rewrite Hsim', Hsim.
    + exact Hs.
    + intros p l Hp Hl. assert (p = 0%nat) as -> by lia.
      rewrite (insert_lookup_same _ _ _ _ Hx) in Hl. injection Hl as <-.
      simpl. rewrite Hs. split; [done|]. by destruct (Hbad Hs) as [_ ->].
  - destruct IH as (ex & wk & ls & call & E & Hls & Hids & Hst & Hsim & Hcall & Hdone);
      [lia | lia |].
    destruct (lookup_lt_is_Some_2 (w_steps wf) (S k)) as [step Hstep]; [lia|].
    destruct (entry_found _ _ _ _ Hids Hstep) as (n & x & Hi & Hn & Hx & Hxid).
    assert (Hnd' : NoDup (stepId <$> ls)) by (by rewrite Hids).
    assert (n = S k) as ->.
    { apply (NoDup_lookup _ _ _ (s_id step) Hnd').
      - by rewrite list_lookup_fmap, Hx, <- Hxid.
      - by rewrite Hids, list_lookup_fmap, Hstep. }
    destruct (Hroot k step Hstep) as (deps & d & Hdeps & Hin & Hearlier).
    assert (Hg : deps_met step ls = false).
    { unfold deps_met. rewrite Hdeps. apply depsComplete_false.
      exists d. split; [done|]. intros l Hfind.
      apply list_elem_of_lookup in Hearlier as [j Hjd].
      assert (Hj : (j < S k)%nat).
      { apply lookup_lt_Some in Hjd. rewrite length_fmap, length_take in Hjd. lia. }
      assert (Hlj : (stepId <$> ls) !! j = Some d).
      { rewrite Hids. rewrite fmap_take, lookup_take_lt in Hjd by done. done. }
      rewrite list_lookup_fmap in Hlj.
      destruct (ls !! j) as [lj|] eqn:Elj; [|done]. injection Hlj as Hlj.
      rewrite <- Hlj, (find_by_id ls j lj Hnd' Elj) in Hfind.
      injection Hfind as <-. destruct (Hdone j lj Hj Elj) as [-> _]. done. }
    pose proof (iteration_unmet env onProgress step ex wk ls (S k) x Hls Hi Hx Hg)
      as E'.
    eexists ex, _, _, call. split_and!.
    + by rewrite (after_S _ _ _ _ _ _ Hstep), E.
    + world_simpl. apply lookup_insert_eq.
    + by rewrite (ids_insert _ _ x).
    + done.
    + by world_simpl.
    + done.
    + intros p l Hp Hl. destruct (decide (p = S k)) as [->|Hne].
      * rewrite (insert_lookup_same _ _ _ _ Hx) in Hl. by injection Hl as <-.
      * rewrite list_lookup_insert_ne in Hl by done. apply (Hdone p l); [lia|done].
Qed.

(** X22: a run can be completed although every step failed.  When the first
    step is a condition without dependencies whose simulated execution fails,
    and every other step depends on a step before it, the run simulates that
    one step only, the first entry carries the simulated error, every other
    entry fails with "Dependencies not met", and the returned record is
    completed. *)
Theorem failed_condition_fails_every_step_of_a_completed_run head :
  NoDup (s_id <$> w_steps wf) ->
  rooted (w_steps wf) ->
  w_steps wf !! 0%nat = Some head ->
  s_type head = condition ->
  s_dependencies head = None ->
  Qle_bool (random env (S (random_draws w))) (5 # 100) = true ->
  exists ex w' ls call,
    executeWorkflow env wf onProgress w = Returns ex w' /\
    status ex = ex_completed /\
    heap w' !! logs ex = Some ls /\
    length ls = length (w_steps wf) /\
    simulations w' = simulations w ++ [call] /\
    success (call_result call) = false /\
    forall p l, ls !! p = Some l ->
                log_status l = failed /\
                log_error l
                = Some (match p with
                        | O => "Simulated execution error"
                        | S _ => "Dependencies not met"
                        end).
Proof.
  intros Hnd Hroot Hhead Htype Hnone Hfail.
  assert (Hlen0 : (1 <= length (w_steps wf))%nat).
  { apply lookup_lt_Some in Hhead. lia. }
  destruct (failed_head_after head _ Hnd Hroot Hhead Htype Hnone Hfail
              (conj Hlen0 (le_n (length (w_steps wf)))))
    as (ex & wk & ls & call & E & Hls & Hids & Hst & Hsim & Hcall & Hdone).
  rewrite executeWorkflow_after, E.
  destruct (finish_spec env onProgress (snd (Next, ex)) wk)
    as (ex' & w' & -> & Hlogs & Hstat & Hheap & Hsim' & _).
  assert (Hlen : length ls = length (w_steps wf)).
  { by rewrite <- (length_fmap stepId), Hids, length_fmap. }
  exists ex', w', ls, call. split_and!; try done.
  - simpl in Hstat. by rewrite Hstat, Hst.
  - by rewrite Hheap, Hlogs.
  - by rewrite Hsim'.
  - intros p l Hl. apply (Hdone p l); [|done].
    rewrite <- Hlen. by eapply lookup_lt_Some.
Qed.

End ChainProperties.

(** Witness of X22: the notification template under [env_first_fails]. *)
Lemma failed_condition_witness :
  exists ex w' ls call,
    Executor.executeWorkflow Examples.env_first_fails Examples.notify_workflow
      true world0 = Returns ex w' /\
    status ex = ex_completed /\
    heap w' !! logs ex = Some ls /\
    length ls = length (w_steps Examples.notify_workflow) /\
    simulations w' = simulations world0 ++ [call] /\
    success (call_result call) = false /\
    forall p l, ls !! p = Some l ->
                log_status l = failed /\
                log_error l
                = Some (match p with
                        | O => "Simulated execution error"
                        | S _ => "Dependencies not met"
                        end).
Proof.
  eapply (failed_condition_fails_every_step_of_a_completed_run
            Examples.env_first_fails Examples.notify_workflow true world0).
  - apply (bool_decide_unpack _). vm_compute. reflexivity.
  - apply ChainFacts.hangs_sound. vm_compute. reflexivity.
  - vm_compute. reflexivity.
  - reflexivity.
  - reflexivity.
  - reflexivity.
Defined.

(** * The project setup template *)

Module SetupFacts.
Import Str Generator.

Lemma detectFramework_range input :
  detectFramework input ∈ ["React"; "Vue"; "Angular"; "Next.js"; "Svelte"].
Proof.
  unfold detectFramework.
  repeat match goal with
         | |- context [if ?b then _ else _] => destruct b
         end; set_solver.
Qed.

(** The packages: never none; the placeholder alone, or known packages in
    their fixed order; "jest" and "vitest" are among them exactly when the
    text names them. *)
Lemma detectPackages_spec input :
  (detectPackages input = ["standard-dependencies"] \/
   (detectPackages input <> [] /\
    detectPackages input
      `sublist_of` ["typescript"; "eslint"; "prettier"; "tailwindcss"; "jest";
                    "vitest"])) /\
  ("jest" ∈ detectPackages input <-> includes input "jest" = true) /\
  ("vitest" ∈ detectPackages input <-> includes input "vitest" = true).
Proof.
  unfold detectPackages.
  destruct (includes input "typescript" || includes input "ts");
    destruct (includes input "eslint"); destruct (includes input "prettier");
    destruct (includes input "tailwind"); destruct (includes input "jest");
    destruct (includes input "vitest"); cbn;
    (split; [first [ by left
                   | right; split; [done|];
                     repeat first [ apply sublist_nil | apply sublist_skip
                                  | apply sublist_cons ] ]|]);
    split; split; intros H;
    first [ done
          | apply (bool_decide_unpack _); vm_compute; reflexivity
          | apply (bool_decide_pack _) in H; vm_compute in H; destruct H ].
Qed.

End SetupFacts.

Section SetupProperties.
Import Str Generator Shapes SetupFacts.

Variable env : Env.

(** X23: a project setup is consistent with itself: the framework of the
    first step, one of five, also makes its command and the name of the
    workflow; the packages of the second step are never none (the
    placeholder alone, or known packages in their fixed order); and whenever
    "jest" or "vitest" is installed, the step [Configure Testing] is there
    and configures "vitest" exactly when "vitest" is installed. *)
Theorem setup_packages_and_testing_agree userInput input w :
  exists wfl w' step1 step2 fw pk,
    generateAppSetupWorkflow env userInput input w = Returns wfl w' /\
    w_steps wfl !! 0%nat = Some step1 /\
    w_steps wfl !! 1%nat = Some step2 /\
    fw ∈ ["React"; "Vue"; "Angular"; "Next.js"; "Svelte"] /\
    s_config step1 !! "framework" = Some (JStr fw) /\
    s_config step1 !! "command" = Some (JStr ("create-" +:+ fw +:+ "-app")) /\
    w_name wfl = fw +:+ " Project Setup" /\
    s_config step2 !! "packages" = Some (JStrings pk) /\
    (pk = ["standard-dependencies"] \/
     (pk <> [] /\
      pk `sublist_of` ["typescript"; "eslint"; "prettier"; "tailwindcss"; "jest";
                       "vitest"])) /\
    ("jest" ∈ pk \/ "vitest" ∈ pk ->
     exists step3,
       w_steps wfl !! 2%nat = Some step3 /\
       s_title step3 = "Configure Testing" /\
       s_config step3 !! "testFramework"
       = Some (JStr (if bool_decide ("vitest" ∈ pk) then "vitest" else "jest"))).
Proof.
  destruct (detectPackages_spec input) as (Hshape & Hjest & Hvitest).
  unfold generateAppSetupWorkflow.
  destruct (includes input "test" || includes input "jest"
            || includes input "vitest") eqn:Et.
  - eexists _, _, _, _, (detectFramework input), (detectPackages input).
    split; [reflexivity|]. cbn.
    split; [reflexivity|]. split; [reflexivity|].
    split; [apply detectFramework_range|].
    split; [reflexivity|]. split; [reflexivity|]. split; [reflexivity|].
    split; [reflexivity|]. split; [exact Hshape|].
    intros _. eexists. split; [reflexivity|]. split; [reflexivity|]. cbn.
    destruct (includes input "vitest") eqn:Ev.
    + rewrite bool_decide_eq_true_2 by (by apply Hvitest). reflexivity.
    + rewrite bool_decide_eq_false_2; [reflexivity|].
      intros Hin. apply Hvitest in Hin. discriminate Hin.
  - eexists _, _, _, _, (detectFramework input), (detectPackages input).
    split; [reflexivity|]. cbn.
    split; [reflexivity|]. split; [reflexivity|].
    split; [apply detectFramework_range|].
    split; [reflexivity|]. split; [reflexivity|]. split; [reflexivity|].
    split; [reflexivity|]. split; [exact Hshape|].
    apply orb_false_iff in Et as [Et Ev].
    apply orb_false_iff in Et as [_ Ej].
    intros [Hin|Hin]; [apply Hjest in Hin | apply Hvitest in Hin]; congruence.
Qed.

End SetupProperties.
